(** * QuackCore integration registry: a shallow embedding

    The development follows [src/quackcore/integrations/registry.py].
    Python objects are records of the attributes the registry probes,
    the registry table is an insertion-ordered dictionary, and every
    method of [IntegrationRegistry] is a computation in a small
    state-and-exception monad whose state is the registry object (its
    table and the calls made on its logger). *)

From Stdlib Require Import Ascii.
From stdpp Require Import base option list strings gmap.

Local Open Scope string_scope.
Local Open Scope list_scope.

(** ** Python values and objects *)

(** Attribute values, as far as the registry looks at them: it asks
    whether an attribute exists and whether its value is callable. *)
Inductive PyVal : Type :=
| VNone
| VBool (b : bool)
| VStr (s : string)
| VFunc (qualname : string).

Definition callable (v : PyVal) : bool :=
  match v with
  | VFunc _ => true
  | _ => false
  end.

(** An object as seen through the four attributes of the capability
    contract.  [None] means that the attribute is absent ([hasattr] is
    false); [name] and [version] hold a [str] when present, as the
    protocol declares them. *)
Record Obj : Type := mkObj {
  obj_class : string;
  obj_name : option string;
  obj_version : option string;
  obj_initialize : option PyVal;
  obj_is_available : option PyVal
}.

Definition hasattr {A : Type} (a : option A) : bool :=
  match a with
  | Some _ => true
  | None => false
  end.

(** [callable(o.attr)], reached only behind [hasattr(o, attr)]. *)
Definition callable_attr (a : option PyVal) : bool :=
  match a with
  | Some v => callable v
  | None => false
  end.

(** ** Exceptions

    The classes below all derive from [Exception]; [RuntimeError]
    stands for every class that none of the [except] clauses of the
    module names. *)
#[warnings="-register-all"]
Inductive exn : Type :=
| QuackError (message : string) (context : list (string * string))
             (original_error : option exn)
| ImportError (message : string)
| ModuleNotFoundError (message : string)
| AttributeError (message : string)
| TypeError (message : string)
| ValueError (message : string)
| RuntimeError (message : string).

Definition str_exn (e : exn) : string :=
  match e with
  | QuackError m _ _ => m
  | ImportError m => m
  | ModuleNotFoundError m => m
  | AttributeError m => m
  | TypeError m => m
  | ValueError m => m
  | RuntimeError m => m
  end.

Definition is_QuackError (e : exn) : bool :=
  match e with
  | QuackError _ _ _ => true
  | _ => false
  end.

(** [ModuleNotFoundError] is a subclass of [ImportError]. *)
Definition is_ImportError (e : exn) : bool :=
  match e with
  | ImportError _ | ModuleNotFoundError _ => true
  | _ => false
  end.

Definition is_AttributeError (e : exn) : bool :=
  match e with
  | AttributeError _ => true
  | _ => false
  end.

Definition is_TypeError (e : exn) : bool :=
  match e with
  | TypeError _ => true
  | _ => false
  end.

Definition is_ValueError (e : exn) : bool :=
  match e with
  | ValueError _ => true
  | _ => false
  end.

(** ** Insertion-ordered dictionaries with string keys *)

Module PyDict.
Section Dict.
Context {V : Type}.

(** [k in d] *)
Fixpoint contains (k : string) (d : list (string * V)) : bool :=
  match d with
  | [] => false
  | (k', _) :: d' => if String.eqb k' k then true else contains k d'
  end.

(** [d.get(k)] *)
Fixpoint get (k : string) (d : list (string * V)) : option V :=
  match d with
  | [] => None
  | (k', v) :: d' => if String.eqb k' k then Some v else get k d'
  end.

(** [d[k] = v]: an existing key keeps its place, a new one goes last. *)
Fixpoint set (k : string) (v : V) (d : list (string * V)) : list (string * V) :=
  match d with
  | [] => [(k, v)]
  | (k', v') :: d' =>
      if String.eqb k' k then (k', v) :: d' else (k', v') :: set k v d'
  end.

(** [del d[k]], used behind a membership test only. *)
Fixpoint del (k : string) (d : list (string * V)) : list (string * V) :=
  match d with
  | [] => []
  | (k', v') :: d' =>
      if String.eqb k' k then d' else (k', v') :: del k d'
  end.

Definition keys (d : list (string * V)) : list string := map fst d.
Definition values (d : list (string * V)) : list V := map snd d.

(** What the interpreter guarantees of every dictionary. *)
Definition wf (d : list (string * V)) : Prop := NoDup (keys d).
End Dict.
End PyDict.

(** ** The registry object and the monad of its methods *)

Inductive LogLevel : Type := DEBUG | INFO | WARNING | ERROR.

Record IntegrationRegistry : Type := mkRegistry {
  _integrations : list (string * Obj);
  logger : list (LogLevel * string)
}.

(** [IntegrationRegistry()] *)
Definition __init__ : IntegrationRegistry :=
  {| _integrations := []; logger := [] |}.

Inductive outcome (A : Type) : Type :=
| Return (a : A)
| Raise (e : exn).
Arguments Return {A} a.
Arguments Raise {A} e.

Definition M (A : Type) : Type :=
  IntegrationRegistry -> outcome A * IntegrationRegistry.

Definition ret {A : Type} (a : A) : M A := fun self => (Return a, self).

Definition bind {A B : Type} (m : M A) (k : A -> M B) : M B :=
  fun self =>
    match m self with
    | (Return a, self') => k a self'
    | (Raise e, self') => (Raise e, self')
    end.

Definition raise {A : Type} (e : exn) : M A := fun self => (Raise e, self).

(** [try: body / except ...: handler].  The handler answers [None] for
    an exception no clause matches, which then keeps propagating.  The
    state reached when the exception was raised is kept. *)
Definition try_except {A : Type} (body : M A) (handler : exn -> option (M A)) : M A :=
  fun self =>
    match body self with
    | (Return a, self') => (Return a, self')
    | (Raise e, self') =>
        match handler e with
        | Some h => h self'
        | None => (Raise e, self')
        end
    end.

Notation "x <~ m ;; k" := (bind m (fun x => k))
  (at level 100, m at next level, right associativity).
Notation "m ;;; k" := (bind m (fun _ => k))
  (at level 100, right associativity).

Definition get_table : M (list (string * Obj)) :=
  fun self => (Return (_integrations self), self).

Definition put_table (d : list (string * Obj)) : M unit :=
  fun self => (Return tt, {| _integrations := d; logger := logger self |}).

Definition log (lvl : LogLevel) (msg : string) : M unit :=
  fun self =>
    (Return tt, {| _integrations := _integrations self;
                   logger := logger self ++ [(lvl, msg)] |}).

(** [integration.name] *)
Definition getattr_name (o : Obj) : M string :=
  match obj_name o with
  | Some n => ret n
  | None => raise (AttributeError "name")
  end.

(** ** Table operations *)

Definition register (integration : Obj) : M unit :=
  integration_name <~ getattr_name integration ;;
  table <~ get_table ;;
  if PyDict.contains integration_name table then
    raise (QuackError
             ("Integration '" +:+ integration_name +:+ "' is already registered")
             [("integration_name", integration_name)] None)
  else
    put_table (PyDict.set integration_name integration table) ;;;
    log DEBUG ("Registered integration: " +:+ integration_name).

Definition unregister (name : string) : M bool :=
  table <~ get_table ;;
  if PyDict.contains name table then
    put_table (PyDict.del name table) ;;;
    log DEBUG ("Unregistered integration: " +:+ name) ;;;
    ret true
  else
    log WARNING ("Integration not found for unregistration: " +:+ name) ;;;
    ret false.

Definition get_integration (name : string) : M (option Obj) :=
  table <~ get_table ;;
  ret (PyDict.get name table).

(** The generator, run to exhaustion; [integration_type] is given by
    its [isinstance] test. *)
Definition get_integration_by_type (integration_type : Obj -> bool) : M (list Obj) :=
  table <~ get_table ;;
  ret (filter (fun integration => integration_type integration = true)
              (PyDict.values table)).

Definition list_integrations : M (list string) :=
  table <~ get_table ;;
  ret (PyDict.keys table).

Definition is_registered (name : string) : M bool :=
  table <~ get_table ;;
  ret (PyDict.contains name table).

(** ** The host environment

    What the registry reaches outside itself: the interpreter's module
    cache, the import machinery, the package metadata and the objects
    these hand back.  Calls into foreign code are given by their
    result, a returned object or a raised exception. *)

(** [PluginLoaderProtocol] *)
Record PluginLoader : Type := mkLoader {
  load_plugin : string -> outcome Obj
}.

(** What [entry.load()] hands back. *)
Inductive Loaded : Type :=
| LCallable (call : outcome Obj)
| LNotCallable.

(** [importlib.metadata.EntryPoint] *)
Record EntryPoint : Type := mkEntry {
  ep_name : string;
  ep_value : string;
  ep_load : outcome Loaded
}.

(** A class found in a module: its [__module__] (if it has one),
    whether it is the [IntegrationProtocol] class object itself, and
    what calling it without arguments does. *)
Record PyClass : Type := mkClass {
  cls___module__ : option string;
  cls_is_IntegrationProtocol : bool;
  cls_new : outcome Obj
}.

(** The value of a module attribute.  [AInaccessible] is a name that
    [dir] lists but [getattr] refuses with [AttributeError]. *)
Inductive ModAttr : Type :=
| AClass (c : PyClass)
| AFunction (call : outcome Obj)
| AValue
| AInaccessible.

(** A module object: [__name__], the attributes in [dir(module)]
    order, and the [loader] attribute read by [_get_plugin_loader]. *)
Record Module : Type := mkModule {
  mod___name__ : option string;
  mod_dir : list (string * ModAttr);
  mod_loader : option PluginLoader
}.

Record Env : Type := mkEnv {
  sys_modules : option (gmap string Module);
  import_module : string -> outcome Module;
  entry_points : string -> outcome (list EntryPoint)
}.

(** [getattr(module, attr_name)] *)
Definition module_getattr (module : Module) (attr_name : string) : outcome ModAttr :=
  match PyDict.get attr_name (mod_dir module) with
  | Some AInaccessible | None => Raise (AttributeError attr_name)
  | Some attr => Return attr
  end.

(** [hasattr(module, attr_name)] *)
Definition module_hasattr (module : Module) (attr_name : string) : bool :=
  match module_getattr module attr_name with
  | Return _ => true
  | Raise _ => false
  end.

(** [getattr(module, '__name__', default)] *)
Definition module_name_or (module : Module) (default : string) : string :=
  match mod___name__ module with
  | Some n => n
  | None => default
  end.

(** [isinstance(attr, type)] *)
Definition is_type (attr : ModAttr) : option PyClass :=
  match attr with
  | AClass c => Some c
  | _ => None
  end.

(** Calling a module attribute without arguments; [None] when it is
    not callable. *)
Definition call_attr (attr : ModAttr) : option (outcome Obj) :=
  match attr with
  | AClass c => Some (cls_new c)
  | AFunction call => Some call
  | AValue | AInaccessible => None
  end.

(** [attr_name.startswith("_")] *)
Definition starts_with_underscore (attr_name : string) : bool :=
  match attr_name with
  | String c _ => Ascii.eqb c "_"%char
  | EmptyString => false
  end.

(** Running foreign code inside a method. *)
Definition lift {A : Type} (r : outcome A) : M A := fun self => (r, self).

(** ** The acceptance checks written in the source *)

(** The six-conjunct test of [_load_integration_with_plugin_loader],
    [_load_integration_from_factory] and the class scan. *)
Definition structural_check (o : Obj) : bool :=
  hasattr (obj_name o) && hasattr (obj_version o) &&
  hasattr (obj_initialize o) && hasattr (obj_is_available o) &&
  callable_attr (obj_initialize o) && callable_attr (obj_is_available o).

(** The four-conjunct test applied to the [TestIntegration] instance. *)
Definition test_class_check (o : Obj) : bool :=
  hasattr (obj_name o) && hasattr (obj_version o) &&
  hasattr (obj_initialize o) && hasattr (obj_is_available o).

Fixpoint for_each {A : Type} (l : list A) (body : A -> M unit) : M unit :=
  match l with
  | [] => ret tt
  | x :: l' => body x ;;; for_each l' body
  end.

(** A [for] loop that appends to a local list. *)
Fixpoint for_collect {A B : Type} (l : list A) (acc : list B)
    (body : A -> list B -> M (list B)) : M (list B) :=
  match l with
  | [] => ret acc
  | x :: l' => acc' <~ body x acc ;; for_collect l' acc' body
  end.

(** ** Discovery *)

Section Discovery.

(** [isinstance(x, IntegrationProtocol)].  The protocol class lives in
    [quackcore.integrations.protocols]; the registry only applies the
    test, so it is a parameter here. *)
Variable isinstance_IntegrationProtocol : Obj -> bool.

Variable host : Env.

Definition _get_plugin_loader : option PluginLoader :=
  let module_name := "quackcore.plugins.discovery" in
  match sys_modules host with
  | None => None
  | Some modules_dict =>
      match modules_dict !! module_name ≫= mod_loader with
      | Some loader => Some loader
      | None =>
          match import_module host module_name with
          | Return discovery_module => mod_loader discovery_module
          | Raise _ => None
          end
      end
  end.

Definition _get_entry_points (group : string) : M (list EntryPoint) :=
  try_except (lift (entry_points host group))
    (fun e => Some (
       log WARNING ("Could not discover integrations using entry points: "
                    +:+ str_exn e) ;;;
       ret [])).

Definition _load_integration_from_entry (entry : EntryPoint)
    (plugin_loader : option PluginLoader) : M (option Obj) :=
  try_except (
    log DEBUG ("Loading integration from entry point: " +:+ ep_name entry) ;;;
    found <~ match plugin_loader with
             | Some loader =>
                 try_except (
                   plugin <~ lift (load_plugin loader (ep_value entry)) ;;
                   if isinstance_IntegrationProtocol plugin
                   then ret (Some plugin) else ret None)
                 (fun e =>
                    if is_ImportError e || is_AttributeError e then
                      Some (log DEBUG ("Plugin loader failed for " +:+ ep_name entry
                                       +:+ ": " +:+ str_exn e +:+ ", falling back") ;;;
                            ret None)
                    else None)
             | None => ret None
             end ;;
    match found with
    | Some plugin => ret (Some plugin)
    | None =>
        factory <~ lift (ep_load entry) ;;
        match factory with
        | LCallable call =>
            integration <~ lift call ;;
            if isinstance_IntegrationProtocol integration then
              ret (Some integration)
            else
              log WARNING ("Entry point " +:+ ep_name entry
                           +:+ " did not return an IntegrationProtocol") ;;;
              ret None
        | LNotCallable =>
            log WARNING ("Entry point " +:+ ep_name entry
                         +:+ " factory is not callable") ;;;
            ret None
        end
    end)
  (fun e =>
     let what :=
       if is_ImportError e || is_AttributeError e then
         "Failed to import integration from "
       else if is_TypeError e then "Type error loading integration from "
       else if is_ValueError e then "Value error loading integration from "
       else "Unexpected error loading integration from " in
     Some (log ERROR (what +:+ ep_name entry +:+ ": " +:+ str_exn e) ;;;
           ret None)).

(** The body of the loop of [discover_integrations]. *)
Definition discover_entry (plugin_loader : option PluginLoader)
    (entry : EntryPoint) (discovered_integrations : list Obj) : M (list Obj) :=
  integration <~ _load_integration_from_entry entry plugin_loader ;;
  match integration with
  | Some integration =>
      try_except (
        register integration ;;;
        ret (discovered_integrations ++ [integration]))
      (fun err =>
         if is_QuackError err then
           Some (log ERROR ("Error registering integration "
                            +:+ ep_name entry +:+ ": " +:+ str_exn err) ;;;
                 ret discovered_integrations)
         else None)
  | None => ret discovered_integrations
  end.

Definition discover_integrations : M (list Obj) :=
  let plugin_loader := _get_plugin_loader in
  entry_points_list <~ _get_entry_points "quackcore.integrations" ;;
  for_collect entry_points_list [] (discover_entry plugin_loader).

Definition _load_integration_with_plugin_loader (module_path : string)
    (plugin_loader : option PluginLoader) : M (option Obj) :=
  match plugin_loader with
  | Some loader =>
      try_except (
        plugin <~ lift (load_plugin loader module_path) ;;
        if structural_check plugin then ret (Some plugin) else ret None)
      (fun e =>
         if is_ImportError e || is_AttributeError e then
           Some (log DEBUG ("Could not load module " +:+ module_path
                            +:+ " using plugin loader: " +:+ str_exn e) ;;;
                 ret None)
         else if is_TypeError e || is_ValueError e then
           Some (log DEBUG ("Plugin loader error for " +:+ module_path
                            +:+ ": " +:+ str_exn e) ;;;
                 ret None)
         else None)
  | None => ret None
  end.

Definition _load_integration_from_factory (module : Module) : M (option Obj) :=
  if module_hasattr module "create_integration" then
    match module_getattr module "create_integration" with
    | Raise e => raise e
    | Return create_func =>
        match call_attr create_func with
        | Some call =>
            try_except (
              integration <~ lift call ;;
              if structural_check integration
              then ret (Some integration) else ret None)
            (fun e =>
               let what :=
                 if is_TypeError e || is_ValueError e
                 then "Error calling create_integration in "
                 else "Unexpected error in create_integration for " in
               Some (log ERROR (what +:+ module_name_or module "<unknown>"
                                +:+ ": " +:+ str_exn e) ;;;
                     ret None))
        | None => ret None
        end
    end
  else ret None.

(** The [TestIntegration] special case at the head of
    [_load_integrations_from_module]. *)
Definition scan_test_class (module : Module) : M (list Obj) :=
  if module_hasattr module "TestIntegration" then
    match module_getattr module "TestIntegration" with
    | Raise e => raise e
    | Return attr =>
        match is_type attr with
        | Some cls =>
            try_except (
              instance <~ lift (cls_new cls) ;;
              if test_class_check instance then ret [instance] else ret [])
            (fun e =>
               Some (log ERROR ("Error instantiating TestIntegration: "
                                +:+ str_exn e) ;;;
                     ret []))
        | None => ret []
        end
    end
  else ret [].

(** The condition under which the scan instantiates an attribute. *)
Definition defined_in (module : Module) (attr : ModAttr) : option PyClass :=
  match is_type attr with
  | Some cls =>
      match cls___module__ cls with
      | Some m =>
          if String.eqb m (module_name_or module "")
             && negb (cls_is_IntegrationProtocol cls)
          then Some cls else None
      | None => None
      end
  | None => None
  end.

(** One turn of the loop over [dir(module)]. *)
Definition scan_attribute (module : Module) (attr_name : string)
    (integrations : list Obj) : M (list Obj) :=
  if starts_with_underscore attr_name || String.eqb attr_name "TestIntegration"
  then ret integrations
  else
    try_except (
      attr <~ lift (module_getattr module attr_name) ;;
      match defined_in module attr with
      | Some cls =>
          try_except (
            instance <~ lift (cls_new cls) ;;
            if structural_check instance
            then ret (integrations ++ [instance])
            else ret integrations)
          (fun e =>
             let what :=
               if is_TypeError e || is_ValueError e
               then "Error instantiating "
               else "Unexpected error instantiating " in
             Some (log ERROR (what +:+ attr_name +:+ ": " +:+ str_exn e) ;;;
                   ret integrations))
      | None => ret integrations
      end)
    (fun _ => Some (ret integrations)).

Definition _load_integrations_from_module (module : Module) : M (list Obj) :=
  integrations <~ scan_test_class module ;;
  for_collect (PyDict.keys (mod_dir module)) integrations
    (scan_attribute module).

(** The module lookup of [load_integration_module]: the cache first,
    then the import, every failure turned into a [QuackError]. *)
Definition resolve_module (module_path : string) : M Module :=
  try_except (
    let modules_dict := default ∅ (sys_modules host) in
    match modules_dict !! module_path with
    | Some module => ret module
    | None =>
        try_except (lift (import_module host module_path))
          (fun e =>
             if is_ImportError e then
               let error_msg := "Failed to import module " +:+ module_path
                                +:+ ": " +:+ str_exn e in
               Some (log ERROR error_msg ;;;
                     raise (QuackError error_msg
                              [("module_path", module_path); ("error", str_exn e)]
                              (Some e)))
             else None)
    end)
  (fun e =>
     let error_msg := "Error accessing module " +:+ module_path
                      +:+ ": " +:+ str_exn e in
     Some (log ERROR error_msg ;;;
           raise (QuackError error_msg
                    [("module_path", module_path); ("error", str_exn e)]
                    (Some e)))).

(** [try: self.register(x); loaded.append(x); return loaded] with its
    [except QuackError]: [Some] is the early return. *)
Definition register_and_return (integration : option Obj) (source : string)
    : M (option (list Obj)) :=
  match integration with
  | Some integration =>
      try_except (
        register integration ;;;
        ret (Some [integration]))
      (fun err =>
         if is_QuackError err then
           Some (log ERROR ("Error registering integration from " +:+ source
                            +:+ ": " +:+ str_exn err) ;;;
                 ret None)
         else None)
  | None => ret None
  end.

(** The first block of [load_integration_module]: the plugin loader,
    when there is one, is asked before anything else. *)
Definition plugin_loader_step (module_path : string) : M (option (list Obj)) :=
  let plugin_loader := _get_plugin_loader in
  match plugin_loader with
  | Some _ =>
      integration <~ _load_integration_with_plugin_loader
                       module_path plugin_loader ;;
      register_and_return integration "plugin loader"
  | None => ret None
  end.

(** The loop that registers what the class scan found, and its body. *)
Definition register_scanned_body (integ : Obj) (loaded_integrations : list Obj)
    : M (list Obj) :=
  try_except (
    register integ ;;;
    ret (loaded_integrations ++ [integ]))
  (fun err =>
     if is_QuackError err then
       Some (integ_name <~ getattr_name integ ;;
             log ERROR ("Error registering integration "
                        +:+ integ_name +:+ ": " +:+ str_exn err) ;;;
             ret loaded_integrations)
     else None).

Definition register_scanned (integrations_from_module : list Obj) : M (list Obj) :=
  for_collect integrations_from_module [] register_scanned_body.

(** The rest of [load_integration_module], from the comment
    "Fallback to manual module loading" on. *)
Definition manual_module_loading (module_path : string) : M (list Obj) :=
  module <~ resolve_module module_path ;;
  (* Try to load using a factory function *)
  integration <~ _load_integration_from_factory module ;;
  early <~ register_and_return integration "create_integration" ;;
  match early with
  | Some loaded_integrations => ret loaded_integrations
  | None =>
      (* Otherwise, search for integration classes defined in the module *)
      integrations_from_module <~ _load_integrations_from_module module ;;
      loaded_integrations <~ register_scanned integrations_from_module ;;
      match loaded_integrations with
      | [] => log WARNING ("No integrations found in module " +:+ module_path)
      | _ => ret tt
      end ;;;
      ret loaded_integrations
  end.

Definition load_integration_module (module_path : string) : M (list Obj) :=
  (* Try to load using the plugin loader first *)
  early <~ plugin_loader_step module_path ;;
  match early with
  | Some loaded_integrations => ret loaded_integrations
  | None => manual_module_loading module_path
  end.

End Discovery.

(** * The vocabulary of the statements *)

Section Vocabulary.
Variable isinstance_IntegrationProtocol : Obj → bool.
Variable host : Env.

(** The [QuackError] that [register] raises for a name that is taken. *)
Definition duplicate_error (n : string) : exn :=
  QuackError ("Integration '" +:+ n +:+ "' is already registered")
             [("integration_name", n)] None.

(** The registry after a successful [register]. *)
Definition registered (integration : Obj) (n : string)
    (self : IntegrationRegistry) : IntegrationRegistry :=
  {| _integrations := _integrations self ++ [(n, integration)];
     logger := logger self ++ [(DEBUG, "Registered integration: " +:+ n)] |}.

(** Registering one instance after the other. *)
Definition register_all (instances : list Obj) : M unit :=
  for_each instances register.

(** The plugin loader leaves the descriptor to its own [load()]:
    there is no loader, or it hands back something that is not an
    [IntegrationProtocol], or it fails with one of the two exception
    classes of the inner [except]. *)
Definition loader_declines (plugin_loader : option PluginLoader)
    (entry : EntryPoint) : bool :=
  match plugin_loader with
  | None => true
  | Some loader =>
      match load_plugin loader (ep_value entry) with
      | Return plugin => negb (isinstance_IntegrationProtocol plugin)
      | Raise e => is_ImportError e || is_AttributeError e
      end
  end.






(** Where the module comes from: the cache, else the import. *)
Definition find_module (module_path : string) : outcome Module :=
  match default ∅ (sys_modules host) !! module_path with
  | Some module => Return module
  | None => import_module host module_path
  end.

(** The inner [except ImportError] re-raises as a [QuackError]; other
    exceptions pass through it. *)
Definition import_failure (module_path : string) (e : exn) : exn :=
  if is_ImportError e then
    QuackError ("Failed to import module " +:+ module_path +:+ ": " +:+ str_exn e)
               [("module_path", module_path); ("error", str_exn e)] (Some e)
  else e.

(** The error of the outer [except Exception]. *)
Definition module_load_error (module_path : string) (cause : exn) : exn :=
  QuackError ("Error accessing module " +:+ module_path +:+ ": " +:+ str_exn cause)
             [("module_path", module_path); ("error", str_exn cause)] (Some cause).

(** The plugin-loader block hands nothing on: no loader, or an object
    failing the structural check, or one of the four exception classes
    its helper catches. *)
Definition plugin_supplies_nothing (module_path : string) : bool :=
  match _get_plugin_loader host with
  | None => true
  | Some loader =>
      match load_plugin loader module_path with
      | Return o => negb (structural_check o)
      | Raise e => is_ImportError e || is_AttributeError e
                   || is_TypeError e || is_ValueError e
      end
  end.

Definition logged (lvl : LogLevel) (msg : string)
    (self : IntegrationRegistry) : IntegrationRegistry :=
  {| _integrations := _integrations self;
     logger := logger self ++ [(lvl, msg)] |}.

Definition factory_candidate (module : Module) : option Obj :=
  match module_getattr module "create_integration" with
  | Return create_func =>
      match call_attr create_func with
      | Some (Return o) => if structural_check o then Some o else None
      | _ => None
      end
  | Raise _ => None
  end.

Definition test_candidate (module : Module) : list Obj :=
  match module_getattr module "TestIntegration" with
  | Return (AClass cls) =>
      match cls_new cls with
      | Return o => if test_class_check o then [o] else []
      | Raise _ => []
      end
  | _ => []
  end.

Definition scan_candidate (module : Module) (attr_name : string) : option Obj :=
  if starts_with_underscore attr_name || String.eqb attr_name "TestIntegration"
  then None
  else
    match module_getattr module attr_name with
    | Return attr =>
        match defined_in module attr with
        | Some cls =>
            match cls_new cls with
            | Return o => if structural_check o then Some o else None
            | Raise _ => None
            end
        | None => None
        end
    | Raise _ => None
    end.

Definition scan_module (module : Module) : list Obj :=
  test_candidate module
  ++ omap (scan_candidate module) (PyDict.keys (mod_dir module)).

(** A module none of whose callables produces an acceptable object;
    for the [TestIntegration] class that is an object lacking one of
    the four attributes. *)
Definition no_conformant_integration (module : Module) : Prop :=
  ∀ attr_name attr o,
    module_getattr module attr_name = Return attr →
    call_attr attr = Some (Return o) →
    (if String.eqb attr_name "TestIntegration"
     then test_class_check o else structural_check o) = false.

Definition is_public (attr_name : string) : Prop :=
  starts_with_underscore attr_name = false.

(** A computation that keeps an invariant of the table, whether it
    returns or raises. *)
Definition preserves (I : list (string * Obj) → Prop) {A : Type} (m : M A) : Prop :=
  ∀ self r self',
    I (_integrations self) → m self = (r, self') → I (_integrations self').

(** The registries that the public methods produce from a new one. *)
Inductive reachable : IntegrationRegistry → Prop :=
| reach_init : reachable __init__
| reach_register integration self r self' :
    reachable self →
    register integration self = (r, self') →
    reachable self'
| reach_unregister name self r self' :
    reachable self →
    unregister name self = (r, self') →
    reachable self'
| reach_discover self r self' :
    reachable self →
    discover_integrations isinstance_IntegrationProtocol host self = (r, self') →
    reachable self'
| reach_load module_path self r self' :
    reachable self →
    load_integration_module host module_path self = (r, self') →
    reachable self'.

End Vocabulary.

(** ** The provider registry *)

Module ProviderRegistry.

(** Modelled from the spec: the provider registry module
    [quackcore.integrations.llms.registry], of which the repository
    part studied here holds the tests only.  The table maps lowercased
    provider names to constructors; a constructor takes the option
    bundle and returns a client or fails. *)
Inductive OptVal : Type :=
| OStr (s : string)
| OList (l : list string)
| OCounts (l : list nat).

(** Modelled from the spec: the named-option bundle handed to a
    constructor as it is. *)
Definition Options : Type := list (string * OptVal).

(** Modelled from the spec: a client, as far as a caller can observe
    it: the pass-through test client with its scripted responses and
    token counts, or a backend client with the provider it belongs to
    and the options it was built from. *)
Inductive Client : Type :=
| MockClient (script : list string) (token_counts : list nat)
| BackendClient (provider : string) (options : Options).

(** Modelled from the spec: a constructor returns a client or fails. *)
Definition Constructor : Type := Options → outcome Client.

(** Modelled from the spec: the two error kinds of [resolve], a lookup
    miss and a construction failure wrapping its cause. *)
Inductive ProviderError : Type :=
| UnsupportedProviderError (message : string)
| ProviderConstructionError (provider : string) (cause : exn).

(** [str.lower] on ASCII text: the letters A to Z are lowered and
    every other character is kept. *)
Definition lower_ascii (c : ascii) : ascii :=
  let n := nat_of_ascii c in
  if (65 <=? n)%nat && (n <=? 90)%nat then ascii_of_nat (n + 32) else c.

Fixpoint ascii_lower (s : string) : string :=
  match s with
  | EmptyString => EmptyString
  | String c s' => String (lower_ascii c) (ascii_lower s')
  end.

(** Text made of ASCII characters only. *)
Fixpoint is_ascii_text (s : string) : bool :=
  match s with
  | EmptyString => true
  | String c s' => (nat_of_ascii c <? 128)%nat && is_ascii_text s'
  end.

Section Resolve.

(** Modelled from the spec: the lowercasing of provider names,
    Python's [str.lower], which folds the letters of every script; it
    is taken as a parameter. *)
Variable lower : string → string.

(** Modelled from the spec: the message of the lookup miss, which
    enumerates the registered names (the tests expect the two fixed
    parts of it). *)
Definition unsupported_message (provider_name : string)
    (table : list (string * Constructor)) : string :=
  "Unsupported LLM provider: " +:+ provider_name
  +:+ ". Registered providers: " +:+ String.concat ", " (PyDict.keys table).

(** Modelled from the spec: [resolve(provider_name, **options)]. *)
Definition resolve (table : list (string * Constructor))
    (provider_name : string) (options : Options) : ProviderError + Client :=
  let provider_lower := lower provider_name in
  match PyDict.get provider_lower table with
  | None => inl (UnsupportedProviderError (unsupported_message provider_name table))
  | Some constructor =>
      match constructor options with
      | Return client => inr client
      | Raise e => inl (ProviderConstructionError provider_lower e)
      end
  end.

(** Modelled from the spec: [register(name, constructor)], which
    lowercases the name and overwrites. *)
Definition register (name : string) (constructor : Constructor)
    (table : list (string * Constructor)) : list (string * Constructor) :=
  PyDict.set (lower name) constructor table.

End Resolve.

(** Modelled from the spec: the constructor of the test provider. *)
Definition mock_constructor : Constructor :=
  fun options =>
    Return (MockClient
              (match PyDict.get "script" options with
               | Some (OList l) => l
               | _ => []
               end)
              (match PyDict.get "token_counts" options with
               | Some (OCounts l) => l
               | _ => []
               end)).

(** Modelled from the spec: a backend constructor, which fails for
    missing credentials. *)
Definition backend_constructor (provider : string) : Constructor :=
  fun options =>
    match PyDict.get "api_key" options with
    | Some (OStr _) => Return (BackendClient provider options)
    | _ => Raise (ValueError ("API key not provided for " +:+ provider))
    end.

(** Modelled from the spec: the initial catalogue named by the tests,
    its keys in lowercase. *)
Definition _LLM_REGISTRY : list (string * Constructor) :=
  [("openai", backend_constructor "openai");
   ("anthropic", backend_constructor "anthropic");
   ("mock", mock_constructor)].

End ProviderRegistry.

(** ** Concrete registries and hosts *)

Module Examples.

Definition conformant (n : string) : Obj :=
  mkObj "Integration" (Some n) (Some "1.0")
        (Some (VFunc "initialize")) (Some (VFunc "is_available")).

(** An object with the four attributes whose [initialize] is a string. *)
Definition half_baked : Obj :=
  mkObj "TestIntegration" (Some "fixture") (Some "0.1")
        (Some (VStr "pending")) (Some (VFunc "is_available")).

Definition nameless : Obj :=
  mkObj "object" None None None None.

Definition alpha_registry : IntegrationRegistry :=
  {| _integrations := [("alpha", conformant "alpha")]; logger := [] |}.

Definition no_import (module_path : string) : outcome Module :=
  Raise (ModuleNotFoundError ("No module named " +:+ module_path)).

(** A module whose only attribute is a [TestIntegration] class. *)
Definition fixture_module : Module :=
  mkModule (Some "pkg.fixture")
    [("TestIntegration",
      AClass (mkClass (Some "pkg.fixture") false (Return half_baked)))]
    None.

(** A module with two classes of its own and some private names. *)
Definition two_class_module : Module :=
  mkModule (Some "pkg.two")
    [("First", AClass (mkClass (Some "pkg.two") false (Return (conformant "first"))));
     ("Second", AClass (mkClass (Some "pkg.two") false (Return (conformant "second"))));
     ("__doc__", AValue);
     ("__name__", AValue)]
    None.

Definition factory_module : Module :=
  mkModule (Some "pkg.factory")
    [("create_integration", AFunction (Return (conformant "beta")))]
    None.

Definition empty_module : Module :=
  mkModule (Some "pkg.empty")
    [("__name__", AValue); ("helper", AFunction (Return nameless))]
    None.

(** A host without plugin loader, with three entry points. *)
Definition plain_host : Env :=
  mkEnv (Some {[ "pkg.two" := two_class_module;
                 "pkg.factory" := factory_module;
                 "pkg.empty" := empty_module ]})
        no_import
        (fun _ => Return
           [mkEntry "broken" "pkg.broken:make" (Return (LCallable (Return nameless)));
            mkEntry "alpha" "pkg.alpha:make" (Return (LCallable (Return (conformant "alpha"))));
            mkEntry "missing" "pkg.missing:make" (Raise (ImportError "pkg.missing"))]).

(** A host whose plugin loader answers every identifier with the same
    conformant instance. *)
Definition alpha_loader : PluginLoader :=
  mkLoader (fun _ => Return (conformant "alpha")).

Definition discovery_module : Module :=
  mkModule (Some "quackcore.plugins.discovery") [] (Some alpha_loader).

Definition plugin_host : Env :=
  mkEnv (Some {[ "quackcore.plugins.discovery" := discovery_module;
                 "pkg.factory" := factory_module ]})
        no_import
        (fun _ => Return []).

End Examples.

(** ** Invariants of the table and candidates of discovery *)

Section MoreVocabulary.
Variable isinstance_IntegrationProtocol : Obj → bool.

(** Every entry is stored under the [name] of its instance. *)
Definition named_table (table : list (string * Obj)) : Prop :=
  ∀ k v, (k, v) ∈ table → obj_name v = Some k.

(** The invariant of the table: unique keys, each the name of its
    instance. *)
Definition keyed_by_name (table : list (string * Obj)) : Prop :=
  PyDict.wf table ∧ named_table table.

(** What [_load_integration_from_entry] hands back, without the
    logging: the plugin loader's object if it is an
    [IntegrationProtocol]; the result of the entry point's own factory
    when there is no loader, when the loader's object is rejected or
    when the loader fails with [ImportError] or [AttributeError];
    nothing after any other failure. *)
Definition entry_candidate (plugin_loader : option PluginLoader)
    (entry : EntryPoint) : option Obj :=
  let from_entry :=
    match ep_load entry with
    | Return (LCallable (Return integration)) =>
        if isinstance_IntegrationProtocol integration
        then Some integration else None
    | _ => None
    end in
  match plugin_loader with
  | None => from_entry
  | Some loader =>
      match load_plugin loader (ep_value entry) with
      | Return plugin =>
          if isinstance_IntegrationProtocol plugin then Some plugin
          else from_entry
      | Raise e =>
          if is_ImportError e || is_AttributeError e then from_entry
          else None
      end
  end.

(** None of the four exception classes that
    [_load_integration_with_plugin_loader] catches. *)
Definition uncaught_by_plugin_step (e : exn) : bool :=
  negb (is_ImportError e || is_AttributeError e
        || is_TypeError e || is_ValueError e).

End MoreVocabulary.

(** * Configuration loading

    The pure part of [src/quackcore/config/loader.py]: configuration
    dictionaries and their deep merge. *)

Module ConfigLoader.

(** The values of a configuration ([Any]): the merge only asks
    whether a value is a [dict]. *)
Inductive Atom : Type :=
| ANone
| ABool (b : bool)
| AInt (z : Z)
| AStr (s : string).

#[warnings="-register-all"]
Inductive Value : Type :=
| Leaf (a : Atom)
| Dict (items : list (string * Value)).

(** What one turn of the loop of [_deep_merge] stores under [key],
    given [result.get(key)]: the merge of the two dictionaries when
    both values are dictionaries, else the overriding value.  The inner
    loop is that of [_deep_merge] below. *)
Fixpoint merged_entry (current : option Value) (value : Value) {struct value}
    : Value :=
  match current, value with
  | Some (Dict base), Dict override =>
      Dict ((fix loop (result items : list (string * Value)) {struct items}
               : list (string * Value) :=
               match items with
               | [] => result
               | (key, value) :: rest =>
                   loop (PyDict.set key
                           (merged_entry (PyDict.get key result) value) result)
                        rest
               end) base override)
  | _, _ => value
  end.

(** [_deep_merge(base, override)]: [result = base.copy()], then one
    assignment per item of [override], in order. *)
Definition _deep_merge (base override : list (string * Value))
    : list (string * Value) :=
  fold_left
    (fun result item =>
       PyDict.set item.1 (merged_entry (PyDict.get item.1 result) item.2) result)
    override base.

(** A dictionary whose keys are unique at every level, as every
    Python dictionary has them. *)
Fixpoint deep_wf (v : Value) : Prop :=
  match v with
  | Leaf _ => True
  | Dict items =>
      PyDict.wf items ∧
      (fix all (l : list (string * Value)) : Prop :=
         match l with
         | [] => True
         | item :: rest => deep_wf item.2 ∧ all rest
         end) items
  end.

(** The number of constructors of a value. *)
Fixpoint size (v : Value) : nat :=
  match v with
  | Leaf _ => 1
  | Dict items =>
      S ((fix sum (l : list (string * Value)) : nat :=
            match l with
            | [] => 0
            | item :: rest => size item.2 + sum rest
            end) items)
  end.

End ConfigLoader.

(** * Safe file operations

    [src/quackcore/fs/utils/safe_ops.py].  The file system, the
    queries on it ([Path.exists], [Path.is_dir]) and the library calls
    that change it ([shutil], [Path.unlink], [ensure_directory]) are
    parameters: a query answers or raises, a call either succeeds or
    raises, and in both cases leaves a file system behind. *)

Module SafeOps.

(** The Quack errors the three functions raise, with the arguments
    the source gives them. *)
Inductive SafeOpError (PyExn : Type) : Type :=
| QuackFileNotFoundError (path : string)
| QuackFileExistsError (path : string)
| QuackPermissionError (path : string) (operation : string)
                       (original_error : PyExn)
| QuackIOError (message : string) (path : string) (original_error : PyExn).
Arguments QuackFileNotFoundError {PyExn} path.
Arguments QuackFileExistsError {PyExn} path.
Arguments QuackPermissionError {PyExn} path operation original_error.
Arguments QuackIOError {PyExn} message path original_error.

(** What leaves the body of one of the functions as an exception: a
    Quack error of its own [raise] statements, or the exception of a
    call that stands outside the [try] and is handed on as it is. *)
Inductive Raised (PyExn : Type) : Type :=
| Quack (error : SafeOpError PyExn)
| Uncaught (original : PyExn).
Arguments Quack {PyExn} error.
Arguments Uncaught {PyExn} original.

(** The file system together with the calls made on the module's
    logger. *)
Record World (FS : Type) : Type := mkWorld {
  fs : FS;
  log_records : list (LogLevel * string)
}.
Arguments mkWorld {FS} fs log_records.
Arguments fs {FS} w.
Arguments log_records {FS} w.

(** Computations on the world that return or raise an [E]. *)
Definition Op (FS E A : Type) : Type := World FS → (E + A) * World FS.

Definition op_ret {FS E A : Type} (a : A) : Op FS E A := fun w => (inr a, w).

Definition op_raise {FS E A : Type} (e : E) : Op FS E A := fun w => (inl e, w).

Definition op_bind {FS E A B : Type} (m : Op FS E A) (k : A → Op FS E B)
    : Op FS E B :=
  fun w =>
    match m w with
    | (inr a, w') => k a w'
    | (inl e, w') => (inl e, w')
    end.

Definition op_log {FS E : Type} (lvl : LogLevel) (msg : string) : Op FS E unit :=
  fun w => (inr tt, mkWorld (fs w) (log_records w ++ [(lvl, msg)])).

(** What the functions reach outside themselves.  The exceptions of
    the library calls are told apart by [except PermissionError].
    [Path] gives the text of the object [Path(arg)], which need not be
    the text of [arg]; [path_exists] and [path_is_dir] are
    [Path.exists] and [Path.is_dir], which answer or raise (an
    [OSError] for a name that is too long, say); [parent] is
    [Path.parent]; a call that changes the file system answers [None]
    for success.  [wrap_io_errors], the decorator of the three
    functions, is declared in [quackcore.errors]. *)
Record Host (FS PyExn : Type) : Type := mkHost {
  is_PermissionError : PyExn → bool;
  str_of : PyExn → string;
  Path : string → string;
  parent : string → string;
  path_exists : string → FS → PyExn + bool;
  path_is_dir : string → FS → PyExn + bool;
  rmtree : string → FS → option PyExn * FS;
  unlink : string → FS → option PyExn * FS;
  ensure_directory : string → FS → option PyExn * FS;
  copytree : string → string → FS → option PyExn * FS;
  copy2 : string → string → FS → option PyExn * FS;
  move : string → string → FS → option PyExn * FS;
  wrap_io_errors :
    ∀ A : Type, Op FS (Raised PyExn) A → Op FS (Raised PyExn) A
}.
Arguments is_PermissionError {FS PyExn} h e.
Arguments str_of {FS PyExn} h e.
Arguments Path {FS PyExn} h arg.
Arguments parent {FS PyExn} h p.
Arguments path_exists {FS PyExn} h p fs.
Arguments path_is_dir {FS PyExn} h p fs.
Arguments rmtree {FS PyExn} h p fs.
Arguments unlink {FS PyExn} h p fs.
Arguments ensure_directory {FS PyExn} h p fs.
Arguments copytree {FS PyExn} h src dst fs.
Arguments copy2 {FS PyExn} h src dst fs.
Arguments move {FS PyExn} h src dst fs.
Arguments wrap_io_errors {FS PyExn} h {A} m.

Section Ops.
Context {FS PyExn : Type}.
Variable host : Host FS PyExn.

(** A library call. *)
Definition call (f : FS → option PyExn * FS) : Op FS PyExn unit :=
  fun w =>
    match f (fs w) with
    | (None, fs') => (inr tt, mkWorld fs' (log_records w))
    | (Some e, fs') => (inl e, mkWorld fs' (log_records w))
    end.

(** [path.exists()] and [path.is_dir()] on the current file system. *)
Definition exists_now (path : string) : Op FS PyExn bool :=
  fun w => (path_exists host path (fs w), w).

Definition is_dir_now (path : string) : Op FS PyExn bool :=
  fun w => (path_is_dir host path (fs w), w).

(** A call that stands outside the [try]: its exception leaves the
    function as it is. *)
Definition outside_try {A : Type} (m : Op FS PyExn A) : Op FS (Raised PyExn) A :=
  fun w =>
    match m w with
    | (inr a, w') => (inr a, w')
    | (inl e, w') => (inl (Uncaught e), w')
    end.

(** [try: body / except PermissionError ... / except Exception ...] *)
Definition try_io {A : Type} (body : Op FS PyExn A)
    (handler : PyExn → Op FS (Raised PyExn) A) : Op FS (Raised PyExn) A :=
  fun w =>
    match body w with
    | (inr a, w') => (inr a, w')
    | (inl e, w') => handler e w'
    end.

(** The two [except] clauses shared by the three functions. *)
Definition translate {A : Type} (operation past : string) (what path : string)
    (e : PyExn) : Op FS (Raised PyExn) A :=
  if is_PermissionError host e then
    op_bind (op_log ERROR ("Permission denied when " +:+ past +:+ " " +:+ what
                           +:+ ": " +:+ str_of host e))
      (fun _ => op_raise (Quack (QuackPermissionError path operation e)))
  else
    op_bind (op_log ERROR ("Failed to " +:+ operation +:+ " " +:+ what
                           +:+ ": " +:+ str_of host e))
      (fun _ => op_raise (Quack (QuackIOError
                                   ("Failed to " +:+ operation +:+ " " +:+ what
                                    +:+ ": " +:+ str_of host e) path e))).

(** The Quack errors of [safe_copy] and [safe_move] for [operation]
    from [src] to [dst]: the two guard errors, and the errors the two
    [except] clauses make of the exception of a call inside the
    [try]. *)
Definition transfer_error (operation src dst : string) (e : SafeOpError PyExn)
    : Prop :=
  match e with
  | QuackFileNotFoundError p => p = src
  | QuackFileExistsError p => p = dst
  | QuackPermissionError p op original =>
      p = dst ∧ op = operation ∧ is_PermissionError host original = true
  | QuackIOError _ p original =>
      p = dst ∧ is_PermissionError host original = false
  end.

(** The Quack errors of [safe_delete] for [path]. *)
Definition delete_error (path : string) (e : SafeOpError PyExn) : Prop :=
  match e with
  | QuackFileNotFoundError p => p = path
  | QuackFileExistsError _ => False
  | QuackPermissionError p op original =>
      p = path ∧ op = "delete" ∧ is_PermissionError host original = true
  | QuackIOError _ p original =>
      p = path ∧ is_PermissionError host original = false
  end.

(** What [safe_copy] and [safe_move] answer once the [exists()] calls
    of the guards have answered: they return [Path(dst)] or raise one
    of their Quack errors, and hand on no other exception. *)
Definition transfer_outcome (operation src dst : string)
    (r : Raised PyExn + string) : Prop :=
  match r with
  | inr p => p = Path host dst
  | inl (Quack e) => transfer_error operation src dst e
  | inl (Uncaught _) => False
  end.

(** What [safe_delete] answers once [exists()] has answered
    [existed]: whether the path existed, or one of its Quack errors,
    the one for a missing path only when the path did not exist. *)
Definition delete_outcome (path : string) (existed : bool)
    (r : Raised PyExn + bool) : Prop :=
  match r with
  | inr deleted => deleted = existed
  | inl (Quack e) =>
      delete_error path e ∧
      ∀ p, e = QuackFileNotFoundError p → existed = false
  | inl (Uncaught _) => False
  end.

(** The body of [safe_copy], before decoration. *)
Definition safe_copy_body (src dst : string) (overwrite : bool)
    : Op FS (Raised PyExn) string :=
  op_bind (outside_try (exists_now src)) (fun src_exists =>
  if negb src_exists then
    op_bind (op_log ERROR ("Source does not exist: " +:+ src))
      (fun _ => op_raise (Quack (QuackFileNotFoundError src)))
  else
  op_bind (outside_try (exists_now dst)) (fun dst_exists =>
  if dst_exists && negb overwrite then
    op_bind (op_log ERROR ("Destination exists and overwrite is False: " +:+ dst))
      (fun _ => op_raise (Quack (QuackFileExistsError dst)))
  else
  try_io (
    op_bind (is_dir_now src) (fun src_is_dir =>
    if src_is_dir then
      op_bind (op_log INFO ("Copying directory " +:+ src +:+ " to " +:+ dst))
        (fun _ =>
      op_bind (exists_now dst) (fun dst_exists =>
      op_bind (if dst_exists && overwrite then
                 op_bind (op_log DEBUG
                            ("Removing existing destination directory: " +:+ dst))
                   (fun _ => call (rmtree host dst))
               else op_ret tt) (fun _ =>
      op_bind (call (copytree host src dst)) (fun _ =>
      op_ret (Path host dst)))))
    else
      op_bind (op_log INFO ("Copying file " +:+ src +:+ " to " +:+ dst))
        (fun _ =>
      op_bind (call (ensure_directory host (parent host dst))) (fun _ =>
      op_bind (call (copy2 host src dst)) (fun _ =>
      op_ret (Path host dst))))))
    (translate "copy" "copying" (src +:+ " to " +:+ dst) dst))).

Definition safe_copy (src dst : string) (overwrite : bool)
    : Op FS (Raised PyExn) string :=
  wrap_io_errors host (safe_copy_body src dst overwrite).

(** The body of [safe_move], before decoration. *)
Definition safe_move_body (src dst : string) (overwrite : bool)
    : Op FS (Raised PyExn) string :=
  op_bind (outside_try (exists_now src)) (fun src_exists =>
  if negb src_exists then
    op_bind (op_log ERROR ("Source does not exist: " +:+ src))
      (fun _ => op_raise (Quack (QuackFileNotFoundError src)))
  else
  op_bind (outside_try (exists_now dst)) (fun dst_exists =>
  if dst_exists && negb overwrite then
    op_bind (op_log ERROR ("Destination exists and overwrite is False: " +:+ dst))
      (fun _ => op_raise (Quack (QuackFileExistsError dst)))
  else
  try_io (
    op_bind (op_log INFO ("Moving " +:+ src +:+ " to " +:+ dst)) (fun _ =>
    op_bind (call (ensure_directory host (parent host dst))) (fun _ =>
    op_bind (exists_now dst) (fun dst_exists =>
    op_bind (if dst_exists && overwrite then
               op_bind (is_dir_now dst) (fun dst_is_dir =>
               if dst_is_dir then
                 op_bind (op_log DEBUG
                            ("Removing existing destination directory: " +:+ dst))
                   (fun _ => call (rmtree host dst))
               else
                 op_bind (op_log DEBUG
                            ("Removing existing destination file: " +:+ dst))
                   (fun _ => call (unlink host dst)))
             else op_ret tt) (fun _ =>
    op_bind (call (move host src dst)) (fun _ =>
    op_ret (Path host dst)))))))
    (translate "move" "moving" (src +:+ " to " +:+ dst) dst))).

Definition safe_move (src dst : string) (overwrite : bool)
    : Op FS (Raised PyExn) string :=
  wrap_io_errors host (safe_move_body src dst overwrite).

(** The body of [safe_delete], before decoration. *)
Definition safe_delete_body (path : string) (missing_ok : bool)
    : Op FS (Raised PyExn) bool :=
  op_bind (outside_try (exists_now path)) (fun path_exists =>
  if negb path_exists then
    if missing_ok then
      op_bind (op_log DEBUG
                 ("Path does not exist but missing_ok is True: " +:+ path))
        (fun _ => op_ret false)
    else
      op_bind (op_log ERROR
                 ("Path does not exist and missing_ok is False: " +:+ path))
        (fun _ => op_raise (Quack (QuackFileNotFoundError path)))
  else
  try_io (
    op_bind (is_dir_now path) (fun path_is_dir =>
    if path_is_dir then
      op_bind (op_log INFO ("Deleting directory: " +:+ path)) (fun _ =>
      op_bind (call (rmtree host path)) (fun _ =>
      op_ret true))
    else
      op_bind (op_log INFO ("Deleting file: " +:+ path)) (fun _ =>
      op_bind (call (unlink host path)) (fun _ =>
      op_ret true))))
    (translate "delete" "deleting" path path)).

Definition safe_delete (path : string) (missing_ok : bool)
    : Op FS (Raised PyExn) bool :=
  wrap_io_errors host (safe_delete_body path missing_ok).

End Ops.
End SafeOps.

(** ** More concrete hosts, configurations and a small file system *)

Module MoreExamples.

(** A host whose plugin loader fails with an exception of no caught
    class and whose package metadata cannot be read. *)
Definition failing_loader : PluginLoader :=
  mkLoader (fun identifier => Raise (RuntimeError ("cannot load " +:+ identifier))).

Definition failing_host : Env :=
  mkEnv (Some {[ "quackcore.plugins.discovery" :=
                   mkModule (Some "quackcore.plugins.discovery") []
                            (Some failing_loader) ]})
        Examples.no_import
        (fun _ => Raise (RuntimeError "metadata unavailable")).

Definition defaults : list (string * ConfigLoader.Value) :=
  [("logging", ConfigLoader.Dict
      [("level", ConfigLoader.Leaf (ConfigLoader.AStr "INFO"));
       ("file", ConfigLoader.Leaf (ConfigLoader.AStr "logs/quackcore.log"))]);
   ("general", ConfigLoader.Dict
      [("project_name", ConfigLoader.Leaf (ConfigLoader.AStr "QuackCore"))])].

Definition overrides : list (string * ConfigLoader.Value) :=
  [("logging", ConfigLoader.Dict
      [("level", ConfigLoader.Leaf (ConfigLoader.AStr "DEBUG"))]);
   ("debug", ConfigLoader.Leaf (ConfigLoader.ABool true))].

Definition plugins_only : list (string * ConfigLoader.Value) :=
  [("plugins", ConfigLoader.Dict
      [("enabled", ConfigLoader.Leaf (ConfigLoader.ABool false))])].

(** A toy file system: the entries that exist, each with the flag of
    a directory.  A name of more than [name_max] characters is too
    long to be looked up, nothing can be removed or written under
    ["/ro/"], and nothing can be written under ["/full/"], where the
    disk is full. *)
Definition name_max : nat := 24.

Definition present (path : string) (files : list (string * bool)) : bool :=
  existsb (fun entry => String.eqb path entry.1) files.

Definition directory (path : string) (files : list (string * bool)) : bool :=
  existsb (fun entry => String.eqb path entry.1 && entry.2) files.

Definition lookup (answer : string → list (string * bool) → bool)
    (path : string) (files : list (string * bool)) : string + bool :=
  if (name_max <? String.length path)%nat then inl "ENAMETOOLONG"
  else inr (answer path files).

Definition without (path : string) (files : list (string * bool))
    : list (string * bool) :=
  List.filter
    (fun entry => negb (String.eqb path entry.1
                        || String.prefix (path +:+ "/") entry.1))
    files.

Definition remove (only_directory : bool) (path : string)
    (files : list (string * bool)) : option string * list (string * bool) :=
  if String.prefix "/ro/" path then (Some "EACCES", files)
  else if negb (present path files) then (Some "ENOENT", files)
  else if only_directory && negb (directory path files) then
    (Some "ENOTDIR", files)
  else if negb only_directory && directory path files then
    (Some "EISDIR", files)
  else (None, without path files).

Definition write_to (dst : string) (is_directory : bool)
    (files : list (string * bool)) : option string * list (string * bool) :=
  if String.prefix "/ro/" dst then (Some "EACCES", files)
  else if String.prefix "/full/" dst then (Some "ENOSPC", files)
  else (None, (dst, is_directory) :: without dst files).

Fixpoint up_to_last_slash (s : string) : option string :=
  match s with
  | EmptyString => None
  | String c rest =>
      match up_to_last_slash rest with
      | Some p => Some (String c p)
      | None => if Ascii.eqb c "/" then Some EmptyString else None
      end
  end.

Definition dirname (s : string) : string :=
  match up_to_last_slash s with
  | Some EmptyString => "/"
  | Some p => p
  | None => "."
  end.

(** [Path] drops a trailing slash. *)
Fixpoint drop_trailing_slash (s : string) : string :=
  match s with
  | EmptyString => EmptyString
  | String c rest =>
      match rest with
      | EmptyString => s
      | String c' EmptyString =>
          if Ascii.eqb c' "/" then String c EmptyString else s
      | _ => String c (drop_trailing_slash rest)
      end
  end.

(** The toy host looks every argument up under the text of its
    [Path]; its decorator hands on what the body returns and the Quack
    errors it raises, and wraps any other exception. *)
Definition toy_host : SafeOps.Host (list (string * bool)) string :=
  SafeOps.mkHost (list (string * bool)) string
    (fun e => String.eqb e "EACCES")
    (fun e => e)
    drop_trailing_slash
    (fun path => dirname (drop_trailing_slash path))
    (fun path => lookup present (drop_trailing_slash path))
    (fun path => lookup directory (drop_trailing_slash path))
    (fun path => remove true (drop_trailing_slash path))
    (fun path => remove false (drop_trailing_slash path))
    (fun path files =>
       if present (drop_trailing_slash path) files then (None, files)
       else write_to (drop_trailing_slash path) true files)
    (fun src dst files =>
       if present (drop_trailing_slash dst) files then (Some "EEXIST", files)
       else write_to (drop_trailing_slash dst) true files)
    (fun src dst files => write_to (drop_trailing_slash dst) false files)
    (fun src dst files =>
       match write_to (drop_trailing_slash dst)
               (directory (drop_trailing_slash src) files) files with
       | (None, files') => (None, without (drop_trailing_slash src) files')
       | failed => failed
       end)
    (fun A m w =>
       match m w with
       | (inl (SafeOps.Uncaught e), w') =>
           (inl (SafeOps.Quack (SafeOps.QuackIOError e "" e)), w')
       | answer => answer
       end).

Definition toy_world : SafeOps.World (list (string * bool)) :=
  SafeOps.mkWorld
    [("/tmp", true); ("/tmp/a.txt", false);
     ("/ro", true); ("/ro/b.txt", false);
     ("/full", true); ("/full/b.txt", false); ("/full/data", true);
     ("/data", true)]
    [].

End MoreExamples.

(** * Properties *)

(** ** Dictionaries *)

Module PyDictFacts.
Section Facts.
Context {V : Type}.
Implicit Types (d : list (string * V)) (k : string) (v : V).

Lemma contains_keys d k :
  PyDict.contains k d = true ↔ k ∈ PyDict.keys d.
Proof.
  induction d as [|[k' v'] d IH]; simpl.
  - split; [discriminate | intros H; inversion H].
  - destruct (String.eqb_spec k' k) as [->|Hne].
    + split; [intros _; left | reflexivity].
    + rewrite IH. split; [intros H; by right|].
      intros H. apply elem_of_cons in H as [?|?]; [congruence | done].
Qed.

Lemma contains_false_keys d k :
  PyDict.contains k d = false ↔ k ∉ PyDict.keys d.
Proof.
  rewrite <- contains_keys. destruct (PyDict.contains k d); split; try done.
Qed.

Lemma get_contains d k :
  PyDict.contains k d = hasattr (PyDict.get k d).
Proof.
  induction d as [|[k' v'] d IH]; simpl; [done|].
  by destruct (String.eqb k' k).
Qed.

Lemma set_fresh d k v :
  PyDict.contains k d = false → PyDict.set k v d = d ++ [(k, v)].
Proof.
  induction d as [|[k' v'] d IH]; simpl; [done|].
  destruct (String.eqb k' k); [discriminate|].
  intros H. by rewrite IH.
Qed.

Lemma keys_app d1 d2 :
  PyDict.keys (d1 ++ d2) = PyDict.keys d1 ++ PyDict.keys d2.
Proof. unfold PyDict.keys. apply map_app. Qed.

Lemma contains_app d1 d2 k :
  PyDict.contains k (d1 ++ d2) = PyDict.contains k d1 || PyDict.contains k d2.
Proof.
  induction d1 as [|[k' v'] d1 IH]; simpl; [done|].
  by destruct (String.eqb k' k).
Qed.

Lemma wf_set_fresh d k v :
  PyDict.wf d → PyDict.contains k d = false → PyDict.wf (PyDict.set k v d).
Proof.
  unfold PyDict.wf. intros Hwf Hk. rewrite (set_fresh _ _ _ Hk), keys_app.
  apply NoDup_app. split; [done|]. split.
  - intros x Hx Hx'. apply list_elem_of_singleton in Hx'. subst x.
    by apply contains_false_keys in Hk.
  - apply NoDup_singleton.
Qed.

Lemma del_absent d k :
  PyDict.contains k d = false → PyDict.del k d = d.
Proof.
  induction d as [|[k' v'] d IH]; simpl; [done|].
  destruct (String.eqb k' k); [discriminate|].
  intros H. by rewrite IH.
Qed.

Lemma filter_absent d k :
  k ∉ PyDict.keys d → filter (λ p, p.1 ≠ k) d = d.
Proof.
  induction d as [|[k' v'] d IH]; simpl; [done|].
  intros H. apply not_elem_of_cons in H as [Hne Hd].
  rewrite filter_cons_True by (simpl; congruence).
  by rewrite IH.
Qed.

(** With unique keys, [del] removes every entry under the key and
    nothing else. *)
Lemma del_filter d k :
  PyDict.wf d → PyDict.del k d = filter (λ p, p.1 ≠ k) d.
Proof.
  unfold PyDict.wf.
  induction d as [|[k' v'] d IH]; simpl; [done|].
  intros Hwf. apply NoDup_cons in Hwf as [Hk' Hwf].
  destruct (String.eqb_spec k' k) as [->|Hne].
  - rewrite filter_cons_False by (simpl; intros H; by apply H).
    by rewrite filter_absent.
  - rewrite filter_cons_True by done. by rewrite IH.
Qed.

Lemma keys_filter_sub d k x :
  x ∈ PyDict.keys (filter (λ p, p.1 ≠ k) d) → x ∈ PyDict.keys d ∧ x ≠ k.
Proof.
  unfold PyDict.keys. intros H.
  apply list_elem_of_fmap in H as [[k' v'] [-> H]].
  apply list_elem_of_filter in H as [Hne H]. split; [|done].
  apply list_elem_of_fmap. by exists (k', v').
Qed.

Lemma contains_del d k :
  PyDict.wf d → PyDict.contains k (PyDict.del k d) = false.
Proof.
  intros Hwf. rewrite del_filter by done. apply contains_false_keys.
  intros H. apply keys_filter_sub in H as [_ H]. by apply H.
Qed.

Lemma wf_del d k : PyDict.wf d → PyDict.wf (PyDict.del k d).
Proof.
  intros Hwf. rewrite del_filter by done. revert Hwf. unfold PyDict.wf.
  induction d as [|[k' v'] d IH]; simpl; [done|].
  intros Hwf. apply NoDup_cons in Hwf as [Hk' Hwf].
  destruct (decide (k' ≠ k)).
  - rewrite filter_cons_True by done. simpl. apply NoDup_cons. split; [|auto].
    intros H. apply keys_filter_sub in H as [H _]. by apply Hk'.
  - rewrite filter_cons_False by done. auto.
Qed.

Lemma get_del_ne d k k' :
  k' ≠ k → PyDict.get k' (PyDict.del k d) = PyDict.get k' d.
Proof.
  intros Hne. induction d as [|[k0 v0] d IH]; simpl; [done|].
  destruct (String.eqb_spec k0 k) as [->|Hk0].
  - destruct (String.eqb_spec k k'); [congruence | done].
  - simpl. by rewrite IH.
Qed.
End Facts.
End PyDictFacts.

(** ** The table operations *)

Lemma register_fresh self integration n :
  obj_name integration = Some n →
  PyDict.contains n (_integrations self) = false →
  register integration self = (Return tt, registered integration n self).
Proof.
  intros Hn Hfresh. unfold register, bind, getattr_name, get_table.
  rewrite Hn. simpl. rewrite Hfresh. simpl.
  by rewrite (PyDictFacts.set_fresh _ _ _ Hfresh).
Qed.

Lemma register_taken self integration n :
  obj_name integration = Some n →
  PyDict.contains n (_integrations self) = true →
  register integration self = (Raise (duplicate_error n), self).
Proof.
  intros Hn Htaken. unfold register, bind, getattr_name, get_table.
  rewrite Hn. simpl. by rewrite Htaken.
Qed.

Lemma register_wf self self' integration r :
  PyDict.wf (_integrations self) →
  register integration self = (r, self') →
  PyDict.wf (_integrations self').
Proof.
  intros Hwf. unfold register, bind, getattr_name, get_table.
  destruct (obj_name integration) as [n|]; simpl.
  - destruct (PyDict.contains n (_integrations self)) eqn:Hc; simpl.
    + by intros [= _ <-].
    + intros [= _ <-]. simpl. by apply PyDictFacts.wf_set_fresh.
  - by intros [= _ <-].
Qed.

Lemma unregister_wf self self' name r :
  PyDict.wf (_integrations self) →
  unregister name self = (r, self') →
  PyDict.wf (_integrations self').
Proof.
  intros Hwf. unfold unregister, bind, get_table. simpl.
  destruct (PyDict.contains name (_integrations self)); simpl.
  - intros [= _ <-]. simpl. by apply PyDictFacts.wf_del.
  - by intros [= _ <-].
Qed.

Lemma register_all_keys instances : ∀ names self,
  map obj_name instances = map Some names →
  NoDup (PyDict.keys (_integrations self) ++ names) →
  ∃ self', register_all instances self = (Return tt, self') ∧
           PyDict.keys (_integrations self')
           = PyDict.keys (_integrations self) ++ names ∧
           PyDict.values (_integrations self')
           = PyDict.values (_integrations self) ++ instances.
Proof.
  induction instances as [|o instances IH]; intros [|n names] self Hnames Hnd;
    try discriminate.
  - exists self. by rewrite !app_nil_r.
  - injection Hnames as Ho Hnames.
    assert (PyDict.contains n (_integrations self) = false) as Hfresh.
    { apply PyDictFacts.contains_false_keys. intros Hin.
      apply NoDup_app in Hnd as (_ & Hdisj & _). apply (Hdisj n Hin). by left. }
    destruct (IH names (registered o n self) Hnames) as (self' & Hrun & Hkeys & Hvals).
    { simpl. rewrite PyDictFacts.keys_app. simpl. by rewrite <- app_assoc. }
    exists self'. split; [|split].
    + unfold register_all in *. simpl. unfold bind at 1.
      by rewrite (register_fresh _ _ _ Ho Hfresh).
    + rewrite Hkeys. simpl. rewrite PyDictFacts.keys_app. simpl.
      by rewrite <- app_assoc.
    + rewrite Hvals. simpl. unfold PyDict.values. rewrite map_app. simpl.
      by rewrite <- app_assoc.
Qed.

(** C1. When the name of [integration] is already a key of the table,
    [register] raises the duplicate-registration [QuackError] and the
    registry object (table and log) is the one it started from. *)
Theorem register_duplicate_raises (self : IntegrationRegistry)
    (integration : Obj) (n : string) :
  obj_name integration = Some n →
  PyDict.contains n (_integrations self) = true →
  register integration self = (Raise (duplicate_error n), self).
Proof. apply register_taken. Qed.

(** C7. [unregister] always returns: [true] for a registered name,
    leaving the table without that entry (and every other entry in
    place), so that [is_registered] then answers [false]; [false] for
    an absent name, leaving the table as it was. *)
Theorem unregister_total (self : IntegrationRegistry) (name : string) :
  PyDict.wf (_integrations self) →
  ∃ self',
    unregister name self
    = (Return (PyDict.contains name (_integrations self)), self') ∧
    (PyDict.contains name (_integrations self) = true →
       _integrations self' = filter (λ p, p.1 ≠ name) (_integrations self) ∧
       is_registered name self' = (Return false, self') ∧
       ∀ k, k ≠ name →
            PyDict.get k (_integrations self') = PyDict.get k (_integrations self)) ∧
    (PyDict.contains name (_integrations self) = false →
       _integrations self' = _integrations self).
Proof.
  intros Hwf. unfold unregister, bind, get_table. simpl.
  destruct (PyDict.contains name (_integrations self)) eqn:Hc; simpl.
  - eexists. split; [reflexivity|]. simpl. split; [|done]. intros _.
    split; [by apply PyDictFacts.del_filter|]. split.
    + unfold is_registered, bind, get_table, ret. simpl.
      by rewrite PyDictFacts.contains_del.
    + intros k Hk. by apply PyDictFacts.get_del_ne.
  - eexists. split; [reflexivity|]. simpl. split; [done|]. by intros _.
Qed.

(** C8. Registering instances with pairwise distinct names in an empty
    registry succeeds, and [list_integrations] then returns a list
    without duplicates whose elements are exactly those names. *)
Theorem list_integrations_after_register_all (instances : list Obj)
    (names : list string) :
  map obj_name instances = map Some names →
  NoDup names →
  ∃ self' listed,
    register_all instances __init__ = (Return tt, self') ∧
    list_integrations self' = (Return listed, self') ∧
    (∀ n, n ∈ listed ↔ n ∈ names) ∧
    NoDup listed ∧
    length listed = length instances.
Proof.
  intros Hnames Hnd.
  destruct (register_all_keys instances names __init__ Hnames)
    as (self' & Hrun & Hkeys & _); [done|].
  simpl in Hkeys. exists self', names. split; [done|].
  unfold list_integrations, bind, get_table, ret. rewrite Hkeys.
  repeat split; try done.
  rewrite <- (length_map Some names), <- Hnames. by rewrite length_map.
Qed.

(** C9. [get_integration_by_type] with a type that no registered
    instance belongs to yields nothing; with a type every registered
    instance belongs to it yields the values of the table, one per
    entry and in table order. *)
Theorem get_integration_by_type_none_all (self : IntegrationRegistry)
    (integration_type : Obj → bool) :
  ((∀ o, o ∈ PyDict.values (_integrations self) → integration_type o = false) →
     get_integration_by_type integration_type self = (Return [], self)) ∧
  ((∀ o, o ∈ PyDict.values (_integrations self) → integration_type o = true) →
     get_integration_by_type integration_type self
     = (Return (PyDict.values (_integrations self)), self)).
Proof.
  unfold get_integration_by_type, bind, get_table, ret.
  generalize (PyDict.values (_integrations self)). intros l. split; intros H.
  - f_equal. f_equal. induction l as [|o l IH]; [done|].
    rewrite filter_cons_False.
    + apply IH. intros o' Ho'. apply H. by right.
    + rewrite (H o) by (by left). done.
  - f_equal. f_equal. induction l as [|o l IH]; [done|].
    rewrite filter_cons_True by (apply H; by left).
    f_equal. apply IH. intros o' Ho'. apply H. by right.
Qed.

(** ** The uniqueness of keys as an invariant *)

Section Preservation.
Variable I : list (string * Obj) → Prop.

Lemma preserves_ret {A : Type} (a : A) : preserves I (ret a).
Proof. intros self r self' HI [= _ <-]. done. Qed.

Lemma preserves_raise {A : Type} (e : exn) : preserves I (@raise A e).
Proof. intros self r self' HI [= _ <-]. done. Qed.

Lemma preserves_lift {A : Type} (x : outcome A) : preserves I (lift x).
Proof. intros self r self' HI [= _ <-]. done. Qed.

Lemma preserves_log lvl msg : preserves I (log lvl msg).
Proof. intros self r self' HI [= _ <-]. done. Qed.

Lemma preserves_bind {A B : Type} (m : M A) (k : A → M B) :
  preserves I m → (∀ a, preserves I (k a)) → preserves I (bind m k).
Proof.
  intros Hm Hk self r self' HI. unfold bind.
  destruct (m self) as [[a|e] self1] eqn:Hrun.
  - intros Hrun'. apply (Hk a self1 r self'); [|done].
    by apply (Hm self (Return a) self1).
  - intros [= _ <-]. by apply (Hm self (Raise e) self1).
Qed.

Lemma preserves_try_except {A : Type} (body : M A) handler :
  preserves I body →
  (∀ e h, handler e = Some h → preserves I h) →
  preserves I (try_except body handler).
Proof.
  intros Hbody Hhandler self r self' HI. unfold try_except.
  destruct (body self) as [[a|e] self1] eqn:Hrun.
  - intros [= _ <-]. by apply (Hbody self (Return a) self1).
  - destruct (handler e) as [h|] eqn:Hh.
    + intros Hrun'. apply (Hhandler e h Hh self1 r self'); [|done].
      by apply (Hbody self (Raise e) self1).
    + intros [= _ <-]. by apply (Hbody self (Raise e) self1).
Qed.

Lemma preserves_for_collect {A B : Type} (body : A → list B → M (list B)) l :
  (∀ x acc, preserves I (body x acc)) →
  ∀ acc, preserves I (for_collect l acc body).
Proof.
  intros Hbody. induction l as [|x l IH]; intros acc; simpl.
  - apply preserves_ret.
  - apply preserves_bind; [apply Hbody | intros acc'; apply IH].
Qed.
End Preservation.

Lemma preserves_register integration : preserves PyDict.wf (register integration).
Proof. intros self r self' Hwf Hrun. by apply (register_wf self self' integration r). Qed.

Lemma preserves_unregister name : preserves PyDict.wf (unregister name).
Proof. intros self r self' Hwf Hrun. by apply (unregister_wf self self' name r). Qed.

Create HintDb preserves.
#[local] Hint Resolve preserves_ret preserves_raise preserves_lift preserves_log
  preserves_register : preserves.

Ltac preserves_step :=
  first
    [ solve [eauto with preserves]
    | apply preserves_bind; [|intros ?]
    | apply preserves_try_except; [|intros ? ? ?]
    | apply preserves_for_collect; intros ? ?
    | match goal with
      | H : (if ?b then _ else _) = Some _ |- _ => destruct b; simplify_eq
      | H : Some _ = Some _ |- _ => injection H as <-
      | H : None = Some _ |- _ => discriminate H
      | |- preserves _ (if ?b then _ else _) => destruct b
      | |- preserves _ (match ?x with _ => _ end) => destruct x
      | |- preserves _ (let _ := _ in _) => cbv zeta
      end ].

Section ReachableRegistries.
Variable isinstance_IntegrationProtocol : Obj → bool.
Variable host : Env.

Lemma preserves_discover :
  preserves PyDict.wf (discover_integrations isinstance_IntegrationProtocol host).
Proof.
  unfold discover_integrations, _get_entry_points, discover_entry,
    _load_integration_from_entry.
  repeat preserves_step.
Qed.

Lemma preserves_load module_path :
  preserves PyDict.wf (load_integration_module host module_path).
Proof.
  unfold load_integration_module, plugin_loader_step, manual_module_loading,
    _load_integration_with_plugin_loader, register_and_return, resolve_module,
    _load_integration_from_factory, _load_integrations_from_module,
    scan_test_class, scan_attribute, register_scanned, register_scanned_body,
    getattr_name.
  repeat preserves_step.
Qed.

(** Every registry the methods produce has a table with unique keys. *)
Lemma reachable_wf self :
  reachable isinstance_IntegrationProtocol host self →
  PyDict.wf (_integrations self).
Proof.
  induction 1 as [|o self r self' _ IH Hrun|name self r self' _ IH Hrun
                 |self r self' _ IH Hrun|module_path self r self' _ IH Hrun].
  - apply NoDup_nil_2.
  - by apply (preserves_register o self r self').
  - by apply (preserves_unregister name self r self').
  - by apply (preserves_discover self r self').
  - by apply (preserves_load module_path self r self').
Qed.
End ReachableRegistries.

(** ** Acceptance of candidates *)

Ltac run_monad :=
  unfold bind, try_except, lift, log, ret, raise, get_table, put_table; simpl.

Ltac run_register :=
  unfold register, getattr_name; run_monad.

(** Case analysis on a plugin loader that declines. *)
Ltac use_decline Hdecl :=
  unfold loader_declines in Hdecl;
  match goal with
  | |- context [match ?pl with Some _ => _ | None => _ end] =>
      destruct pl as [?loader|]; simpl;
      [destruct (load_plugin _ _) as [?p|?e]; simpl;
       [apply negb_true_iff in Hdecl; rewrite Hdecl | rewrite Hdecl]|]
  end; simpl.

Lemma structural_check_true o :
  structural_check o = true ↔
  hasattr (obj_name o) = true ∧ hasattr (obj_version o) = true ∧
  hasattr (obj_initialize o) = true ∧ hasattr (obj_is_available o) = true ∧
  callable_attr (obj_initialize o) = true ∧
  callable_attr (obj_is_available o) = true.
Proof.
  unfold structural_check. rewrite !andb_true_iff. tauto.
Qed.

Lemma structural_check_name o :
  structural_check o = true → ∃ n, obj_name o = Some n.
Proof.
  intros H. apply structural_check_true in H as (H & _).
  destruct (obj_name o) as [n|]; [by exists n | discriminate].
Qed.

Lemma test_class_check_name o :
  test_class_check o = true → ∃ n, obj_name o = Some n.
Proof.
  unfold test_class_check. rewrite !andb_true_iff. intros [[[H _] _] _].
  destruct (obj_name o) as [n|]; [by exists n | discriminate].
Qed.

Lemma structural_check_test_class_check o :
  structural_check o = true → test_class_check o = true.
Proof.
  unfold structural_check, test_class_check. rewrite !andb_true_iff. tauto.
Qed.

Section Acceptance.
Variable isinstance_IntegrationProtocol : Obj → bool.

Lemma plugin_loader_accepts loader module_path o self :
  load_plugin loader module_path = Return o →
  _load_integration_with_plugin_loader module_path (Some loader) self
  = (Return (if structural_check o then Some o else None), self).
Proof.
  intros Hload. unfold _load_integration_with_plugin_loader. run_monad.
  rewrite Hload. by destruct (structural_check o).
Qed.

Lemma factory_accepts module create_func o self :
  module_getattr module "create_integration" = Return create_func →
  call_attr create_func = Some (Return o) →
  _load_integration_from_factory module self
  = (Return (if structural_check o then Some o else None), self).
Proof.
  intros Hattr Hcall. unfold _load_integration_from_factory, module_hasattr.
  rewrite Hattr, Hcall. run_monad. by destruct (structural_check o).
Qed.

Lemma scan_accepts module attr_name attr cls o integrations self :
  starts_with_underscore attr_name = false →
  attr_name ≠ "TestIntegration" →
  module_getattr module attr_name = Return attr →
  defined_in module attr = Some cls →
  cls_new cls = Return o →
  scan_attribute module attr_name integrations self
  = (Return (if structural_check o then integrations ++ [o] else integrations),
     self).
Proof.
  intros Hunder Hname Hattr Hdef Hnew. unfold scan_attribute.
  rewrite Hunder. apply String.eqb_neq in Hname. rewrite Hname. simpl.
  run_monad. rewrite Hattr, Hdef, Hnew. by destruct (structural_check o).
Qed.

Lemma entry_accepts_plugin entry loader plugin self :
  load_plugin loader (ep_value entry) = Return plugin →
  isinstance_IntegrationProtocol plugin = true →
  (_load_integration_from_entry isinstance_IntegrationProtocol
     entry (Some loader) self).1 = Return (Some plugin).
Proof.
  intros Hload Hinst. unfold _load_integration_from_entry. run_monad.
  by rewrite Hload, Hinst.
Qed.

Lemma entry_accepts_factory entry plugin_loader o self :
  loader_declines isinstance_IntegrationProtocol plugin_loader entry = true →
  ep_load entry = Return (LCallable (Return o)) →
  (_load_integration_from_entry isinstance_IntegrationProtocol
     entry plugin_loader self).1
  = Return (if isinstance_IntegrationProtocol o then Some o else None).
Proof.
  intros Hdecl Hload. unfold _load_integration_from_entry. run_monad.
  use_decline Hdecl; rewrite Hload; simpl;
    by destruct (isinstance_IntegrationProtocol o).
Qed.

(** C5, as the code has it.  The plugin-loader result of
    [load_integration_module], the result of the module's
    [create_integration] and every instance of a scanned class other
    than [TestIntegration] are accepted exactly when they pass the
    six-conjunct structural check; entry-point discovery accepts the
    plugin-loader result when [isinstance(x, IntegrationProtocol)]
    holds and, when the loader declines, the entry-point factory
    result exactly when that test holds. *)
Theorem acceptance_by_path :
  (∀ o, structural_check o = true ↔
        hasattr (obj_name o) = true ∧ hasattr (obj_version o) = true ∧
        hasattr (obj_initialize o) = true ∧
        hasattr (obj_is_available o) = true ∧
        callable_attr (obj_initialize o) = true ∧
        callable_attr (obj_is_available o) = true) ∧
  (∀ loader module_path o self,
     load_plugin loader module_path = Return o →
     _load_integration_with_plugin_loader module_path (Some loader) self
     = (Return (if structural_check o then Some o else None), self)) ∧
  (∀ module create_func o self,
     module_getattr module "create_integration" = Return create_func →
     call_attr create_func = Some (Return o) →
     _load_integration_from_factory module self
     = (Return (if structural_check o then Some o else None), self)) ∧
  (∀ module attr_name attr cls o integrations self,
     starts_with_underscore attr_name = false →
     attr_name ≠ "TestIntegration" →
     module_getattr module attr_name = Return attr →
     defined_in module attr = Some cls →
     cls_new cls = Return o →
     scan_attribute module attr_name integrations self
     = (Return (if structural_check o then integrations ++ [o]
                else integrations), self)) ∧
  (∀ entry loader plugin self,
     load_plugin loader (ep_value entry) = Return plugin →
     isinstance_IntegrationProtocol plugin = true →
     (_load_integration_from_entry isinstance_IntegrationProtocol
        entry (Some loader) self).1 = Return (Some plugin)) ∧
  (∀ entry plugin_loader o self,
     loader_declines isinstance_IntegrationProtocol plugin_loader entry = true →
     ep_load entry = Return (LCallable (Return o)) →
     (_load_integration_from_entry isinstance_IntegrationProtocol
        entry plugin_loader self).1
     = Return (if isinstance_IntegrationProtocol o then Some o else None)).
Proof.
  split; [apply structural_check_true|].
  split; [apply plugin_loader_accepts|].
  split; [apply factory_accepts|].
  split; [apply scan_accepts|].
  split; [apply entry_accepts_plugin | apply entry_accepts_factory].
Qed.
End Acceptance.

(** ** Entry-point discovery *)

Section EntryPointDiscovery.
Variable isinstance_IntegrationProtocol : Obj → bool.
Variable host : Env.


(** The protocol class declares [name]: whatever passes the
  [isinstance] test has that attribute. *)
Hypothesis protocol_has_name :
  ∀ o, isinstance_IntegrationProtocol o = true → hasattr (obj_name o) = true.



Lemma get_entry_points_returns group self :
  ∃ entries self',
    _get_entry_points host group self = (Return entries, self') ∧
    _integrations self' = _integrations self ∧
    (∀ l, entry_points host group = Return l → entries = l ∧ self' = self).
Proof.
  unfold _get_entry_points. run_monad.
  destruct (entry_points host group) as [l|e]; simpl.
  - exists l, self. repeat split; congruence.
  - eexists _, _. split; [reflexivity|]. split; [done|]. intros l [=].
Qed.










End EntryPointDiscovery.

(** ** Loading from a module *)

Section ModuleLoading.
Variable host : Env.

Lemma resolve_module_found module_path module self :
  find_module host module_path = Return module →
  resolve_module host module_path self = (Return module, self).
Proof.
  unfold find_module, resolve_module. run_monad.
  destruct (default ∅ (sys_modules host) !! module_path) as [m|].
  - by intros [= ->].
  - by intros ->.
Qed.

Lemma resolve_module_failed module_path e self :
  find_module host module_path = Raise e →
  ∃ self',
    resolve_module host module_path self
    = (Raise (module_load_error module_path (import_failure module_path e)), self') ∧
    _integrations self' = _integrations self.
Proof.
  unfold find_module, resolve_module, import_failure, module_load_error.
  run_monad.
  destruct (default ∅ (sys_modules host) !! module_path) as [m|]; [done|].
  intros ->. simpl. destruct (is_ImportError e); simpl;
    eexists; split; done.
Qed.

Lemma plugin_step_nothing module_path self :
  plugin_supplies_nothing host module_path = true →
  ∃ self',
    plugin_loader_step host module_path self = (Return None, self') ∧
    _integrations self' = _integrations self.
Proof.
  unfold plugin_supplies_nothing, plugin_loader_step,
    _load_integration_with_plugin_loader, register_and_return.
  destruct (_get_plugin_loader host) as [loader|]; run_monad;
    [|by exists self].
  destruct (load_plugin loader module_path) as [o|e]; simpl.
  - intros H. apply negb_true_iff in H. rewrite H. simpl. by exists self.
  - destruct (is_ImportError e || is_AttributeError e) eqn:H1; simpl.
    + intros _. eexists. split; done.
    + intros ->. eexists. split; done.
Qed.

Lemma plugin_step_fresh module_path loader o n self :
  _get_plugin_loader host = Some loader →
  load_plugin loader module_path = Return o →
  structural_check o = true →
  obj_name o = Some n →
  PyDict.contains n (_integrations self) = false →
  plugin_loader_step host module_path self
  = (Return (Some [o]), registered o n self).
Proof.
  intros Hloader Hload Hcheck Hn Hfresh.
  unfold plugin_loader_step, _load_integration_with_plugin_loader,
    register_and_return.
  rewrite Hloader. run_monad. rewrite Hload, Hcheck. simpl.
  by rewrite (register_fresh _ _ _ Hn Hfresh).
Qed.

Lemma plugin_step_duplicate module_path loader o n self :
  _get_plugin_loader host = Some loader →
  load_plugin loader module_path = Return o →
  structural_check o = true →
  obj_name o = Some n →
  PyDict.contains n (_integrations self) = true →
  plugin_loader_step host module_path self
  = (Return None,
     logged ERROR ("Error registering integration from plugin loader: "
                   +:+ str_exn (duplicate_error n)) self).
Proof.
  intros Hloader Hload Hcheck Hn Htaken.
  unfold plugin_loader_step, _load_integration_with_plugin_loader,
    register_and_return.
  rewrite Hloader. run_monad. rewrite Hload, Hcheck. simpl.
  by rewrite (register_taken _ _ _ Hn Htaken).
Qed.

(** *** What a module offers, without the logging *)

Lemma factory_returns module self :
  ∃ self',
    _load_integration_from_factory module self
    = (Return (factory_candidate module), self') ∧
    _integrations self' = _integrations self.
Proof.
  unfold _load_integration_from_factory, factory_candidate, module_hasattr.
  destruct (module_getattr module "create_integration") as [attr|e];
    [|by exists self].
  destruct (call_attr attr) as [[o|e]|]; run_monad.
  - destruct (structural_check o); by exists self.
  - eexists. split; done.
  - by exists self.
Qed.

Lemma scan_test_class_returns module self :
  ∃ self',
    scan_test_class module self = (Return (test_candidate module), self') ∧
    _integrations self' = _integrations self.
Proof.
  unfold scan_test_class, test_candidate, module_hasattr.
  destruct (module_getattr module "TestIntegration") as [attr|e];
    [|by exists self].
  destruct attr as [cls| | |]; simpl; try by exists self.
  run_monad. destruct (cls_new cls) as [o|e]; simpl.
  - destruct (test_class_check o); by exists self.
  - eexists. split; done.
Qed.

Lemma scan_attribute_returns module attr_name integrations self :
  ∃ self',
    scan_attribute module attr_name integrations self
    = (Return (integrations ++ option_list (scan_candidate module attr_name)),
       self') ∧
    _integrations self' = _integrations self.
Proof.
  unfold scan_attribute, scan_candidate.
  destruct (starts_with_underscore attr_name
            || String.eqb attr_name "TestIntegration");
    [exists self; by rewrite app_nil_r|].
  run_monad. destruct (module_getattr module attr_name) as [attr|e]; simpl;
    [|exists self; by rewrite app_nil_r].
  destruct (defined_in module attr) as [cls|]; simpl;
    [|exists self; by rewrite app_nil_r].
  destruct (cls_new cls) as [o|e]; simpl.
  - destruct (structural_check o); simpl; exists self; by rewrite ?app_nil_r.
  - eexists. rewrite app_nil_r. split; done.
Qed.

Lemma scan_loop_returns module attr_names : ∀ integrations self,
  ∃ self',
    for_collect attr_names integrations (scan_attribute module) self
    = (Return (integrations ++ omap (scan_candidate module) attr_names), self') ∧
    _integrations self' = _integrations self.
Proof.
  induction attr_names as [|attr_name attr_names IH]; intros integrations self.
  - exists self. simpl. by rewrite app_nil_r.
  - simpl. unfold bind.
    destruct (scan_attribute_returns module attr_name integrations self)
      as (self1 & -> & Htable1).
    destruct (IH (integrations ++ option_list (scan_candidate module attr_name))
                 self1) as (self' & -> & Htable).
    exists self'. split; [|congruence]. f_equal. f_equal.
    rewrite <- app_assoc. f_equal.
    by destruct (scan_candidate module attr_name).
Qed.

Lemma load_integrations_from_module_returns module self :
  ∃ self',
    _load_integrations_from_module module self
    = (Return (scan_module module), self') ∧
    _integrations self' = _integrations self.
Proof.
  unfold _load_integrations_from_module, scan_module. unfold bind at 1.
  destruct (scan_test_class_returns module self) as (self1 & -> & Htable1).
  destruct (scan_loop_returns module (PyDict.keys (mod_dir module))
              (test_candidate module) self1) as (self' & -> & Htable).
  exists self'. split; [done | congruence].
Qed.

Lemma factory_candidate_named module o :
  factory_candidate module = Some o → ∃ n, obj_name o = Some n.
Proof.
  unfold factory_candidate. intros H. repeat case_match; simplify_eq.
  by apply structural_check_name.
Qed.

Lemma scan_module_named module :
  Forall (λ o, ∃ n, obj_name o = Some n) (scan_module module).
Proof.
  unfold scan_module. apply Forall_app. split.
  - unfold test_candidate.
    repeat case_match; repeat constructor; by apply test_class_check_name.
  - apply Forall_forall. intros o Ho.
    apply list_elem_of_omap in Ho as (attr_name & _ & Ho).
    unfold scan_candidate in Ho. repeat case_match; simplify_eq.
    by apply structural_check_name.
Qed.

(** *** Registration of what was found *)

Lemma register_and_return_none source self :
  register_and_return None source self = (Return None, self).
Proof. done. Qed.

Lemma register_and_return_fresh o n source self :
  obj_name o = Some n →
  PyDict.contains n (_integrations self) = false →
  register_and_return (Some o) source self
  = (Return (Some [o]), registered o n self).
Proof.
  intros Hn Hfresh. unfold register_and_return. run_monad.
  by rewrite (register_fresh _ _ _ Hn Hfresh).
Qed.

Lemma register_and_return_duplicate o n source self :
  obj_name o = Some n →
  PyDict.contains n (_integrations self) = true →
  register_and_return (Some o) source self
  = (Return None,
     logged ERROR ("Error registering integration from " +:+ source +:+ ": "
                   +:+ str_exn (duplicate_error n)) self).
Proof.
  intros Hn Htaken. unfold register_and_return. run_monad.
  by rewrite (register_taken _ _ _ Hn Htaken).
Qed.

Lemma register_scanned_unfold found :
  register_scanned found = for_collect found [] register_scanned_body.
Proof. done. Qed.

Lemma register_scanned_loop_returns found : ∀ loaded self,
  Forall (λ o, ∃ n, obj_name o = Some n) found →
  ∃ loaded' self',
    for_collect found loaded register_scanned_body self
    = (Return loaded', self').
Proof.
  induction found as [|o found IH]; intros loaded self Hnamed; simpl.
  - by exists loaded, self.
  - apply Forall_cons in Hnamed as [[n Hn] Hnamed]. unfold bind.
    unfold register_scanned_body at 1. unfold try_except, bind.
    destruct (PyDict.contains n (_integrations self)) eqn:Hc.
    + rewrite (register_taken _ _ _ Hn Hc). simpl.
      unfold getattr_name. rewrite Hn. run_monad. by apply IH.
    + rewrite (register_fresh _ _ _ Hn Hc). run_monad. by apply IH.
Qed.

Lemma register_scanned_loop_fresh found : ∀ names loaded self,
  map obj_name found = map Some names →
  NoDup names →
  (∀ n, n ∈ names → PyDict.contains n (_integrations self) = false) →
  ∃ self',
    for_collect found loaded register_scanned_body self
    = (Return (loaded ++ found), self') ∧
    _integrations self' = _integrations self ++ zip names found.
Proof.
  induction found as [|o found IH];
    intros [|n names] loaded self Hnames Hnd Hfresh; try discriminate.
  - exists self. by rewrite !app_nil_r.
  - injection Hnames as Ho Hnames.
    apply NoDup_cons in Hnd as [Hn Hnd].
    assert (PyDict.contains n (_integrations self) = false) as Hf
      by (apply Hfresh; by left).
    destruct (IH names (loaded ++ [o]) (registered o n self) Hnames Hnd)
      as (self' & Hrun & Htable).
    { intros n' Hn'. simpl. rewrite PyDictFacts.contains_app. simpl.
      rewrite Hfresh by (by right). simpl.
      destruct (String.eqb_spec n n') as [->|]; [done | done]. }
    exists self'. split.
    + simpl. unfold bind. unfold register_scanned_body at 1.
      unfold try_except, bind. rewrite (register_fresh _ _ _ Ho Hf).
      run_monad. rewrite Hrun. by rewrite <- app_assoc.
    + rewrite Htable. simpl. by rewrite <- app_assoc.
Qed.

(** *** The manual path as a whole *)

Lemma manual_unresolvable module_path e self :
  find_module host module_path = Raise e →
  ∃ self',
    manual_module_loading host module_path self
    = (Raise (module_load_error module_path (import_failure module_path e)), self') ∧
    _integrations self' = _integrations self.
Proof.
  intros Hfind. unfold manual_module_loading. unfold bind at 1.
  destruct (resolve_module_failed module_path e self Hfind)
    as (self' & -> & Htable). by exists self'.
Qed.

Lemma manual_returns module_path module self :
  find_module host module_path = Return module →
  ∃ loaded self',
    manual_module_loading host module_path self = (Return loaded, self').
Proof.
  intros Hfind. unfold manual_module_loading. unfold bind at 1.
  rewrite (resolve_module_found _ _ _ Hfind). unfold bind at 1.
  destruct (factory_returns module self) as (self1 & -> & Htable1).
  unfold bind at 1.
  assert (∃ early self2, register_and_return (factory_candidate module)
            "create_integration" self1 = (Return early, self2))
    as (early & self2 & ->).
  { destruct (factory_candidate module) as [o|] eqn:Hf;
      [|by eexists _, _].
    destruct (factory_candidate_named _ _ Hf) as [n Hn].
    destruct (PyDict.contains n (_integrations self1)) eqn:Hc.
    - rewrite (register_and_return_duplicate _ _ _ _ Hn Hc). by eexists _, _.
    - rewrite (register_and_return_fresh _ _ _ _ Hn Hc). by eexists _, _. }
  destruct early as [loaded|]; [by exists loaded, self2|].
  unfold bind at 1.
  destruct (load_integrations_from_module_returns module self2)
    as (self3 & -> & Htable3).
  unfold bind at 1. rewrite register_scanned_unfold.
  destruct (register_scanned_loop_returns (scan_module module) [] self3
              (scan_module_named module)) as (loaded & self4 & ->).
  run_monad. destruct loaded; by eexists _, _.
Qed.

Lemma load_after_nothing module_path self :
  plugin_supplies_nothing host module_path = true →
  ∃ self1,
    _integrations self1 = _integrations self ∧
    load_integration_module host module_path self
    = manual_module_loading host module_path self1.
Proof.
  intros Hnothing. unfold load_integration_module. unfold bind.
  destruct (plugin_step_nothing module_path self Hnothing)
    as (self1 & -> & Htable). by exists self1.
Qed.

Lemma no_conformant_factory module :
  no_conformant_integration module → factory_candidate module = None.
Proof.
  intros Hnone. unfold factory_candidate.
  destruct (module_getattr module "create_integration") as [attr|] eqn:Hattr;
    [|done].
  destruct (call_attr attr) as [[o|]|] eqn:Hcall; try done.
  pose proof (Hnone _ _ _ Hattr Hcall) as H. simpl in H. by rewrite H.
Qed.

Lemma no_conformant_scan module :
  no_conformant_integration module → scan_module module = [].
Proof.
  intros Hnone. unfold scan_module.
  assert (test_candidate module = []) as ->.
  { unfold test_candidate.
    destruct (module_getattr module "TestIntegration") as [[cls| | |]|] eqn:Hattr;
      try done.
    destruct (cls_new cls) as [o|] eqn:Hnew; [|done].
    pose proof (Hnone "TestIntegration" (AClass cls) o Hattr) as H.
    simpl in H. rewrite Hnew in H. by rewrite H. }
  simpl.
  assert (∀ attr_name, scan_candidate module attr_name = None) as Hscan.
  { intros attr_name. unfold scan_candidate.
    destruct (starts_with_underscore attr_name) eqn:Hu; [done|]. simpl.
    destruct (String.eqb attr_name "TestIntegration") eqn:Ht; [done|].
    destruct (module_getattr module attr_name) as [attr|] eqn:Hattr; [|done].
    unfold defined_in.
    destruct attr as [cls| | |]; simpl; try done.
    destruct (cls___module__ cls); [|done].
    destruct (_ && _); [|done].
    destruct (cls_new cls) as [o|] eqn:Hnew; [|done].
    specialize (Hnone attr_name (AClass cls) o Hattr). simpl in Hnone.
    rewrite Ht, Hnew in Hnone. by rewrite Hnone. }
  induction (PyDict.keys (mod_dir module)) as [|attr_name l IH]; [done|].
  simpl. by rewrite Hscan.
Qed.

Lemma manual_nothing_found module_path module self :
  find_module host module_path = Return module →
  no_conformant_integration module →
  ∃ self1,
    _integrations self1 = _integrations self ∧
    manual_module_loading host module_path self
    = (Return [],
       logged WARNING ("No integrations found in module " +:+ module_path) self1).
Proof.
  intros Hfind Hnone. unfold manual_module_loading. unfold bind at 1.
  rewrite (resolve_module_found _ _ _ Hfind). unfold bind at 1.
  destruct (factory_returns module self) as (self1 & -> & Htable1).
  rewrite (no_conformant_factory _ Hnone). unfold bind at 1.
  rewrite register_and_return_none. unfold bind at 1.
  destruct (load_integrations_from_module_returns module self1)
    as (self2 & -> & Htable2).
  rewrite (no_conformant_scan _ Hnone). run_monad.
  exists self2. split; [congruence | done].
Qed.

Lemma manual_factory module_path module create_func o n self :
  find_module host module_path = Return module →
  module_getattr module "create_integration" = Return create_func →
  call_attr create_func = Some (Return o) →
  structural_check o = true →
  obj_name o = Some n →
  PyDict.contains n (_integrations self) = false →
  manual_module_loading host module_path self
  = (Return [o], registered o n self).
Proof.
  intros Hfind Hattr Hcall Hcheck Hn Hfresh.
  unfold manual_module_loading. unfold bind at 1.
  rewrite (resolve_module_found _ _ _ Hfind). unfold bind at 1.
  rewrite (factory_accepts _ _ _ _ Hattr Hcall), Hcheck. unfold bind at 1.
  by rewrite (register_and_return_fresh _ _ _ _ Hn Hfresh).
Qed.

Lemma manual_scan module_path module names self :
  find_module host module_path = Return module →
  factory_candidate module = None →
  map obj_name (scan_module module) = map Some names →
  NoDup names →
  (∀ n, n ∈ names → PyDict.contains n (_integrations self) = false) →
  ∃ self',
    manual_module_loading host module_path self
    = (Return (scan_module module), self') ∧
    _integrations self' = _integrations self ++ zip names (scan_module module).
Proof.
  intros Hfind Hfactory Hnames Hnd Hfresh.
  unfold manual_module_loading. unfold bind at 1.
  rewrite (resolve_module_found _ _ _ Hfind). unfold bind at 1.
  destruct (factory_returns module self) as (self1 & -> & Htable1).
  rewrite Hfactory. unfold bind at 1.
  rewrite register_and_return_none. unfold bind at 1.
  destruct (load_integrations_from_module_returns module self1)
    as (self2 & -> & Htable2).
  unfold bind at 1. rewrite register_scanned_unfold.
  assert (_integrations self2 = _integrations self) as Htable by congruence.
  rewrite <- Htable in Hfresh.
  destruct (register_scanned_loop_fresh (scan_module module) names [] self2
              Hnames Hnd Hfresh) as (self3 & -> & Htable3).
  simpl. run_monad. rewrite <- Htable.
  destruct (scan_module module); eexists; split; done.
Qed.

(** *** A module with two classes of its own *)

Lemma omap_cons {A B : Type} (f : A → option B) (x : A) (l : list A) :
  omap f (x :: l)
  = match f x with Some y => y :: omap f l | None => omap f l end.
Proof. done. Qed.

Lemma scan_public_only module (l : list string) :
  omap (scan_candidate module) l
  = omap (scan_candidate module) (filter is_public l).
Proof.
  induction l as [|attr_name l IH]; [done|]. rewrite omap_cons.
  destruct (starts_with_underscore attr_name) eqn:Hu.
  - rewrite filter_cons_False by (unfold is_public; congruence).
    unfold scan_candidate at 1. by rewrite Hu.
  - rewrite filter_cons_True by done. rewrite omap_cons. by rewrite IH.
Qed.

Lemma get_absent {V : Type} (d : list (string * V)) k :
  k ∉ PyDict.keys d → PyDict.get k d = None.
Proof.
  intros Hk. apply PyDictFacts.contains_false_keys in Hk.
  rewrite PyDictFacts.get_contains in Hk. by destruct (PyDict.get k d).
Qed.

Lemma module_getattr_absent module attr_name :
  is_public attr_name →
  attr_name ∉ filter is_public (PyDict.keys (mod_dir module)) →
  ∃ e, module_getattr module attr_name = Raise e.
Proof.
  intros Hpub Hnot. unfold module_getattr. rewrite get_absent; [by eexists|].
  intros Hin. apply Hnot. by apply list_elem_of_filter.
Qed.

Lemma scan_own_class module attr_name cls o :
  is_public attr_name →
  attr_name ≠ "TestIntegration" →
  PyDict.get attr_name (mod_dir module) = Some (AClass cls) →
  cls___module__ cls = Some (module_name_or module "") →
  cls_is_IntegrationProtocol cls = false →
  cls_new cls = Return o →
  structural_check o = true →
  scan_candidate module attr_name = Some o.
Proof.
  intros Hpub Hname Hget Hmod Hproto Hnew Hcheck.
  unfold scan_candidate, module_getattr, defined_in. rewrite Hpub.
  apply String.eqb_neq in Hname. rewrite Hname, Hget. simpl.
  rewrite Hmod, Hproto, String.eqb_refl. simpl. by rewrite Hnew, Hcheck.
Qed.

Lemma not_elem_of_pair (x a b : string) : a ≠ x → b ≠ x → x ∉ [a; b].
Proof.
  intros Ha Hb H. apply elem_of_cons in H as [->|H]; [done|].
  apply list_elem_of_singleton in H as ->. done.
Qed.

Lemma two_classes_scan module a1 a2 c1 c2 o1 o2 :
  filter is_public (PyDict.keys (mod_dir module)) = [a1; a2] →
  a1 ≠ "TestIntegration" → a2 ≠ "TestIntegration" →
  a1 ≠ "create_integration" → a2 ≠ "create_integration" →
  PyDict.get a1 (mod_dir module) = Some (AClass c1) →
  PyDict.get a2 (mod_dir module) = Some (AClass c2) →
  cls___module__ c1 = Some (module_name_or module "") →
  cls___module__ c2 = Some (module_name_or module "") →
  cls_is_IntegrationProtocol c1 = false →
  cls_is_IntegrationProtocol c2 = false →
  cls_new c1 = Return o1 → cls_new c2 = Return o2 →
  structural_check o1 = true → structural_check o2 = true →
  factory_candidate module = None ∧ scan_module module = [o1; o2].
Proof.
  intros Hdir Ht1 Ht2 Hf1 Hf2 Hg1 Hg2 Hm1 Hm2 Hp1 Hp2 Hn1 Hn2 Hc1 Hc2.
  assert (is_public a1 ∧ is_public a2) as [Hpub1 Hpub2].
  { assert (a1 ∈ filter is_public (PyDict.keys (mod_dir module))) as H1
      by (rewrite Hdir; by left).
    assert (a2 ∈ filter is_public (PyDict.keys (mod_dir module))) as H2
      by (rewrite Hdir; right; by left).
    apply list_elem_of_filter in H1 as [? _].
    by apply list_elem_of_filter in H2 as [? _]. }
  split.
  - unfold factory_candidate.
    destruct (module_getattr_absent module "create_integration") as [e ->];
      [done | rewrite Hdir; by apply not_elem_of_pair | done].
  - unfold scan_module, test_candidate.
    destruct (module_getattr_absent module "TestIntegration") as [e ->];
      [done | rewrite Hdir; by apply not_elem_of_pair |].
    simpl. rewrite scan_public_only, Hdir. simpl.
    rewrite (scan_own_class module a1 c1 o1), (scan_own_class module a2 c2 o2);
      done.
Qed.

(** *** The claims on [load_integration_module] *)

(** C3, as the code has it.  When the plugin-loader block supplies
    nothing, [load_integration_module] raises the module-load error
    exactly when the module is neither cached nor importable, and then
    registers nothing; for a module that is found and offers no
    conformant integration it returns the empty list after logging the
    warning, with the table untouched. *)
Theorem module_load_error_iff (module_path : string) (self : IntegrationRegistry) :
  plugin_supplies_nothing host module_path = true →
  ((∃ cause, (load_integration_module host module_path self).1
             = Raise (module_load_error module_path cause))
   ↔ ∃ e, find_module host module_path = Raise e) ∧
  (∀ e, find_module host module_path = Raise e →
     ∃ self',
       load_integration_module host module_path self
       = (Raise (module_load_error module_path (import_failure module_path e)),
          self') ∧
       _integrations self' = _integrations self) ∧
  (∀ module,
     find_module host module_path = Return module →
     no_conformant_integration module →
     ∃ self1,
       _integrations self1 = _integrations self ∧
       load_integration_module host module_path self
       = (Return [],
          logged WARNING ("No integrations found in module " +:+ module_path)
                 self1)).
Proof.
  intros Hnothing.
  destruct (load_after_nothing module_path self Hnothing)
    as (self1 & Htable1 & Hload).
  rewrite Hload. split; [|split].
  - split.
    + intros [cause Hraise].
      destruct (find_module host module_path) as [module|e] eqn:Hfind;
        [|by exists e].
      destruct (manual_returns module_path module self1 Hfind)
        as (loaded & self' & Hrun).
      rewrite Hrun in Hraise. discriminate.
    + intros [e Hfind].
      destruct (manual_unresolvable module_path e self1 Hfind)
        as (self' & Hrun & _).
      rewrite Hrun. by eexists.
  - intros e Hfind.
    destruct (manual_unresolvable module_path e self1 Hfind)
      as (self' & Hrun & Htable).
    exists self'. split; [done | congruence].
  - intros module Hfind Hnone.
    destruct (manual_nothing_found module_path module self1 Hfind Hnone)
      as (self2 & Htable2 & Hrun).
    exists self2. split; [congruence | done].
Qed.

(** C10. When the plugin loader yields a conformant instance whose
    name is taken, the [QuackError] of [register] is logged and the
    call goes on with the manual module loading: its result is that of
    the manual path, hence a list or the module-load error, never the
    duplicate-registration error. *)
Theorem plugin_duplicate_falls_back (module_path : string)
    (loader : PluginLoader) (o : Obj) (n : string) (self : IntegrationRegistry) :
  _get_plugin_loader host = Some loader →
  load_plugin loader module_path = Return o →
  structural_check o = true →
  obj_name o = Some n →
  PyDict.contains n (_integrations self) = true →
  load_integration_module host module_path self
  = manual_module_loading host module_path
      (logged ERROR ("Error registering integration from plugin loader: "
                     +:+ str_exn (duplicate_error n)) self) ∧
  ((∃ loaded, (load_integration_module host module_path self).1 = Return loaded)
   ∨ (∃ cause, (load_integration_module host module_path self).1
               = Raise (module_load_error module_path cause))) ∧
  (∀ k, (load_integration_module host module_path self).1
        ≠ Raise (duplicate_error k)).
Proof.
  intros Hloader Hload Hcheck Hn Htaken.
  assert (load_integration_module host module_path self
          = manual_module_loading host module_path
              (logged ERROR ("Error registering integration from plugin loader: "
                             +:+ str_exn (duplicate_error n)) self)) as Heq.
  { unfold load_integration_module. unfold bind.
    by rewrite (plugin_step_duplicate _ _ _ _ _ Hloader Hload Hcheck Hn Htaken). }
  split; [done|]. rewrite Heq.
  destruct (find_module host module_path) as [module|e] eqn:Hfind.
  - destruct (manual_returns module_path module
                (logged ERROR ("Error registering integration from plugin loader: "
                               +:+ str_exn (duplicate_error n)) self) Hfind)
      as (loaded & self' & ->).
    split; [left; by exists loaded | done].
  - destruct (manual_unresolvable module_path e
                (logged ERROR ("Error registering integration from plugin loader: "
                               +:+ str_exn (duplicate_error n)) self) Hfind)
      as (self' & -> & _).
    split; [right; by eexists | done].
Qed.

Lemma scan_finds_own_class module attr_name cls o :
  attr_name ∈ PyDict.keys (mod_dir module) →
  is_public attr_name →
  attr_name ≠ "TestIntegration" →
  PyDict.get attr_name (mod_dir module) = Some (AClass cls) →
  cls___module__ cls = Some (module_name_or module "") →
  cls_is_IntegrationProtocol cls = false →
  cls_new cls = Return o →
  structural_check o = true →
  o ∈ scan_module module.
Proof.
  intros Hin Hpub Hname Hget Hmod Hproto Hnew Hcheck.
  unfold scan_module. apply elem_of_app. right.
  apply list_elem_of_omap. exists attr_name. split; [done|].
  by apply (scan_own_class module attr_name cls o).
Qed.

(** C4, as the code has it.  The plugin loader comes first: a
    conformant instance under a free name is registered and returned
    alone, and nothing else runs.  When it supplies nothing, the
    [create_integration] of the module found comes next, with the same
    outcome for a conformant instance under a free name.  When that
    supplies nothing either, the instances found by the class scan are
    registered and returned together, provided their names are
    distinct and free; the scan finds every conformant instance of a
    public class of the module.  With no plugin loader, no factory and
    two such classes, both instances are returned and registered. *)
Theorem load_strategy_order :
  (∀ module_path loader o n self,
     _get_plugin_loader host = Some loader →
     load_plugin loader module_path = Return o →
     structural_check o = true →
     obj_name o = Some n →
     PyDict.contains n (_integrations self) = false →
     load_integration_module host module_path self
     = (Return [o], registered o n self)) ∧
  (∀ module_path module create_func o n self,
     plugin_supplies_nothing host module_path = true →
     find_module host module_path = Return module →
     module_getattr module "create_integration" = Return create_func →
     call_attr create_func = Some (Return o) →
     structural_check o = true →
     obj_name o = Some n →
     PyDict.contains n (_integrations self) = false →
     ∃ self',
       load_integration_module host module_path self = (Return [o], self') ∧
       _integrations self' = _integrations self ++ [(n, o)]) ∧
  (∀ module_path module names self,
     plugin_supplies_nothing host module_path = true →
     find_module host module_path = Return module →
     factory_candidate module = None →
     map obj_name (scan_module module) = map Some names →
     NoDup names →
     (∀ n, n ∈ names → PyDict.contains n (_integrations self) = false) →
     ∃ self',
       load_integration_module host module_path self
       = (Return (scan_module module), self') ∧
       _integrations self'
       = _integrations self ++ zip names (scan_module module)) ∧
  (∀ module attr_name cls o,
     attr_name ∈ PyDict.keys (mod_dir module) →
     is_public attr_name →
     attr_name ≠ "TestIntegration" →
     PyDict.get attr_name (mod_dir module) = Some (AClass cls) →
     cls___module__ cls = Some (module_name_or module "") →
     cls_is_IntegrationProtocol cls = false →
     cls_new cls = Return o →
     structural_check o = true →
     o ∈ scan_module module) ∧
  (∀ module_path module a1 a2 c1 c2 o1 o2 n1 n2 self,
     _get_plugin_loader host = None →
     find_module host module_path = Return module →
     filter is_public (PyDict.keys (mod_dir module)) = [a1; a2] →
     a1 ≠ "TestIntegration" → a2 ≠ "TestIntegration" →
     a1 ≠ "create_integration" → a2 ≠ "create_integration" →
     PyDict.get a1 (mod_dir module) = Some (AClass c1) →
     PyDict.get a2 (mod_dir module) = Some (AClass c2) →
     cls___module__ c1 = Some (module_name_or module "") →
     cls___module__ c2 = Some (module_name_or module "") →
     cls_is_IntegrationProtocol c1 = false →
     cls_is_IntegrationProtocol c2 = false →
     cls_new c1 = Return o1 → cls_new c2 = Return o2 →
     structural_check o1 = true → structural_check o2 = true →
     obj_name o1 = Some n1 → obj_name o2 = Some n2 →
     n1 ≠ n2 →
     PyDict.contains n1 (_integrations self) = false →
     PyDict.contains n2 (_integrations self) = false →
     ∃ self',
       load_integration_module host module_path self
       = (Return [o1; o2], self') ∧
       _integrations self' = _integrations self ++ [(n1, o1); (n2, o2)]).
Proof.
  split; [|split; [|split; [|split]]].
  - intros module_path loader o n self Hloader Hload Hcheck Hn Hfresh.
    unfold load_integration_module. unfold bind.
    by rewrite (plugin_step_fresh _ _ _ _ _ Hloader Hload Hcheck Hn Hfresh).
  - intros module_path module create_func o n self
      Hnothing Hfind Hattr Hcall Hcheck Hn Hfresh.
    destruct (load_after_nothing module_path self Hnothing)
      as (self1 & Htable1 & ->).
    rewrite <- Htable1 in Hfresh.
    rewrite (manual_factory _ _ _ _ _ _ Hfind Hattr Hcall Hcheck Hn Hfresh).
    eexists. split; [done|]. simpl. by rewrite Htable1.
  - intros module_path module names self Hnothing Hfind Hfactory Hnames Hnd Hfresh.
    destruct (load_after_nothing module_path self Hnothing)
      as (self1 & Htable1 & ->).
    rewrite <- Htable1 in Hfresh.
    destruct (manual_scan _ _ _ _ Hfind Hfactory Hnames Hnd Hfresh)
      as (self' & -> & Htable).
    exists self'. split; [done | congruence].
  - apply scan_finds_own_class.
  - intros module_path module a1 a2 c1 c2 o1 o2 n1 n2 self Hloader Hfind
      Hdir Ht1 Ht2 Hf1 Hf2 Hg1 Hg2 Hm1 Hm2 Hp1 Hp2 Hn1 Hn2 Hc1 Hc2
      Hname1 Hname2 Hne Hfresh1 Hfresh2.
    destruct (two_classes_scan module a1 a2 c1 c2 o1 o2) as [Hfactory Hscan];
      try done.
    assert (plugin_supplies_nothing host module_path = true) as Hnothing
      by (unfold plugin_supplies_nothing; by rewrite Hloader).
    destruct (load_after_nothing module_path self Hnothing)
      as (self1 & Htable1 & ->).
    destruct (manual_scan module_path module [n1; n2] self1 Hfind Hfactory)
      as (self' & -> & Htable).
    + rewrite Hscan. simpl. by rewrite Hname1, Hname2.
    + apply NoDup_cons. split; [|apply NoDup_singleton].
      intros H. by apply list_elem_of_singleton in H.
    + intros n Hn. rewrite Htable1.
      apply elem_of_cons in Hn as [->|Hn]; [done|].
      by apply list_elem_of_singleton in Hn as ->.
    + rewrite Hscan in *. exists self'. split; [done|].
      rewrite Htable, Htable1. done.
Qed.

End ModuleLoading.

(** ** The provider registry *)

Section ProviderRegistryFacts.
Import ProviderRegistry.

Lemma get_set_same {V : Type} (d : list (string * V)) k v :
  PyDict.get k (PyDict.set k v d) = Some v.
Proof.
  induction d as [|[k' v'] d IH]; simpl.
  - by rewrite String.eqb_refl.
  - destruct (String.eqb k' k) eqn:Hk; simpl; by rewrite Hk.
Qed.

Lemma append_assoc (s1 s2 s3 : string) :
  (s1 +:+ s2) +:+ s3 = s1 +:+ s2 +:+ s3.
Proof.
  induction s1 as [|c s1 IH]; [done|].
  change (String c ((s1 +:+ s2) +:+ s3) = String c (s1 +:+ s2 +:+ s3)).
  by f_equal.
Qed.

(** [str.lower] does on ASCII text what [ascii_lower] does. *)
Variable lower : string → string.
Hypothesis lower_ascii_text :
  ∀ s, is_ascii_text s = true → lower s = ascii_lower s.

(** C6. Resolving under any spelling whose lowercase form is a
    registered name finds that provider's constructor and runs it on
    the options: the call succeeds exactly when the constructor does,
    with the client the constructor built, and fails with the
    construction error wrapping the cause when the constructor raises,
    never with the unsupported-provider error.  Two spellings with the
    same lowercase form therefore give the same outcome, [register]
    makes a name resolvable in every spelling, and ["MOCK"] and
    ["mock"] with a script both give the scripted test client.  A name
    whose lowercase form is not a key fails with the
    unsupported-provider error, whose message ends with the list of the
    registered names. *)
Theorem resolve_case_insensitive :
  (∀ (table : list (string * Constructor)) key (constructor : Constructor)
      variant options,
     PyDict.get key table = Some constructor →
     lower variant = key →
     (∀ client, constructor options = Return client →
                resolve lower table variant options = inr client) ∧
     (∀ e, constructor options = Raise e →
           resolve lower table variant options
           = inl (ProviderConstructionError key e)) ∧
     (∀ message, resolve lower table variant options
                 ≠ inl (UnsupportedProviderError message))) ∧
  (∀ (table : list (string * Constructor)) variant1 variant2 options,
     PyDict.contains (lower variant1) table = true →
     lower variant1 = lower variant2 →
     resolve lower table variant1 options
     = resolve lower table variant2 options) ∧
  (∀ (table : list (string * Constructor)) name (constructor : Constructor),
     PyDict.get (lower name) (register lower name constructor table)
     = Some constructor) ∧
  (resolve lower _LLM_REGISTRY "MOCK" [("script", OList ["a"; "b"])]
   = inr (MockClient ["a"; "b"] []) ∧
   resolve lower _LLM_REGISTRY "mock" [("script", OList ["a"; "b"])]
   = inr (MockClient ["a"; "b"] [])) ∧
  (∀ (table : list (string * Constructor)) name options,
     PyDict.contains (lower name) table = false →
     ∃ prefix,
       resolve lower table name options
       = inl (UnsupportedProviderError
                (prefix +:+ String.concat ", " (PyDict.keys table)))).
Proof.
  split; [|split; [|split; [|split]]].
  - intros table key constructor variant options Hkey Hlower.
    unfold resolve. cbv zeta. rewrite Hlower, Hkey.
    destruct (constructor options) as [client|e].
    + split; [by intros ? [= ->]|]. split; [by intros ? [=] | by intros ? [=]].
    + split; [by intros ? [=]|]. split; [by intros ? [= ->] | by intros ? [=]].
  - intros table variant1 variant2 options Hkey Hlower. unfold resolve.
    cbv zeta. rewrite <- Hlower. rewrite PyDictFacts.get_contains in Hkey.
    by destruct (PyDict.get (lower variant1) table); [|discriminate].
  - intros table name constructor. unfold register. apply get_set_same.
  - unfold resolve. cbv zeta.
    rewrite (lower_ascii_text "MOCK" eq_refl), (lower_ascii_text "mock" eq_refl).
    split; reflexivity.
  - intros table name options Hmiss. unfold resolve. cbv zeta.
    rewrite PyDictFacts.get_contains in Hmiss.
    destruct (PyDict.get (lower name) table); [discriminate|].
    exists ("Unsupported LLM provider: " +:+ name +:+ ". Registered providers: ").
    unfold unsupported_message. by rewrite !append_assoc.
Qed.

End ProviderRegistryFacts.

(** ** Concrete registries and hosts *)

Lemma plain_host_no_loader : _get_plugin_loader Examples.plain_host = None.
Proof. vm_compute. reflexivity. Qed.

Lemma plugin_host_loader :
  _get_plugin_loader Examples.plugin_host = Some Examples.alpha_loader.
Proof. vm_compute. reflexivity. Qed.


(** * Counterexamples *)

Lemma fixture_scan :
  _load_integrations_from_module Examples.fixture_module __init__
  = (Return [Examples.half_baked], __init__).
Proof. reflexivity. Qed.

Lemma ghost_module_loaded :
  load_integration_module Examples.plugin_host "pkg.ghost" __init__
  = (Return [Examples.conformant "alpha"],
     registered (Examples.conformant "alpha") "alpha" __init__).
Proof. vm_compute. reflexivity. Qed.

Lemma factory_after_duplicate :
  (load_integration_module Examples.plugin_host "pkg.factory"
     Examples.alpha_registry).1
  = Return [Examples.conformant "beta"].
Proof. vm_compute. reflexivity. Qed.

(** C5 as stated fails at the [TestIntegration] special case: the
    class scan accepts an instance that does not pass the structural
    check. *)
Lemma test_class_accepted_without_callable :
  ¬ (∀ module self found self' o,
       _load_integrations_from_module module self = (Return found, self') →
       o ∈ found → structural_check o = true).
Proof.
  intros Hclaim.
  specialize (Hclaim Examples.fixture_module __init__ [Examples.half_baked]
                __init__ Examples.half_baked fixture_scan).
  discriminate Hclaim. by left.
Qed.

(** C3 as stated fails when the plugin loader answers for an
    identifier that is neither cached nor importable: no error is
    raised. *)
Lemma unresolvable_module_without_error :
  ¬ (∀ host module_path self,
       (∃ cause, (load_integration_module host module_path self).1
                 = Raise (module_load_error module_path cause))
       ↔ ∃ e, find_module host module_path = Raise e).
Proof.
  intros Hclaim.
  destruct (Hclaim Examples.plugin_host "pkg.ghost" __init__) as [_ Hraise].
  destruct Hraise as [cause Hcause].
  - eexists. vm_compute. reflexivity.
  - rewrite ghost_module_loaded in Hcause. discriminate Hcause.
Qed.

(** C4 as stated fails when the name of the plugin loader's instance is
    taken: that instance is not what the call returns, the factory of
    the module has run. *)
Lemma plugin_instance_not_returned :
  ¬ (∀ host module_path loader o self,
       _get_plugin_loader host = Some loader →
       load_plugin loader module_path = Return o →
       structural_check o = true →
       (load_integration_module host module_path self).1 = Return [o]).
Proof.
  intros Hclaim.
  specialize (Hclaim Examples.plugin_host "pkg.factory" Examples.alpha_loader
                (Examples.conformant "alpha") Examples.alpha_registry
                plugin_host_loader eq_refl eq_refl).
  rewrite factory_after_duplicate in Hclaim. discriminate Hclaim.
Qed.

(** C6 as stated fails for a registered provider whose constructor
    raises on the options it is given: resolving ["OpenAI"] without
    credentials finds the provider and does not succeed. *)
Lemma registered_provider_construction_fails :
  ¬ (∀ (table : list (string * ProviderRegistry.Constructor)) key variant
        options,
       PyDict.contains key table = true →
       ProviderRegistry.ascii_lower variant = key →
       ∃ client,
         ProviderRegistry.resolve ProviderRegistry.ascii_lower
           table variant options = inr client).
Proof.
  intros Hclaim.
  destruct (Hclaim ProviderRegistry._LLM_REGISTRY "openai" "OpenAI" []
              eq_refl eq_refl) as [client Hclient].
  discriminate Hclient.
Qed.

(** * The theorems at concrete inputs *)

Lemma register_duplicate_raises_witness :
  obj_name (Examples.conformant "alpha") = Some "alpha" ∧
  PyDict.contains "alpha" (_integrations Examples.alpha_registry) = true ∧
  register (Examples.conformant "alpha") Examples.alpha_registry
  = (Raise (duplicate_error "alpha"), Examples.alpha_registry).
Proof.
  split; [reflexivity|]. split; [reflexivity|].
  apply (register_duplicate_raises Examples.alpha_registry
           (Examples.conformant "alpha") "alpha"); reflexivity.
Defined.

Lemma unregister_total_witness :
  PyDict.wf (_integrations Examples.alpha_registry) ∧
  ∃ self',
    unregister "alpha" Examples.alpha_registry = (Return true, self') ∧
    _integrations self' = [] ∧
    is_registered "alpha" self' = (Return false, self').
Proof.
  assert (PyDict.wf (_integrations Examples.alpha_registry)) as Hwf
    by apply NoDup_singleton.
  split; [exact Hwf|].
  destruct (unregister_total Examples.alpha_registry "alpha" Hwf)
    as (self' & Hrun & Hpresent & _).
  destruct (Hpresent eq_refl) as (Htable & Hgone & _).
  exists self'. split; [exact Hrun|]. split; [exact Htable | exact Hgone].
Defined.

Lemma list_integrations_after_register_all_witness :
  map obj_name [Examples.conformant "alpha"; Examples.conformant "beta"]
  = map Some ["alpha"; "beta"] ∧
  NoDup ["alpha"; "beta"] ∧
  ∃ self' listed,
    register_all [Examples.conformant "alpha"; Examples.conformant "beta"]
      __init__ = (Return tt, self') ∧
    list_integrations self' = (Return listed, self') ∧
    (∀ n, n ∈ listed ↔ n ∈ ["alpha"; "beta"]) ∧
    NoDup listed ∧
    length listed = 2.
Proof.
  assert (NoDup ["alpha"; "beta"]) as Hnd.
  { apply NoDup_cons. split; [|apply NoDup_singleton].
    intros H. apply list_elem_of_singleton in H. discriminate H. }
  split; [reflexivity|]. split; [exact Hnd|].
  apply (list_integrations_after_register_all
           [Examples.conformant "alpha"; Examples.conformant "beta"]
           ["alpha"; "beta"] eq_refl Hnd).
Defined.

Lemma get_integration_by_type_none_all_witness :
  (∀ o, o ∈ PyDict.values (_integrations Examples.alpha_registry) →
        structural_check o = true) ∧
  get_integration_by_type structural_check Examples.alpha_registry
  = (Return [Examples.conformant "alpha"], Examples.alpha_registry).
Proof.
  assert (∀ o, o ∈ PyDict.values (_integrations Examples.alpha_registry) →
               structural_check o = true) as Hall.
  { intros o Ho. apply list_elem_of_singleton in Ho. rewrite Ho. reflexivity. }
  split; [exact Hall|].
  apply (get_integration_by_type_none_all Examples.alpha_registry
           structural_check); exact Hall.
Defined.

Lemma structural_check_has_name :
  ∀ o, structural_check o = true → hasattr (obj_name o) = true.
Proof. intros o H. by apply structural_check_true in H as [? _]. Qed.


Lemma empty_module_no_conformant :
  no_conformant_integration Examples.empty_module.
Proof.
  intros attr_name attr o Hattr Hcall.
  unfold module_getattr, Examples.empty_module in Hattr.
  cbn [mod_dir PyDict.get] in Hattr.
  destruct (String.eqb "__name__" attr_name);
    [injection Hattr as <-; discriminate Hcall|].
  destruct (String.eqb_spec "helper" attr_name) as [<-|];
    [|discriminate Hattr].
  injection Hattr as <-. injection Hcall as <-. reflexivity.
Qed.

Lemma module_load_error_iff_witness :
  plugin_supplies_nothing Examples.plain_host "pkg.ghost" = true ∧
  plugin_supplies_nothing Examples.plain_host "pkg.empty" = true ∧
  (∃ self',
     load_integration_module Examples.plain_host "pkg.ghost" __init__
     = (Raise (module_load_error "pkg.ghost"
                 (import_failure "pkg.ghost"
                    (ModuleNotFoundError "No module named pkg.ghost"))), self') ∧
     _integrations self' = []) ∧
  (∃ self1,
     _integrations self1 = [] ∧
     load_integration_module Examples.plain_host "pkg.empty" __init__
     = (Return [],
        logged WARNING "No integrations found in module pkg.empty" self1)).
Proof.
  assert (plugin_supplies_nothing Examples.plain_host "pkg.ghost" = true) as Hg
    by (vm_compute; reflexivity).
  assert (plugin_supplies_nothing Examples.plain_host "pkg.empty" = true) as He
    by (vm_compute; reflexivity).
  split; [exact Hg|]. split; [exact He|]. split.
  - destruct (module_load_error_iff Examples.plain_host "pkg.ghost" __init__ Hg)
      as (_ & Hraise & _).
    apply (Hraise (ModuleNotFoundError "No module named pkg.ghost")).
    vm_compute. reflexivity.
  - destruct (module_load_error_iff Examples.plain_host "pkg.empty" __init__ He)
      as (_ & _ & Hempty).
    apply (Hempty Examples.empty_module); [vm_compute; reflexivity|].
    exact empty_module_no_conformant.
Defined.

Lemma plugin_duplicate_falls_back_witness :
  _get_plugin_loader Examples.plugin_host = Some Examples.alpha_loader ∧
  PyDict.contains "alpha" (_integrations Examples.alpha_registry) = true ∧
  load_integration_module Examples.plugin_host "pkg.factory"
    Examples.alpha_registry
  = manual_module_loading Examples.plugin_host "pkg.factory"
      (logged ERROR ("Error registering integration from plugin loader: "
                     +:+ str_exn (duplicate_error "alpha"))
              Examples.alpha_registry).
Proof.
  split; [exact plugin_host_loader|]. split; [reflexivity|].
  apply (plugin_duplicate_falls_back Examples.plugin_host "pkg.factory"
           Examples.alpha_loader (Examples.conformant "alpha") "alpha"
           Examples.alpha_registry plugin_host_loader);
    reflexivity.
Defined.

Lemma load_strategy_order_witness :
  _get_plugin_loader Examples.plain_host = None ∧
  find_module Examples.plain_host "pkg.two" = Return Examples.two_class_module ∧
  ∃ self',
    load_integration_module Examples.plain_host "pkg.two" __init__
    = (Return [Examples.conformant "first"; Examples.conformant "second"], self') ∧
    _integrations self'
    = [("first", Examples.conformant "first");
       ("second", Examples.conformant "second")].
Proof.
  assert (find_module Examples.plain_host "pkg.two"
          = Return Examples.two_class_module) as Hfind
    by (vm_compute; reflexivity).
  split; [exact plain_host_no_loader|]. split; [exact Hfind|].
  destruct (load_strategy_order Examples.plain_host) as (_ & _ & _ & _ & Htwo).
  apply (Htwo "pkg.two" Examples.two_class_module "First" "Second"
           (mkClass (Some "pkg.two") false (Return (Examples.conformant "first")))
           (mkClass (Some "pkg.two") false (Return (Examples.conformant "second")))
           (Examples.conformant "first") (Examples.conformant "second")
           "first" "second" __init__ plain_host_no_loader Hfind);
    try reflexivity; discriminate.
Defined.

Lemma acceptance_by_path_witness :
  load_plugin Examples.alpha_loader "pkg.any" = Return (Examples.conformant "alpha") ∧
  _load_integration_with_plugin_loader "pkg.any" (Some Examples.alpha_loader)
    __init__
  = (Return (Some (Examples.conformant "alpha")), __init__).
Proof.
  split; [reflexivity|].
  destruct (acceptance_by_path structural_check) as (_ & Hplugin & _).
  apply (Hplugin Examples.alpha_loader "pkg.any" (Examples.conformant "alpha")
           __init__ eq_refl).
Defined.

Lemma resolve_case_insensitive_witness :
  (∀ s, ProviderRegistry.is_ascii_text s = true →
        ProviderRegistry.ascii_lower s = ProviderRegistry.ascii_lower s) ∧
  PyDict.get "openai" ProviderRegistry._LLM_REGISTRY
  = Some (ProviderRegistry.backend_constructor "openai") ∧
  ProviderRegistry.ascii_lower "OpenAI" = "openai" ∧
  ProviderRegistry.resolve ProviderRegistry.ascii_lower
    ProviderRegistry._LLM_REGISTRY
    "OpenAI" [("api_key", ProviderRegistry.OStr "test-key")]
  = inr (ProviderRegistry.BackendClient "openai"
           [("api_key", ProviderRegistry.OStr "test-key")]).
Proof.
  split; [reflexivity|]. split; [reflexivity|]. split; [reflexivity|].
  destruct (resolve_case_insensitive ProviderRegistry.ascii_lower
              (fun s _ => eq_refl)) as (Hhit & _).
  destruct (Hhit ProviderRegistry._LLM_REGISTRY "openai"
              (ProviderRegistry.backend_constructor "openai") "OpenAI"
              [("api_key", ProviderRegistry.OStr "test-key")]
              eq_refl eq_refl) as (Hclient & _).
  apply Hclient. reflexivity.
Defined.

(** * Further properties of the registry *)

Lemma get_set_other {V : Type} (d : list (string * V)) k k' v :
  k' ≠ k → PyDict.get k' (PyDict.set k v d) = PyDict.get k' d.
Proof.
  intros Hne. induction d as [|[k0 v0] d IH]; simpl.
  - destruct (String.eqb_spec k k'); [congruence | done].
  - destruct (String.eqb_spec k0 k) as [->|Hk0]; simpl.
    + destruct (String.eqb_spec k k'); [congruence | done].
    + by rewrite IH.
Qed.

Lemma del_appended {V : Type} (d : list (string * V)) k v :
  PyDict.contains k d = false → PyDict.del k (d ++ [(k, v)]) = d.
Proof.
  induction d as [|[k0 v0] d IH]; simpl.
  - by rewrite String.eqb_refl.
  - destruct (String.eqb k0 k); [discriminate|]. intros H. by rewrite IH.
Qed.

(** X1. A successful [register] makes the instance retrievable under
    its name, leaves every other lookup as it was and puts the name
    last in [list_integrations]. *)
Theorem register_then_lookup (self : IntegrationRegistry) (integration : Obj)
    (n : string) :
  obj_name integration = Some n →
  PyDict.contains n (_integrations self) = false →
  ∃ self',
    register integration self = (Return tt, self') ∧
    get_integration n self' = (Return (Some integration), self') ∧
    is_registered n self' = (Return true, self') ∧
    list_integrations self'
    = (Return (PyDict.keys (_integrations self) ++ [n]), self') ∧
    ∀ k, k ≠ n →
         get_integration k self'
         = (Return (PyDict.get k (_integrations self)), self').
Proof.
  intros Hn Hfresh. exists (registered integration n self).
  split; [by apply register_fresh|].
  unfold get_integration, is_registered, list_integrations. run_monad.
  rewrite <- (PyDictFacts.set_fresh _ _ integration Hfresh).
  repeat split.
  - by rewrite get_set_same.
  - by rewrite PyDictFacts.get_contains, get_set_same.
  - rewrite (PyDictFacts.set_fresh _ _ integration Hfresh).
    by rewrite PyDictFacts.keys_app.
  - intros k Hk. by rewrite get_set_other.
Qed.

(** X2. Registering an instance under a free name and unregistering
    that name again gives back the table the registry started with. *)
Theorem register_unregister_round_trip (self : IntegrationRegistry)
    (integration : Obj) (n : string) :
  obj_name integration = Some n →
  PyDict.contains n (_integrations self) = false →
  ∃ self1 self2,
    register integration self = (Return tt, self1) ∧
    unregister n self1 = (Return true, self2) ∧
    _integrations self2 = _integrations self.
Proof.
  intros Hn Hfresh. exists (registered integration n self).
  eexists. split; [by apply register_fresh|].
  unfold unregister. run_monad.
  rewrite PyDictFacts.contains_app. simpl. rewrite String.eqb_refl, orb_true_r.
  simpl. split; [reflexivity|]. simpl. by apply del_appended.
Qed.

Lemma keys_filter_ne {V : Type} (d : list (string * V)) k :
  PyDict.keys (filter (λ p, p.1 ≠ k) d) = filter (λ k', k' ≠ k) (PyDict.keys d).
Proof.
  induction d as [|[k0 v0] d IH]; [done|]. simpl.
  destruct (decide (k0 ≠ k)).
  - rewrite !filter_cons_True by done. simpl. by rewrite IH.
  - rewrite !filter_cons_False by done. done.
Qed.

(** X3. Unregistering a registered instance and registering it again
    moves its entry to the end of the table: the other entries keep
    their order and the name comes last in [list_integrations]. *)
Theorem unregister_register_moves_last (self : IntegrationRegistry)
    (integration : Obj) (n : string) :
  PyDict.wf (_integrations self) →
  PyDict.contains n (_integrations self) = true →
  obj_name integration = Some n →
  ∃ self1 self2,
    unregister n self = (Return true, self1) ∧
    register integration self1 = (Return tt, self2) ∧
    _integrations self2
    = filter (λ p, p.1 ≠ n) (_integrations self) ++ [(n, integration)] ∧
    list_integrations self2
    = (Return (filter (λ k, k ≠ n) (PyDict.keys (_integrations self)) ++ [n]),
       self2).
Proof.
  intros Hwf Hin Hn.
  assert (∃ self1, unregister n self = (Return true, self1) ∧
                   _integrations self1 = PyDict.del n (_integrations self))
    as (self1 & Hun & Htable1).
  { unfold unregister. run_monad. rewrite Hin. simpl. by eexists. }
  assert (PyDict.contains n (_integrations self1) = false) as Hfresh
    by (rewrite Htable1; by apply PyDictFacts.contains_del).
  exists self1, (registered integration n self1).
  split; [done|]. split; [by apply register_fresh|].
  unfold list_integrations. run_monad.
  rewrite Htable1, PyDictFacts.del_filter by done.
  split; [done|].
  by rewrite PyDictFacts.keys_app, keys_filter_ne.
Qed.

(** X4. The three read operations never raise and never change the
    registry, and they agree: a name is registered exactly when it is
    among the listed names, exactly when a lookup finds an instance. *)
Theorem registry_views_agree (self : IntegrationRegistry) (n : string) :
  ∃ names r b,
    list_integrations self = (Return names, self) ∧
    get_integration n self = (Return r, self) ∧
    is_registered n self = (Return b, self) ∧
    (b = true ↔ n ∈ names) ∧
    (b = true ↔ ∃ o, r = Some o).
Proof.
  exists (PyDict.keys (_integrations self)),
    (PyDict.get n (_integrations self)),
    (PyDict.contains n (_integrations self)).
  repeat split; try (intros H).
  - by apply PyDictFacts.contains_keys.
  - by apply PyDictFacts.contains_keys.
  - rewrite PyDictFacts.get_contains in H.
    destruct (PyDict.get n (_integrations self)) as [o|]; [by exists o | done].
  - destruct H as [o Ho]. by rewrite PyDictFacts.get_contains, Ho.
Qed.

(** X5. [register] is all or nothing.  It raises in two cases only, an
    instance without [name] (not a [QuackError]) and a name that is
    taken (a [QuackError]), and then the registry object is the one it
    started from; in every other case it returns. *)
Theorem register_all_or_nothing (self : IntegrationRegistry) (integration : Obj) :
  (∀ e self',
     register integration self = (Raise e, self') →
     self' = self ∧
     (if is_QuackError e
      then ∃ n, obj_name integration = Some n ∧
                PyDict.contains n (_integrations self) = true
      else obj_name integration = None)) ∧
  (∀ n,
     obj_name integration = Some n →
     PyDict.contains n (_integrations self) = false →
     ∃ self', register integration self = (Return tt, self') ∧
              _integrations self' = _integrations self ++ [(n, integration)]).
Proof.
  split.
  - intros e self'. unfold register, getattr_name. run_monad.
    destruct (obj_name integration) as [n|] eqn:Hn; simpl.
    + destruct (PyDict.contains n (_integrations self)) eqn:Hc; simpl;
        [|discriminate].
      intros [= <- <-]. split; [done|]. simpl. by exists n.
    + intros [= <- <-]. done.
  - intros n Hn Hfresh. exists (registered integration n self).
    split; [by apply register_fresh | done].
Qed.

(** ** Names and keys in the registries the methods produce *)

Lemma get_elem_of {V : Type} (d : list (string * V)) k v :
  PyDict.get k d = Some v → (k, v) ∈ d.
Proof.
  induction d as [|[k0 v0] d IH]; simpl; [discriminate|].
  destruct (String.eqb_spec k0 k) as [->|Hne].
  - intros [= ->]. by left.
  - intros H. right. by apply IH.
Qed.

Lemma keyed_by_name_register integration :
  preserves keyed_by_name (register integration).
Proof.
  intros self r self' [Hwf Hnamed] Hrun. split.
  - by apply (register_wf self self' integration r).
  - revert Hrun. unfold register, getattr_name. run_monad.
    destruct (obj_name integration) as [n|] eqn:Hn; simpl;
      [|by intros [= _ <-]].
    destruct (PyDict.contains n (_integrations self)) eqn:Hc; simpl;
      [by intros [= _ <-]|].
    intros [= _ <-]. simpl. rewrite (PyDictFacts.set_fresh _ _ _ Hc).
    intros k v Hkv. apply elem_of_app in Hkv as [Hkv|Hkv]; [by apply Hnamed|].
    apply list_elem_of_singleton in Hkv. by injection Hkv as -> ->.
Qed.

Lemma keyed_by_name_unregister name :
  preserves keyed_by_name (unregister name).
Proof.
  intros self r self' [Hwf Hnamed] Hrun. split.
  - by apply (unregister_wf self self' name r).
  - revert Hrun. unfold unregister. run_monad.
    destruct (PyDict.contains name (_integrations self)); simpl;
      intros [= _ <-]; simpl; [|done].
    rewrite PyDictFacts.del_filter by done.
    intros k v Hkv. apply list_elem_of_filter in Hkv as [_ Hkv].
    by apply Hnamed.
Qed.

Section KeyedByName.
Variable isinstance_IntegrationProtocol : Obj → bool.
Variable host : Env.

Lemma keyed_by_name_discover :
  preserves keyed_by_name
    (discover_integrations isinstance_IntegrationProtocol host).
Proof.
  pose proof keyed_by_name_register as Hregister.
  unfold discover_integrations, _get_entry_points, discover_entry,
    _load_integration_from_entry.
  repeat preserves_step.
Qed.

Lemma keyed_by_name_load module_path :
  preserves keyed_by_name (load_integration_module host module_path).
Proof.
  pose proof keyed_by_name_register as Hregister.
  unfold load_integration_module, plugin_loader_step, manual_module_loading,
    _load_integration_with_plugin_loader, register_and_return, resolve_module,
    _load_integration_from_factory, _load_integrations_from_module,
    scan_test_class, scan_attribute, register_scanned, register_scanned_body,
    getattr_name.
  repeat preserves_step.
Qed.

(** X6. In every registry that the public methods produce from a new
    one, the listed names are pairwise distinct and a lookup under a
    name only ever finds an instance whose [name] is that name. *)
Theorem reachable_keyed_by_name (self : IntegrationRegistry) :
  reachable isinstance_IntegrationProtocol host self →
  ∃ names,
    list_integrations self = (Return names, self) ∧
    NoDup names ∧
    ∀ n integration,
      get_integration n self = (Return (Some integration), self) →
      obj_name integration = Some n.
Proof.
  intros Hreach.
  assert (keyed_by_name (_integrations self)) as [Hwf Hnamed].
  { induction Hreach as [|o self r self' _ IH Hrun|name self r self' _ IH Hrun
                        |self r self' _ IH Hrun|module_path self r self' _ IH Hrun].
    - split; [apply NoDup_nil_2|]. intros k v Hkv. inversion Hkv.
    - by apply (keyed_by_name_register o self r self').
    - by apply (keyed_by_name_unregister name self r self').
    - by apply (keyed_by_name_discover self r self').
    - by apply (keyed_by_name_load module_path self r self'). }
  exists (PyDict.keys (_integrations self)). split; [done|]. split; [done|].
  intros n integration. unfold get_integration. run_monad.
  intros [= Hget]. apply Hnamed. by apply get_elem_of.
Qed.
End KeyedByName.

(** ** What discovery adds to the table *)

Section DiscoveryAppends.
Variable isinstance_IntegrationProtocol : Obj → bool.
Variable host : Env.
Hypothesis protocol_has_name :
  ∀ o, isinstance_IntegrationProtocol o = true → hasattr (obj_name o) = true.

Lemma entry_candidate_loaded entry plugin_loader self :
  ∃ self',
    _load_integration_from_entry isinstance_IntegrationProtocol
      entry plugin_loader self
    = (Return (entry_candidate isinstance_IntegrationProtocol plugin_loader entry),
       self') ∧
    _integrations self' = _integrations self.
Proof.
  unfold _load_integration_from_entry, entry_candidate. run_monad.
  repeat (case_match; simplify_eq/=); eexists; split; reflexivity.
Qed.

Lemma entry_candidate_named plugin_loader entry o :
  entry_candidate isinstance_IntegrationProtocol plugin_loader entry = Some o →
  ∃ n, obj_name o = Some n.
Proof.
  intros Hc.
  assert (isinstance_IntegrationProtocol o = true) as Ho.
  { unfold entry_candidate in Hc. repeat (case_match; simplify_eq/=); done. }
  apply protocol_has_name in Ho.
  destruct (obj_name o) as [n|]; [by exists n | discriminate].
Qed.

(** The three ways one turn of the loop can go. *)
Lemma discover_entry_cases plugin_loader entry discovered self :
  ∃ self',
    match entry_candidate isinstance_IntegrationProtocol plugin_loader entry with
    | None =>
        discover_entry isinstance_IntegrationProtocol plugin_loader entry
          discovered self = (Return discovered, self') ∧
        _integrations self' = _integrations self
    | Some o =>
        ∃ n, obj_name o = Some n ∧
             if PyDict.contains n (_integrations self) then
               discover_entry isinstance_IntegrationProtocol plugin_loader entry
                 discovered self = (Return discovered, self') ∧
               _integrations self' = _integrations self
             else
               discover_entry isinstance_IntegrationProtocol plugin_loader entry
                 discovered self = (Return (discovered ++ [o]), self') ∧
               _integrations self' = _integrations self ++ [(n, o)]
    end.
Proof.
  destruct (entry_candidate_loaded entry plugin_loader self)
    as (self1 & Hrun & Htable).
  destruct (entry_candidate isinstance_IntegrationProtocol plugin_loader entry)
    as [o|] eqn:Hc.
  - destruct (entry_candidate_named _ _ _ Hc) as [n Hn].
    destruct (PyDict.contains n (_integrations self)) eqn:Hin.
    + eexists. exists n. split; [done|]. rewrite Hin.
      unfold discover_entry. unfold bind at 1. rewrite Hrun.
      unfold try_except, bind. rewrite <- Htable in Hin.
      rewrite (register_taken _ _ _ Hn Hin). simpl. run_monad.
      split; [reflexivity | done].
    + eexists. exists n. split; [done|]. rewrite Hin.
      unfold discover_entry. unfold bind at 1. rewrite Hrun.
      unfold try_except, bind. rewrite <- Htable in Hin.
      rewrite (register_fresh _ _ _ Hn Hin). run_monad.
      split; [reflexivity|]. simpl. by rewrite Htable.
  - exists self1. unfold discover_entry. unfold bind at 1. by rewrite Hrun.
Qed.

Lemma discover_loop_appends plugin_loader entries : ∀ discovered self,
  ∃ found names self',
    for_collect entries discovered
      (discover_entry isinstance_IntegrationProtocol plugin_loader) self
    = (Return (discovered ++ found), self') ∧
    map obj_name found = map Some names ∧
    _integrations self' = _integrations self ++ zip names found ∧
    ∀ entry o n,
      entry ∈ entries →
      entry_candidate isinstance_IntegrationProtocol plugin_loader entry = Some o →
      obj_name o = Some n →
      PyDict.contains n (_integrations self') = true.
Proof.
  induction entries as [|entry entries IH]; intros discovered self.
  - exists [], [], self. simpl. rewrite !app_nil_r.
    repeat split; try done. intros entry o n Hin. inversion Hin.
  - simpl. unfold bind.
    destruct (discover_entry_cases plugin_loader entry discovered self)
      as (self1 & Hcase).
    destruct (entry_candidate isinstance_IntegrationProtocol plugin_loader entry)
      as [o|] eqn:Hc.
    + destruct Hcase as (n & Hn & Hcase).
      destruct (PyDict.contains n (_integrations self)) eqn:Hin;
        destruct Hcase as [-> Htable1].
      * destruct (IH discovered self1) as (found & names & self' & -> & Hnames
                                            & Htable & Hsat).
        exists found, names, self'.
        split; [done|]. split; [done|]. split; [by rewrite Htable, Htable1|].
        intros entry' o' n' Hin' Hc' Hn'.
        apply elem_of_cons in Hin' as [->|Hin']; [|by eapply Hsat].
        rewrite Hc in Hc'. injection Hc' as <-. rewrite Hn in Hn'.
        injection Hn' as <-. rewrite Htable, Htable1.
        by rewrite PyDictFacts.contains_app, Hin.
      * destruct (IH (discovered ++ [o]) self1)
          as (found & names & self' & -> & Hnames & Htable & Hsat).
        exists (o :: found), (n :: names), self'.
        split; [by rewrite <- app_assoc|].
        split; [simpl; by rewrite Hn, Hnames|].
        split; [rewrite Htable, Htable1, <- app_assoc; done|].
        intros entry' o' n' Hin' Hc' Hn'.
        apply elem_of_cons in Hin' as [->|Hin']; [|by eapply Hsat].
        rewrite Hc in Hc'. injection Hc' as <-. rewrite Hn in Hn'.
        injection Hn' as <-. rewrite Htable, Htable1.
        rewrite !PyDictFacts.contains_app. simpl.
        by rewrite String.eqb_refl, orb_true_r.
    + destruct Hcase as [-> Htable1].
      destruct (IH discovered self1) as (found & names & self' & -> & Hnames
                                          & Htable & Hsat).
      exists found, names, self'.
      split; [done|]. split; [done|]. split; [by rewrite Htable, Htable1|].
      intros entry' o' n' Hin' Hc' Hn'.
      apply elem_of_cons in Hin' as [->|Hin']; [congruence | by eapply Hsat].
Qed.

Lemma discover_loop_saturated plugin_loader entries : ∀ discovered self,
  (∀ entry o n,
     entry ∈ entries →
     entry_candidate isinstance_IntegrationProtocol plugin_loader entry = Some o →
     obj_name o = Some n →
     PyDict.contains n (_integrations self) = true) →
  ∃ self',
    for_collect entries discovered
      (discover_entry isinstance_IntegrationProtocol plugin_loader) self
    = (Return discovered, self') ∧
    _integrations self' = _integrations self.
Proof.
  induction entries as [|entry entries IH]; intros discovered self Hsat.
  - by exists self.
  - simpl. unfold bind.
    destruct (discover_entry_cases plugin_loader entry discovered self)
      as (self1 & Hcase).
    assert (discover_entry isinstance_IntegrationProtocol plugin_loader entry
              discovered self = (Return discovered, self1) ∧
            _integrations self1 = _integrations self) as [-> Htable1].
    { destruct (entry_candidate isinstance_IntegrationProtocol plugin_loader entry)
        as [o|] eqn:Hc; [|done].
      destruct Hcase as (n & Hn & Hcase).
      by rewrite (Hsat entry o n (list_elem_of_here _ _) Hc Hn) in Hcase. }
    destruct (IH discovered self1) as (self' & -> & Htable).
    { intros entry' o n Hin Hc Hn. rewrite Htable1.
      apply (Hsat entry' o n); [by right | done | done]. }
    exists self'. split; [done | congruence].
Qed.

(** X7. [discover_integrations] only appends: the entries the table
    had stay in place, and the new entries are exactly the returned
    instances, in order, each under its name. *)
Theorem discovery_only_appends (self : IntegrationRegistry) :
  ∃ found names self',
    discover_integrations isinstance_IntegrationProtocol host self
    = (Return found, self') ∧
    map obj_name found = map Some names ∧
    _integrations self' = _integrations self ++ zip names found.
Proof.
  unfold discover_integrations. unfold bind at 1.
  destruct (get_entry_points_returns host "quackcore.integrations" self)
    as (entries & self0 & -> & Htable0 & _).
  destruct (discover_loop_appends (_get_plugin_loader host) entries [] self0)
    as (found & names & self' & -> & Hnames & Htable & _).
  exists found, names, self'. split; [done|]. split; [done|].
  by rewrite Htable, Htable0.
Qed.

Lemma discover_with_entries entries self :
  entry_points host "quackcore.integrations" = Return entries →
  discover_integrations isinstance_IntegrationProtocol host self
  = for_collect entries []
      (discover_entry isinstance_IntegrationProtocol (_get_plugin_loader host))
      self.
Proof.
  intros Heps. unfold discover_integrations, _get_entry_points.
  unfold bind at 1, try_except, lift. by rewrite Heps.
Qed.

Lemma discover_without_entries e self :
  entry_points host "quackcore.integrations" = Raise e →
  discover_integrations isinstance_IntegrationProtocol host self
  = (Return [],
     logged WARNING ("Could not discover integrations using entry points: "
                     +:+ str_exn e) self).
Proof.
  intros Hraise. unfold discover_integrations, _get_entry_points.
  run_monad. by rewrite Hraise.
Qed.

(** X8. Running [discover_integrations] a second time on the same host
    finds nothing new: every candidate's name is taken by then, so the
    second run returns the empty list and leaves the table as the first
    run left it. *)
Theorem second_discovery_adds_nothing (self self1 : IntegrationRegistry)
    (found : list Obj) :
  discover_integrations isinstance_IntegrationProtocol host self
  = (Return found, self1) →
  ∃ self2,
    discover_integrations isinstance_IntegrationProtocol host self1
    = (Return [], self2) ∧
    _integrations self2 = _integrations self1.
Proof.
  destruct (entry_points host "quackcore.integrations") as [entries|e] eqn:Heps.
  - rewrite !(discover_with_entries entries) by done. intros Hfirst.
    destruct (discover_loop_appends (_get_plugin_loader host) entries [] self)
      as (found1 & names & self' & Hrun & _ & _ & Hsat).
    rewrite Hrun in Hfirst. injection Hfirst as _ ->.
    destruct (discover_loop_saturated (_get_plugin_loader host) entries []
                self1 Hsat) as (self2 & -> & Htable).
    by exists self2.
  - rewrite !(discover_without_entries e) by done. intros _. by eexists.
Qed.

(** X9. When the package metadata cannot be read, discovery gives up
    quietly: it logs one warning, returns the empty list and leaves the
    table alone. *)
Theorem discovery_without_entry_points (self : IntegrationRegistry) (e : exn) :
  entry_points host "quackcore.integrations" = Raise e →
  discover_integrations isinstance_IntegrationProtocol host self
  = (Return [],
     logged WARNING ("Could not discover integrations using entry points: "
                     +:+ str_exn e) self).
Proof.
  apply discover_without_entries.
Qed.

End DiscoveryAppends.

(** ** What [load_integration_module] adds to the table *)

Section LoadAppends.
Variable host : Env.

Lemma register_and_return_cases integration source self :
  (∀ o, integration = Some o → ∃ n, obj_name o = Some n) →
  ∃ self',
    (register_and_return integration source self = (Return None, self') ∧
     _integrations self' = _integrations self) ∨
    (∃ o n, register_and_return integration source self
            = (Return (Some [o]), self') ∧
            obj_name o = Some n ∧
            _integrations self' = _integrations self ++ [(n, o)]).
Proof.
  intros Hnamed. destruct integration as [o|]; [|exists self; by left].
  destruct (Hnamed o eq_refl) as [n Hn].
  destruct (PyDict.contains n (_integrations self)) eqn:Hc.
  - rewrite (register_and_return_duplicate _ _ _ _ Hn Hc).
    eexists. by left.
  - rewrite (register_and_return_fresh _ _ _ _ Hn Hc).
    eexists. right. by exists o, n.
Qed.

Lemma plugin_step_cases module_path self :
  ∃ self',
    (plugin_loader_step host module_path self = (Return None, self') ∧
     _integrations self' = _integrations self) ∨
    (∃ o n, plugin_loader_step host module_path self
            = (Return (Some [o]), self') ∧
            obj_name o = Some n ∧
            _integrations self' = _integrations self ++ [(n, o)]) ∨
    (∃ e, plugin_loader_step host module_path self = (Raise e, self') ∧
          self' = self).
Proof.
  unfold plugin_loader_step, _load_integration_with_plugin_loader.
  destruct (_get_plugin_loader host) as [loader|]; [|exists self; by left].
  unfold bind, try_except, lift.
  destruct (load_plugin loader module_path) as [o|e] eqn:Hload; simpl.
  - destruct (structural_check o) eqn:Hcheck; simpl.
    + destruct (register_and_return_cases (Some o) "plugin loader" self)
        as (self' & [H | H]).
      * intros o' [= <-]. by apply structural_check_name.
      * exists self'. by left.
      * exists self'. right. by left.
    + exists self. by left.
  - destruct (is_ImportError e || is_AttributeError e); simpl.
    + eexists. left. split; reflexivity.
    + destruct (is_TypeError e || is_ValueError e); simpl.
      * eexists. left. split; reflexivity.
      * exists self. right. right. by exists e.
Qed.

Lemma register_scanned_loop_appends found : ∀ loaded self,
  Forall (λ o, ∃ n, obj_name o = Some n) found →
  ∃ added names self',
    for_collect found loaded register_scanned_body self
    = (Return (loaded ++ added), self') ∧
    map obj_name added = map Some names ∧
    _integrations self' = _integrations self ++ zip names added.
Proof.
  induction found as [|o found IH]; intros loaded self Hnamed; simpl.
  - exists [], [], self. by rewrite !app_nil_r.
  - apply Forall_cons in Hnamed as [[n Hn] Hnamed]. unfold bind.
    unfold register_scanned_body at 1. unfold try_except, bind.
    destruct (PyDict.contains n (_integrations self)) eqn:Hc.
    + rewrite (register_taken _ _ _ Hn Hc). simpl.
      unfold getattr_name. rewrite Hn. run_monad.
      destruct (IH loaded (logged ERROR
                  ("Error registering integration " +:+ n +:+ ": "
                   +:+ str_exn (duplicate_error n)) self) Hnamed)
        as (added & names & self' & Hrun & Hnames & Htable).
      exists added, names, self'. by rewrite <- Hrun.
    + rewrite (register_fresh _ _ _ Hn Hc). run_monad.
      destruct (IH (loaded ++ [o]) (registered o n self) Hnamed)
        as (added & names & self' & Hrun & Hnames & Htable).
      exists (o :: added), (n :: names), self'.
      split; [rewrite Hrun; by rewrite <- app_assoc|].
      split; [simpl; by rewrite Hn, Hnames|].
      rewrite Htable. simpl. by rewrite <- app_assoc.
Qed.

Lemma manual_cases module_path self :
  ∃ self',
    (∃ found names,
       manual_module_loading host module_path self = (Return found, self') ∧
       map obj_name found = map Some names ∧
       _integrations self' = _integrations self ++ zip names found) ∨
    (∃ e, manual_module_loading host module_path self = (Raise e, self') ∧
          _integrations self' = _integrations self).
Proof.
  destruct (find_module host module_path) as [module|e] eqn:Hfind.
  - unfold manual_module_loading. unfold bind at 1.
    rewrite (resolve_module_found _ _ _ _ Hfind). unfold bind at 1.
    destruct (factory_returns module self) as (self1 & -> & Htable1).
    unfold bind at 1.
    destruct (register_and_return_cases (factory_candidate module)
                "create_integration" self1) as (self2 & [[-> Htable2] | H]).
    { intros o. apply factory_candidate_named. }
    + unfold bind at 1.
      destruct (load_integrations_from_module_returns module self2)
        as (self3 & -> & Htable3).
      unfold bind at 1. rewrite register_scanned_unfold.
      destruct (register_scanned_loop_appends (scan_module module) [] self3
                  (scan_module_named module))
        as (added & names & self4 & -> & Hnames & Htable4).
      simpl. run_monad.
      destruct added; eexists; left; eexists _, names;
        (split; [reflexivity|]); (split; [done|]); simpl;
        rewrite Htable4; congruence.
    + destruct H as (o & n & -> & Hn & Htable2).
      exists self2. left. exists [o], [n]. simpl. rewrite Hn.
      split; [done|]. split; [done|]. by rewrite Htable2, Htable1.
  - destruct (manual_unresolvable host module_path e self Hfind)
      as (self' & Hrun & Htable).
    exists self'. right. by eexists.
Qed.

(** X10. [load_integration_module] only appends, and only when it
    returns: the new entries are exactly the returned instances, in
    order, each under its name; when the call raises, the table is the
    one it started with. *)
Theorem load_only_appends (module_path : string) (self : IntegrationRegistry) :
  ∃ self',
    (∃ found names,
       load_integration_module host module_path self = (Return found, self') ∧
       map obj_name found = map Some names ∧
       _integrations self' = _integrations self ++ zip names found) ∨
    (∃ e, load_integration_module host module_path self = (Raise e, self') ∧
          _integrations self' = _integrations self).
Proof.
  unfold load_integration_module. unfold bind.
  destruct (plugin_step_cases module_path self)
    as (self1 & [[-> Htable1] | [(o & n & -> & Hn & Htable1) | (e & -> & ->)]]).
  - destruct (manual_cases module_path self1)
      as (self' & [(found & names & -> & Hnames & Htable)
                  | (e & -> & Htable)]).
    + exists self'. left. exists found, names.
      split; [done|]. split; [done | congruence].
    + exists self'. right. exists e. split; [done | congruence].
  - exists self1. left. exists [o], [n]. simpl. by rewrite Hn.
  - exists self. right. by exists e.
Qed.

(** X11. An exception of the plugin loader outside the four classes
    that are caught ([ImportError], [AttributeError], [TypeError],
    [ValueError]) leaves [load_integration_module] as it is, with the
    registry untouched: no fallback is tried and nothing is logged. *)
Theorem plugin_loader_error_propagates (module_path : string)
    (loader : PluginLoader) (e : exn) (self : IntegrationRegistry) :
  _get_plugin_loader host = Some loader →
  load_plugin loader module_path = Raise e →
  uncaught_by_plugin_step e = true →
  load_integration_module host module_path self = (Raise e, self).
Proof.
  intros Hloader Hload Huncaught.
  unfold load_integration_module, plugin_loader_step,
    _load_integration_with_plugin_loader.
  rewrite Hloader. run_monad. rewrite Hload.
  destruct e; simpl in Huncaught; try discriminate Huncaught; reflexivity.
Qed.

End LoadAppends.

(** ** What the class scan returns *)

Lemma test_candidate_spec module o :
  o ∈ test_candidate module ↔
  ∃ cls, module_getattr module "TestIntegration" = Return (AClass cls) ∧
         cls_new cls = Return o ∧
         test_class_check o = true.
Proof.
  unfold test_candidate. split.
  - destruct (module_getattr module "TestIntegration") as [[cls| | |]|];
      try (intros Hin; by apply elem_of_nil in Hin).
    destruct (cls_new cls) as [o'|] eqn:Hnew;
      [|intros Hin; by apply elem_of_nil in Hin].
    destruct (test_class_check o') eqn:Hcheck;
      [|intros Hin; by apply elem_of_nil in Hin].
    intros Hin. apply list_elem_of_singleton in Hin as ->. by exists cls.
  - intros (cls & -> & -> & ->). by left.
Qed.

Lemma scan_candidate_spec module attr_name o :
  scan_candidate module attr_name = Some o ↔
  is_public attr_name ∧
  attr_name ≠ "TestIntegration" ∧
  ∃ cls, module_getattr module attr_name = Return (AClass cls) ∧
         cls___module__ cls = Some (module_name_or module "") ∧
         cls_is_IntegrationProtocol cls = false ∧
         cls_new cls = Return o ∧
         structural_check o = true.
Proof.
  unfold scan_candidate, is_public, defined_in. split.
  - destruct (starts_with_underscore attr_name); [done|]. simpl.
    destruct (String.eqb_spec attr_name "TestIntegration"); [done|].
    destruct (module_getattr module attr_name) as [[cls| | |]|] eqn:Hattr;
      try done.
    simpl. destruct (cls___module__ cls) as [m|] eqn:Hmod; [|done].
    destruct (String.eqb_spec m (module_name_or module "")) as [->|]; [|done].
    destruct (cls_is_IntegrationProtocol cls) eqn:Hproto; [done|]. simpl.
    destruct (cls_new cls) as [o'|] eqn:Hnew; [|done].
    destruct (structural_check o') eqn:Hcheck; [|done].
    intros [= ->]. repeat split; try done. by exists cls.
  - intros (-> & Hname & cls & -> & Hmod & Hproto & Hnew & Hcheck). simpl.
    apply String.eqb_neq in Hname. rewrite Hname. simpl.
    rewrite Hmod, Hproto, String.eqb_refl. simpl. by rewrite Hnew, Hcheck.
Qed.

(** X12. [_load_integrations_from_module] always returns and never
    touches the table.  What it returns is exactly: the instance of a
    [TestIntegration] class that has the four contract attributes, and
    the instances passing the structural check of the public classes
    (other than [TestIntegration]) whose [__module__] is the module
    itself and that are not the protocol class.  Private names,
    functions, values and classes imported from elsewhere yield
    nothing, and neither does a constructor that raises. *)
Theorem scan_returns_own_classes (module : Module) (self : IntegrationRegistry) :
  ∃ found self',
    _load_integrations_from_module module self = (Return found, self') ∧
    _integrations self' = _integrations self ∧
    ∀ o, o ∈ found ↔
         (∃ cls, module_getattr module "TestIntegration" = Return (AClass cls) ∧
                 cls_new cls = Return o ∧
                 test_class_check o = true) ∨
         (∃ attr_name cls,
            attr_name ∈ PyDict.keys (mod_dir module) ∧
            is_public attr_name ∧
            attr_name ≠ "TestIntegration" ∧
            module_getattr module attr_name = Return (AClass cls) ∧
            cls___module__ cls = Some (module_name_or module "") ∧
            cls_is_IntegrationProtocol cls = false ∧
            cls_new cls = Return o ∧
            structural_check o = true).
Proof.
  destruct (load_integrations_from_module_returns module self)
    as (self' & Hrun & Htable).
  exists (scan_module module), self'. split; [done|]. split; [done|].
  intros o. unfold scan_module. rewrite elem_of_app, test_candidate_spec.
  rewrite list_elem_of_omap. split.
  - intros [H | (attr_name & Hin & Hc)]; [by left|]. right.
    apply scan_candidate_spec in Hc as (Hpub & Hname & cls & H).
    by exists attr_name, cls.
  - intros [H | (attr_name & cls & Hin & Hpub & Hname & H)]; [by left|].
    right. exists attr_name. split; [done|].
    apply scan_candidate_spec. repeat split; try done. by exists cls.
Qed.

(** * Properties of the configuration merge *)

Section DeepMerge.
Import ConfigLoader.

(** The recursive call of the source. *)
Lemma merged_entry_dicts base override :
  merged_entry (Some (Dict base)) (Dict override)
  = Dict (_deep_merge base override).
Proof.
  simpl. f_equal. unfold _deep_merge. revert base.
  induction override as [|[key value] override IH]; intros base; [done|].
  simpl. apply IH.
Qed.

Lemma deep_merge_nil base : _deep_merge base [] = base.
Proof. done. Qed.

Lemma deep_merge_cons base key value override :
  _deep_merge base ((key, value) :: override)
  = _deep_merge
      (PyDict.set key (merged_entry (PyDict.get key base) value) base) override.
Proof. done. Qed.

Lemma merged_entry_eq current value :
  merged_entry current value
  = match current, value with
    | Some (Dict b), Dict o => Dict (_deep_merge b o)
    | _, _ => value
    end.
Proof.
  destruct current as [[a|b]|], value as [a'|o]; try done.
  apply merged_entry_dicts.
Qed.

Lemma keys_set {V : Type} (d : list (string * V)) k v :
  PyDict.keys (PyDict.set k v d)
  = if PyDict.contains k d then PyDict.keys d else PyDict.keys d ++ [k].
Proof.
  induction d as [|[k0 v0] d IH]; simpl; [done|].
  destruct (String.eqb k0 k); simpl; [done|].
  rewrite IH. by destruct (PyDict.contains k d).
Qed.

Lemma filter_ext_in {A : Type} (P Q : A → Prop)
    `{!∀ x, Decision (P x)} `{!∀ x, Decision (Q x)} (l : list A) :
  (∀ x, x ∈ l → P x ↔ Q x) → filter P l = filter Q l.
Proof.
  induction l as [|x l IH]; intros Hext; [done|].
  assert (filter P l = filter Q l) as Hrest
    by (apply IH; intros y Hy; apply Hext; by right).
  destruct (decide (P x)) as [HP|HP].
  - rewrite !filter_cons_True; [by rewrite Hrest | | done].
    apply Hext; [by left | done].
  - rewrite !filter_cons_False; [done | | done].
    intros HQ. apply HP, Hext; [by left | done].
Qed.

(** X13. Lookup in a deep merge.  A key that the override lacks keeps
    the value of the base; a key of the override gets the override's
    value, except that two dictionaries under the same key are merged
    recursively. *)
Theorem deep_merge_lookup (base override : list (string * Value)) (k : string) :
  PyDict.wf override →
  PyDict.get k (_deep_merge base override)
  = match PyDict.get k override with
    | None => PyDict.get k base
    | Some value =>
        Some (match PyDict.get k base, value with
              | Some (Dict b), Dict o => Dict (_deep_merge b o)
              | _, _ => value
              end)
    end.
Proof.
  revert base. induction override as [|[key value] override IH];
    intros base Hwf; [done|].
  apply NoDup_cons in Hwf as [Hkey Hwf].
  rewrite deep_merge_cons, IH by done. simpl.
  destruct (String.eqb_spec key k) as [->|Hne].
  - rewrite (get_absent override k Hkey), get_set_same.
    by rewrite merged_entry_eq.
  - by rewrite get_set_other.
Qed.

(** X14. The keys of a deep merge are those of the base, in their
    order, followed by the keys that only the override has, in the
    override's order; they are unique when those of the base are. *)
Theorem deep_merge_keys (base override : list (string * Value)) :
  PyDict.wf override →
  PyDict.keys (_deep_merge base override)
  = PyDict.keys base
    ++ filter (λ k, k ∉ PyDict.keys base) (PyDict.keys override) ∧
  (PyDict.wf base → PyDict.wf (_deep_merge base override)).
Proof.
  intros Hwf.
  assert (PyDict.keys (_deep_merge base override)
          = PyDict.keys base
            ++ filter (λ k, k ∉ PyDict.keys base) (PyDict.keys override)) as Hkeys.
  { revert base. induction override as [|[key value] override IH]; intros base.
    - simpl. by rewrite app_nil_r.
    - apply NoDup_cons in Hwf as [Hkey Hwf].
      rewrite deep_merge_cons, IH, keys_set by done. simpl.
      destruct (PyDict.contains key base) eqn:Hc.
      + apply PyDictFacts.contains_keys in Hc.
        rewrite filter_cons_False by (intros H; by apply H). done.
      + apply PyDictFacts.contains_false_keys in Hc.
        rewrite filter_cons_True by done. rewrite <- app_assoc. simpl.
        f_equal. f_equal. apply filter_ext_in.
        intros k Hk. rewrite elem_of_app.
        split; [tauto|]. intros Hnot [H|H]; [done|].
        apply list_elem_of_singleton in H as ->. done. }
  split; [done|]. intros Hbase. unfold PyDict.wf. rewrite Hkeys.
  apply NoDup_app. split; [done|]. split.
  - intros k Hk Hk'. by apply list_elem_of_filter in Hk' as [Hnot _].
  - by apply NoDup_filter.
Qed.

(** X15. Merging dictionaries that share no key puts the override's
    items after those of the base, unchanged; in particular merging
    into an empty dictionary gives back the override. *)
Theorem deep_merge_disjoint (base override : list (string * Value)) :
  PyDict.wf override →
  (∀ k, k ∈ PyDict.keys override → k ∉ PyDict.keys base) →
  _deep_merge base override = base ++ override.
Proof.
  revert base. induction override as [|[key value] override IH];
    intros base Hwf Hdisj.
  - by rewrite app_nil_r.
  - apply NoDup_cons in Hwf as [Hkey Hwf].
    assert (key ∉ PyDict.keys base) as Hfresh by (apply Hdisj; by left).
    rewrite deep_merge_cons, (get_absent base key Hfresh).
    apply PyDictFacts.contains_false_keys in Hfresh.
    rewrite (PyDictFacts.set_fresh _ _ _ Hfresh).
    assert (merged_entry None value = value) as -> by (by destruct value).
    rewrite IH; [by rewrite <- app_assoc | done |].
    intros k Hk. rewrite PyDictFacts.keys_app. simpl.
    intros Hin. apply elem_of_app in Hin as [Hin|Hin].
    + apply (Hdisj k); [by right | done].
    + apply list_elem_of_singleton in Hin as ->. done.
Qed.

Lemma set_same {V : Type} (d : list (string * V)) k v :
  PyDict.get k d = Some v → PyDict.set k v d = d.
Proof.
  induction d as [|[k0 v0] d IH]; simpl; [discriminate|].
  destruct (String.eqb_spec k0 k) as [->|Hne].
  - by intros [= ->].
  - intros H. by rewrite IH.
Qed.

Lemma elem_of_get {V : Type} (d : list (string * V)) k v :
  PyDict.wf d → (k, v) ∈ d → PyDict.get k d = Some v.
Proof.
  unfold PyDict.wf. induction d as [|[k0 v0] d IH]; simpl; intros Hwf Hin.
  - by apply elem_of_nil in Hin.
  - apply NoDup_cons in Hwf as [Hk0 Hwf].
    apply elem_of_cons in Hin as [[= -> ->]|Hin];
      [by rewrite String.eqb_refl|].
    destruct (String.eqb_spec k0 k) as [->|Hne]; [|by apply IH].
    exfalso. apply Hk0. apply list_elem_of_fmap. by exists (k, v).
Qed.

Lemma deep_merge_fixed (d suffix : list (string * Value)) :
  (∀ k x, (k, x) ∈ suffix →
          PyDict.get k d = Some x ∧ merged_entry (Some x) x = x) →
  _deep_merge d suffix = d.
Proof.
  induction suffix as [|[key value] suffix IH]; intros Hfix; [done|].
  destruct (Hfix key value (list_elem_of_here _ _)) as [Hget Hsame].
  rewrite deep_merge_cons, Hget, Hsame, (set_same _ _ _ Hget).
  apply IH. intros k x Hin. apply Hfix. by right.
Qed.

Lemma deep_wf_items items :
  deep_wf (Dict items) ↔
  PyDict.wf items ∧ ∀ k x, (k, x) ∈ items → deep_wf x.
Proof.
  simpl. split; intros [Hwf Hall]; (split; [done|]); clear Hwf.
  - induction items as [|[k0 x0] items IH]; intros k x Hin.
    + by apply elem_of_nil in Hin.
    + destruct Hall as [Hx0 Hall].
      apply elem_of_cons in Hin as [[= -> ->]|Hin]; [done | by eapply IH].
  - induction items as [|[k0 x0] items IH]; [done|]. split.
    + apply (Hall k0). by left.
    + apply IH. intros k x Hin. apply (Hall k). by right.
Qed.

Lemma size_item items k x :
  (k, x) ∈ items → size x < size (Dict items).
Proof.
  simpl. induction items as [|[k0 x0] items IH]; intros Hin.
  - by apply elem_of_nil in Hin.
  - apply elem_of_cons in Hin as [[= -> ->]|Hin]; simpl; [lia|].
    specialize (IH Hin). lia.
Qed.

Lemma merged_entry_same n : ∀ v,
  size v < n → deep_wf v → merged_entry (Some v) v = v.
Proof.
  induction n as [|n IH]; intros v Hsize Hwf; [lia|].
  destruct v as [a|items]; [done|].
  rewrite merged_entry_dicts. f_equal.
  apply deep_wf_items in Hwf as [Hwf Hall].
  apply deep_merge_fixed. intros k x Hin. split; [by apply elem_of_get|].
  apply IH; [|by apply (Hall k)].
  pose proof (size_item items k x Hin). lia.
Qed.

(** X16. Merging a configuration with itself changes nothing, at any
    depth. *)
Theorem deep_merge_idempotent (config : list (string * Value)) :
  deep_wf (Dict config) → _deep_merge config config = config.
Proof.
  intros Hwf.
  pose proof (merged_entry_same (S (size (Dict config))) (Dict config)
                (Nat.lt_succ_diag_r _) Hwf) as Hsame.
  rewrite merged_entry_dicts in Hsame. by injection Hsame.
Qed.
End DeepMerge.

(** * Properties of the safe file operations *)

Section SafeOpsFacts.
Import SafeOps.
Context {FS PyExn : Type}.
Variable host : Host FS PyExn.

(** The decorator hands on what the functions return and the Quack
    errors they raise. *)
Hypothesis wrap_transparent :
  ∀ (A : Type) (m : Op FS (Raised PyExn) A) w,
    (∀ e, (m w).1 ≠ inl (Uncaught e)) → wrap_io_errors host m w = m w.

Ltac run_op :=
  unfold op_bind, op_ret, op_raise, op_log, exists_now, is_dir_now,
    outside_try, try_io, translate, call; simpl.

Ltac destruct_calls :=
  repeat match goal with
    | |- context [path_exists host ?p ?f] =>
        destruct (path_exists host p f) as [?|[]] eqn:?; simpl
    | |- context [path_is_dir host ?p ?f] =>
        destruct (path_is_dir host p f) as [?|[]] eqn:?; simpl
    | |- context [rmtree host ?p ?f] =>
        destruct (rmtree host p f) as [[?|] ?] eqn:?; simpl
    | |- context [unlink host ?p ?f] =>
        destruct (unlink host p f) as [[?|] ?] eqn:?; simpl
    | |- context [ensure_directory host ?p ?f] =>
        destruct (ensure_directory host p f) as [[?|] ?] eqn:?; simpl
    | |- context [copytree host ?p ?q ?f] =>
        destruct (copytree host p q f) as [[?|] ?] eqn:?; simpl
    | |- context [copy2 host ?p ?q ?f] =>
        destruct (copy2 host p q f) as [[?|] ?] eqn:?; simpl
    | |- context [move host ?p ?q ?f] =>
        destruct (move host p q f) as [[?|] ?] eqn:?; simpl
    | |- context [is_PermissionError host ?e] =>
        destruct (is_PermissionError host e) eqn:?; simpl
    end.

Lemma decorated {A : Type} (m : Op FS (Raised PyExn) A) w r w' :
  m w = (r, w') → (∀ e, r ≠ inl (Uncaught e)) →
  wrap_io_errors host m w = (r, w').
Proof.
  intros Hm Hr. rewrite wrap_transparent; [done|]. by rewrite Hm.
Qed.

Lemma decorated_outcome {A : Type} (m : Op FS (Raised PyExn) A) w
    (expected : Raised PyExn + A → Prop) :
  (∀ e, ¬ expected (inl (Uncaught e))) →
  expected (m w).1 → expected (wrap_io_errors host m w).1.
Proof.
  intros Hnever Hbody. rewrite wrap_transparent; [done|].
  intros e He. rewrite He in Hbody. by apply (Hnever e).
Qed.

(** X17. A path that does not exist is never an error for
    [safe_delete] with [missing_ok]: it answers [False]; without
    [missing_ok] it raises [QuackFileNotFoundError] for that path.  In
    both cases no call that changes the file system is made. *)
Theorem safe_delete_missing_path (path : string) (w : World FS) :
  path_exists host path (fs w) = inr false →
  safe_delete host path true w
  = (inr false,
     mkWorld (fs w)
       (log_records w
        ++ [(DEBUG, "Path does not exist but missing_ok is True: " +:+ path)])) ∧
  safe_delete host path false w
  = (inl (Quack (QuackFileNotFoundError path)),
     mkWorld (fs w)
       (log_records w
        ++ [(ERROR, "Path does not exist and missing_ok is False: " +:+ path)])).
Proof.
  intros Hmissing.
  split; unfold safe_delete; (apply decorated; [|done]);
    unfold safe_delete_body; run_op; by rewrite Hmissing.
Qed.

(** X18. The guards of [safe_copy] and [safe_move] come before any
    change: a missing source raises [QuackFileNotFoundError] for the
    source, whatever the destination and [overwrite] are; an existing
    destination without [overwrite] raises [QuackFileExistsError] for
    the destination; the file system is left as it was. *)
Theorem copy_move_guards (src dst : string) (overwrite : bool) (w : World FS) :
  (path_exists host src (fs w) = inr false →
   ∃ w1 w2,
     safe_copy host src dst overwrite w
     = (inl (Quack (QuackFileNotFoundError src)), w1) ∧
     safe_move host src dst overwrite w
     = (inl (Quack (QuackFileNotFoundError src)), w2) ∧
     fs w1 = fs w ∧ fs w2 = fs w) ∧
  (path_exists host src (fs w) = inr true →
   path_exists host dst (fs w) = inr true →
   ∃ w1 w2,
     safe_copy host src dst false w
     = (inl (Quack (QuackFileExistsError dst)), w1) ∧
     safe_move host src dst false w
     = (inl (Quack (QuackFileExistsError dst)), w2) ∧
     fs w1 = fs w ∧ fs w2 = fs w).
Proof.
  split.
  - intros Hsrc. eexists _, _.
    split; [|split].
    + unfold safe_copy. apply decorated; [|done].
      unfold safe_copy_body. run_op. rewrite Hsrc. simpl. reflexivity.
    + unfold safe_move. apply decorated; [|done].
      unfold safe_move_body. run_op. rewrite Hsrc. simpl. reflexivity.
    + done.
  - intros Hsrc Hdst. eexists _, _.
    split; [|split].
    + unfold safe_copy. apply decorated; [|done].
      unfold safe_copy_body. run_op. rewrite Hsrc. simpl. rewrite Hdst. simpl.
      reflexivity.
    + unfold safe_move. apply decorated; [|done].
      unfold safe_move_body. run_op. rewrite Hsrc. simpl. rewrite Hdst. simpl.
      reflexivity.
    + done.
Qed.

Lemma copy_body_outcome (src dst : string) (overwrite : bool) (w : World FS)
    (src_exists : bool) :
  path_exists host src (fs w) = inr src_exists →
  (src_exists = true → ∃ dst_exists, path_exists host dst (fs w) = inr dst_exists) →
  transfer_outcome host "copy" src dst (safe_copy_body host src dst overwrite w).1.
Proof.
  intros Hsrc Hdst. unfold safe_copy_body. run_op. rewrite Hsrc. simpl.
  destruct src_exists; simpl; [|done].
  destruct (Hdst eq_refl) as [dst_exists ->]. simpl.
  destruct dst_exists, overwrite; simpl; destruct_calls; done.
Qed.

Lemma move_body_outcome (src dst : string) (overwrite : bool) (w : World FS)
    (src_exists : bool) :
  path_exists host src (fs w) = inr src_exists →
  (src_exists = true → ∃ dst_exists, path_exists host dst (fs w) = inr dst_exists) →
  transfer_outcome host "move" src dst (safe_move_body host src dst overwrite w).1.
Proof.
  intros Hsrc Hdst. unfold safe_move_body. run_op. rewrite Hsrc. simpl.
  destruct src_exists; simpl; [|done].
  destruct (Hdst eq_refl) as [dst_exists ->]. simpl.
  destruct dst_exists, overwrite; simpl; destruct_calls; done.
Qed.

Lemma delete_body_outcome (path : string) (missing_ok : bool) (w : World FS)
    (existed : bool) :
  path_exists host path (fs w) = inr existed →
  delete_outcome host path existed (safe_delete_body host path missing_ok w).1.
Proof.
  intros Hpath. unfold safe_delete_body. run_op. rewrite Hpath. simpl.
  destruct existed, missing_ok; simpl; destruct_calls; done.
Qed.

(** X19. What the three functions can answer.  Once the [exists()]
    calls of the guards have answered, [safe_copy] and [safe_move]
    return [Path(dst)], [safe_delete] returns [True] when the path
    existed and [False] when it did not, and no exception of a call
    inside the [try] escapes as it is: a [PermissionError] becomes
    [QuackPermissionError] and anything else [QuackIOError], both
    naming the destination (the path, for [safe_delete]) and carrying
    the original exception.  The guards stand outside the [try]: when
    [exists()] raises there, the body hands that exception to the
    decorator as it is, with the world unchanged. *)
Theorem safe_operations_outcomes (src dst : string) (overwrite missing_ok : bool)
    (w : World FS) :
  (∀ src_exists,
     path_exists host src (fs w) = inr src_exists →
     (src_exists = true →
      ∃ dst_exists, path_exists host dst (fs w) = inr dst_exists) →
     transfer_outcome host "copy" src dst
       (safe_copy host src dst overwrite w).1 ∧
     transfer_outcome host "move" src dst
       (safe_move host src dst overwrite w).1) ∧
  (∀ existed,
     path_exists host src (fs w) = inr existed →
     delete_outcome host src existed (safe_delete host src missing_ok w).1) ∧
  (∀ e,
     path_exists host src (fs w) = inl e ∨
     (path_exists host src (fs w) = inr true ∧
      path_exists host dst (fs w) = inl e) →
     safe_copy_body host src dst overwrite w = (inl (Uncaught e), w) ∧
     safe_move_body host src dst overwrite w = (inl (Uncaught e), w)) ∧
  (∀ e,
     path_exists host src (fs w) = inl e →
     safe_delete_body host src missing_ok w = (inl (Uncaught e), w)).
Proof.
  split; [|split; [|split]].
  - intros src_exists Hsrc Hdst. split.
    + unfold safe_copy.
      apply (decorated_outcome _ _ (transfer_outcome host "copy" src dst));
        [intros e H; exact H | by eapply copy_body_outcome].
    + unfold safe_move.
      apply (decorated_outcome _ _ (transfer_outcome host "move" src dst));
        [intros e H; exact H | by eapply move_body_outcome].
  - intros existed Hpath. unfold safe_delete.
    apply (decorated_outcome _ _ (delete_outcome host src existed));
      [intros e H; exact H | by apply delete_body_outcome].
  - intros e [Hsrc | [Hsrc Hdst]];
      unfold safe_copy_body, safe_move_body; run_op; rewrite Hsrc; simpl;
      [done | rewrite Hdst; simpl; by destruct w].
  - intros e Hsrc. unfold safe_delete_body. run_op. rewrite Hsrc. simpl.
    by destruct w.
Qed.

(** X20. Overwriting is not undone.  When [safe_copy] of a directory
    has removed the existing destination and the copy then fails, or
    when [safe_move] has removed the existing destination file and the
    move then fails, the call raises and the file system is the one the
    failed library call left: the old destination is gone. *)
Theorem overwrite_is_not_rolled_back (src dst : string) (w : World FS)
    (e : PyExn) (fs0 fs1 fs2 : FS) :
  path_exists host src (fs w) = inr true →
  path_exists host dst (fs w) = inr true →
  (path_is_dir host src (fs w) = inr true →
   rmtree host dst (fs w) = (None, fs1) →
   copytree host src dst fs1 = (Some e, fs2) →
   ∃ err w',
     safe_copy host src dst true w = (inl (Quack err), w') ∧ fs w' = fs2) ∧
  (ensure_directory host (parent host dst) (fs w) = (None, fs0) →
   path_exists host dst fs0 = inr true →
   path_is_dir host dst fs0 = inr false →
   unlink host dst fs0 = (None, fs1) →
   move host src dst fs1 = (Some e, fs2) →
   ∃ err w',
     safe_move host src dst true w = (inl (Quack err), w') ∧ fs w' = fs2).
Proof.
  intros Hsrc Hdst. split.
  - intros Hdir Hrm Hcopy.
    assert (∃ err w',
              safe_copy_body host src dst true w = (inl (Quack err), w')
              ∧ fs w' = fs2) as (err & w' & Hbody & Hfs).
    { unfold safe_copy_body. run_op. rewrite Hsrc. simpl. rewrite Hdst. simpl.
      rewrite Hdir. simpl. rewrite Hdst. simpl. rewrite Hrm. simpl.
      rewrite Hcopy. simpl.
      destruct (is_PermissionError host e); simpl; by eexists _, _. }
    exists err, w'. split; [|done].
    unfold safe_copy. by apply decorated.
  - intros Hensure Hdst0 Hfile Hunlink Hmove.
    assert (∃ err w',
              safe_move_body host src dst true w = (inl (Quack err), w')
              ∧ fs w' = fs2) as (err & w' & Hbody & Hfs).
    { unfold safe_move_body. run_op. rewrite Hsrc. simpl. rewrite Hdst. simpl.
      rewrite Hensure. simpl. rewrite Hdst0. simpl. rewrite Hfile. simpl.
      rewrite Hunlink. simpl. rewrite Hmove. simpl.
      destruct (is_PermissionError host e); simpl; by eexists _, _. }
    exists err, w'. split; [|done].
    unfold safe_move. by apply decorated.
Qed.

End SafeOpsFacts.

(** * The further properties at concrete inputs *)

Lemma register_then_lookup_witness :
  obj_name (Examples.conformant "beta") = Some "beta" ∧
  PyDict.contains "beta" (_integrations Examples.alpha_registry) = false ∧
  ∃ self',
    register (Examples.conformant "beta") Examples.alpha_registry
    = (Return tt, self') ∧
    get_integration "beta" self' = (Return (Some (Examples.conformant "beta")), self') ∧
    list_integrations self' = (Return ["alpha"; "beta"], self').
Proof.
  split; [reflexivity|]. split; [reflexivity|].
  destruct (register_then_lookup Examples.alpha_registry
              (Examples.conformant "beta") "beta" eq_refl eq_refl)
    as (self' & Hreg & Hget & _ & Hlist & _).
  exists self'. split; [exact Hreg|]. split; [exact Hget | exact Hlist].
Defined.

Lemma register_unregister_round_trip_witness :
  PyDict.contains "beta" (_integrations Examples.alpha_registry) = false ∧
  ∃ self1 self2,
    register (Examples.conformant "beta") Examples.alpha_registry
    = (Return tt, self1) ∧
    unregister "beta" self1 = (Return true, self2) ∧
    _integrations self2 = [("alpha", Examples.conformant "alpha")].
Proof.
  split; [reflexivity|].
  apply (register_unregister_round_trip Examples.alpha_registry
           (Examples.conformant "beta") "beta" eq_refl eq_refl).
Defined.

Lemma unregister_register_moves_last_witness :
  PyDict.wf [("alpha", Examples.conformant "alpha");
             ("beta", Examples.conformant "beta")] ∧
  ∃ self1 self2,
    unregister "alpha"
      {| _integrations := [("alpha", Examples.conformant "alpha");
                           ("beta", Examples.conformant "beta")];
         logger := [] |} = (Return true, self1) ∧
    register (Examples.conformant "alpha") self1 = (Return tt, self2) ∧
    list_integrations self2 = (Return ["beta"; "alpha"], self2).
Proof.
  assert (PyDict.wf [("alpha", Examples.conformant "alpha");
                     ("beta", Examples.conformant "beta")]) as Hwf.
  { apply NoDup_cons. split; [|apply NoDup_singleton].
    intros H. apply list_elem_of_singleton in H. discriminate H. }
  split; [exact Hwf|].
  destruct (unregister_register_moves_last
              {| _integrations := [("alpha", Examples.conformant "alpha");
                                   ("beta", Examples.conformant "beta")];
                 logger := [] |}
              (Examples.conformant "alpha") "alpha" Hwf eq_refl eq_refl)
    as (self1 & self2 & Hun & Hreg & _ & Hlist).
  exists self1, self2. split; [exact Hun|]. split; [exact Hreg | exact Hlist].
Defined.

Lemma reachable_keyed_by_name_witness :
  reachable structural_check Examples.plain_host
    (registered (Examples.conformant "alpha") "alpha" __init__) ∧
  ∃ names,
    list_integrations (registered (Examples.conformant "alpha") "alpha" __init__)
    = (Return names,
       registered (Examples.conformant "alpha") "alpha" __init__) ∧
    NoDup names.
Proof.
  assert (reachable structural_check Examples.plain_host
            (registered (Examples.conformant "alpha") "alpha" __init__)) as Hreach.
  { apply (reach_register structural_check Examples.plain_host
             (Examples.conformant "alpha") __init__ (Return tt));
      [apply reach_init | reflexivity]. }
  split; [exact Hreach|].
  destruct (reachable_keyed_by_name structural_check Examples.plain_host _ Hreach)
    as (names & Hlist & Hnd & _).
  exists names. split; [exact Hlist | exact Hnd].
Defined.

Lemma discovery_only_appends_witness :
  (∀ o, structural_check o = true → hasattr (obj_name o) = true) ∧
  ∃ found names self',
    discover_integrations structural_check Examples.plain_host
      Examples.alpha_registry = (Return found, self') ∧
    map obj_name found = map Some names ∧
    _integrations self'
    = _integrations Examples.alpha_registry ++ zip names found.
Proof.
  split; [exact structural_check_has_name|].
  apply (discovery_only_appends structural_check Examples.plain_host
           structural_check_has_name Examples.alpha_registry).
Defined.

Lemma second_discovery_adds_nothing_witness :
  (∀ o, structural_check o = true → hasattr (obj_name o) = true) ∧
  ∃ self1 self2,
    discover_integrations structural_check Examples.plain_host __init__
    = (Return [Examples.conformant "alpha"], self1) ∧
    discover_integrations structural_check Examples.plain_host self1
    = (Return [], self2) ∧
    _integrations self2 = _integrations self1.
Proof.
  split; [exact structural_check_has_name|].
  assert (discover_integrations structural_check Examples.plain_host __init__
          = (Return [Examples.conformant "alpha"],
             (discover_integrations structural_check Examples.plain_host
                __init__).2)) as Hfirst
    by (vm_compute; reflexivity).
  destruct (second_discovery_adds_nothing structural_check Examples.plain_host
              structural_check_has_name __init__ _ _ Hfirst)
    as (self2 & Hsecond & Htable).
  eexists _, self2. split; [exact Hfirst|]. split; [exact Hsecond | exact Htable].
Defined.

Lemma discovery_without_entry_points_witness :
  entry_points MoreExamples.failing_host "quackcore.integrations"
  = Raise (RuntimeError "metadata unavailable") ∧
  discover_integrations structural_check MoreExamples.failing_host
    Examples.alpha_registry
  = (Return [],
     logged WARNING
       "Could not discover integrations using entry points: metadata unavailable"
       Examples.alpha_registry).
Proof.
  split; [reflexivity|].
  apply (discovery_without_entry_points structural_check
           MoreExamples.failing_host Examples.alpha_registry
           (RuntimeError "metadata unavailable") eq_refl).
Defined.

Lemma failing_host_loader :
  _get_plugin_loader MoreExamples.failing_host = Some MoreExamples.failing_loader.
Proof. vm_compute. reflexivity. Qed.

Lemma plugin_loader_error_propagates_witness :
  _get_plugin_loader MoreExamples.failing_host = Some MoreExamples.failing_loader ∧
  uncaught_by_plugin_step (RuntimeError "cannot load pkg.two") = true ∧
  load_integration_module MoreExamples.failing_host "pkg.two"
    Examples.alpha_registry
  = (Raise (RuntimeError "cannot load pkg.two"), Examples.alpha_registry).
Proof.
  split; [exact failing_host_loader|]. split; [reflexivity|].
  apply (plugin_loader_error_propagates MoreExamples.failing_host "pkg.two"
           MoreExamples.failing_loader (RuntimeError "cannot load pkg.two")
           Examples.alpha_registry failing_host_loader);
    reflexivity.
Defined.

Lemma wf_by_computation {V : Type} (d : list (string * V)) :
  bool_decide (NoDup (PyDict.keys d)) = true → PyDict.wf d.
Proof. intros H. unfold PyDict.wf. by apply bool_decide_eq_true in H. Qed.

Lemma overrides_wf : PyDict.wf MoreExamples.overrides.
Proof. apply wf_by_computation. vm_compute. reflexivity. Qed.

Lemma plugins_only_wf : PyDict.wf MoreExamples.plugins_only.
Proof. apply wf_by_computation. vm_compute. reflexivity. Qed.

Lemma defaults_deep_wf :
  ConfigLoader.deep_wf (ConfigLoader.Dict MoreExamples.defaults).
Proof.
  simpl. repeat split; try (apply wf_by_computation; vm_compute; reflexivity).
Qed.

Lemma deep_merge_lookup_witness :
  PyDict.wf MoreExamples.overrides ∧
  PyDict.get "logging"
    (ConfigLoader._deep_merge MoreExamples.defaults MoreExamples.overrides)
  = Some (ConfigLoader.Dict
            (ConfigLoader._deep_merge
               [("level", ConfigLoader.Leaf (ConfigLoader.AStr "INFO"));
                ("file", ConfigLoader.Leaf (ConfigLoader.AStr "logs/quackcore.log"))]
               [("level", ConfigLoader.Leaf (ConfigLoader.AStr "DEBUG"))])) ∧
  PyDict.get "general"
    (ConfigLoader._deep_merge MoreExamples.defaults MoreExamples.overrides)
  = PyDict.get "general" MoreExamples.defaults.
Proof.
  split; [exact overrides_wf|]. split.
  - exact (deep_merge_lookup MoreExamples.defaults MoreExamples.overrides
             "logging" overrides_wf).
  - exact (deep_merge_lookup MoreExamples.defaults MoreExamples.overrides
             "general" overrides_wf).
Defined.

Lemma deep_merge_keys_witness :
  PyDict.wf MoreExamples.overrides ∧
  PyDict.keys
    (ConfigLoader._deep_merge MoreExamples.defaults MoreExamples.overrides)
  = ["logging"; "general"; "debug"].
Proof.
  split; [exact overrides_wf|].
  destruct (deep_merge_keys MoreExamples.defaults MoreExamples.overrides
              overrides_wf) as [Hkeys _].
  rewrite Hkeys. vm_compute. reflexivity.
Defined.

Lemma deep_merge_disjoint_witness :
  PyDict.wf MoreExamples.plugins_only ∧
  (∀ k, k ∈ PyDict.keys MoreExamples.plugins_only →
        k ∉ PyDict.keys MoreExamples.defaults) ∧
  ConfigLoader._deep_merge MoreExamples.defaults MoreExamples.plugins_only
  = MoreExamples.defaults ++ MoreExamples.plugins_only.
Proof.
  assert (∀ k, k ∈ PyDict.keys MoreExamples.plugins_only →
               k ∉ PyDict.keys MoreExamples.defaults) as Hdisj.
  { intros k Hk. simpl in Hk. apply list_elem_of_singleton in Hk as ->.
    simpl. intros Hin.
    apply elem_of_cons in Hin as [Hin|Hin]; [discriminate Hin|].
    apply list_elem_of_singleton in Hin. discriminate Hin. }
  split; [exact plugins_only_wf|]. split; [exact Hdisj|].
  exact (deep_merge_disjoint MoreExamples.defaults MoreExamples.plugins_only
           plugins_only_wf Hdisj).
Defined.

Lemma deep_merge_idempotent_witness :
  ConfigLoader.deep_wf (ConfigLoader.Dict MoreExamples.defaults) ∧
  ConfigLoader._deep_merge MoreExamples.defaults MoreExamples.defaults
  = MoreExamples.defaults.
Proof.
  split; [exact defaults_deep_wf|].
  exact (deep_merge_idempotent MoreExamples.defaults defaults_deep_wf).
Defined.

Lemma toy_wrap_transparent :
  ∀ (A : Type)
    (m : SafeOps.Op (list (string * bool)) (SafeOps.Raised string) A) w,
    (∀ e, (m w).1 ≠ inl (SafeOps.Uncaught e)) →
    SafeOps.wrap_io_errors MoreExamples.toy_host m w = m w.
Proof.
  intros A m w Hnever. simpl.
  destruct (m w) as [[[error|original]|answer] w']; try reflexivity.
  exfalso. by apply (Hnever original).
Qed.

Lemma safe_delete_missing_path_witness :
  SafeOps.path_exists MoreExamples.toy_host "/tmp/gone"
    (SafeOps.fs MoreExamples.toy_world) = inr false ∧
  (SafeOps.safe_delete MoreExamples.toy_host "/tmp/gone" true
     MoreExamples.toy_world).1 = inr false ∧
  (SafeOps.safe_delete MoreExamples.toy_host "/tmp/gone" false
     MoreExamples.toy_world).1
  = inl (SafeOps.Quack (SafeOps.QuackFileNotFoundError "/tmp/gone")).
Proof.
  split; [reflexivity|].
  destruct (safe_delete_missing_path MoreExamples.toy_host toy_wrap_transparent
              "/tmp/gone" MoreExamples.toy_world eq_refl) as [Hok Hstrict].
  rewrite Hok, Hstrict. split; reflexivity.
Defined.

Lemma copy_move_guards_witness :
  SafeOps.path_exists MoreExamples.toy_host "/tmp/gone"
    (SafeOps.fs MoreExamples.toy_world) = inr false ∧
  SafeOps.path_exists MoreExamples.toy_host "/tmp/a.txt"
    (SafeOps.fs MoreExamples.toy_world) = inr true ∧
  SafeOps.path_exists MoreExamples.toy_host "/ro/b.txt"
    (SafeOps.fs MoreExamples.toy_world) = inr true ∧
  (∃ w1 w2,
     SafeOps.safe_copy MoreExamples.toy_host "/tmp/gone" "/ro/b.txt" true
       MoreExamples.toy_world
     = (inl (SafeOps.Quack (SafeOps.QuackFileNotFoundError "/tmp/gone")), w1) ∧
     SafeOps.safe_move MoreExamples.toy_host "/tmp/gone" "/ro/b.txt" true
       MoreExamples.toy_world
     = (inl (SafeOps.Quack (SafeOps.QuackFileNotFoundError "/tmp/gone")), w2) ∧
     SafeOps.fs w1 = SafeOps.fs MoreExamples.toy_world ∧
     SafeOps.fs w2 = SafeOps.fs MoreExamples.toy_world) ∧
  (∃ w1 w2,
     SafeOps.safe_copy MoreExamples.toy_host "/tmp/a.txt" "/ro/b.txt" false
       MoreExamples.toy_world
     = (inl (SafeOps.Quack (SafeOps.QuackFileExistsError "/ro/b.txt")), w1) ∧
     SafeOps.safe_move MoreExamples.toy_host "/tmp/a.txt" "/ro/b.txt" false
       MoreExamples.toy_world
     = (inl (SafeOps.Quack (SafeOps.QuackFileExistsError "/ro/b.txt")), w2) ∧
     SafeOps.fs w1 = SafeOps.fs MoreExamples.toy_world ∧
     SafeOps.fs w2 = SafeOps.fs MoreExamples.toy_world).
Proof.
  do 3 (split; [reflexivity|]).
  destruct (copy_move_guards MoreExamples.toy_host toy_wrap_transparent
              "/tmp/gone" "/ro/b.txt" true MoreExamples.toy_world)
    as [Hmissing _].
  destruct (copy_move_guards MoreExamples.toy_host toy_wrap_transparent
              "/tmp/a.txt" "/ro/b.txt" false MoreExamples.toy_world)
    as [_ Hexists].
  split.
  - exact (Hmissing eq_refl).
  - exact (Hexists eq_refl eq_refl).
Defined.

Lemma safe_operations_outcomes_witness :
  SafeOps.path_exists MoreExamples.toy_host "/tmp/a.txt"
    (SafeOps.fs MoreExamples.toy_world) = inr true ∧
  SafeOps.path_exists MoreExamples.toy_host "/tmp/c.txt/"
    (SafeOps.fs MoreExamples.toy_world) = inr false ∧
  SafeOps.path_exists MoreExamples.toy_host "/ro/b.txt"
    (SafeOps.fs MoreExamples.toy_world) = inr true ∧
  SafeOps.path_exists MoreExamples.toy_host "/tmp/a-name-that-is-too-long"
    (SafeOps.fs MoreExamples.toy_world) = inl "ENAMETOOLONG" ∧
  (SafeOps.safe_copy MoreExamples.toy_host "/tmp/a.txt" "/tmp/c.txt/" false
     MoreExamples.toy_world).1 = inr "/tmp/c.txt" ∧
  SafeOps.transfer_outcome MoreExamples.toy_host "copy" "/tmp/a.txt" "/tmp/c.txt/"
    (SafeOps.safe_copy MoreExamples.toy_host "/tmp/a.txt" "/tmp/c.txt/" false
       MoreExamples.toy_world).1 ∧
  (SafeOps.safe_move MoreExamples.toy_host "/tmp/a.txt" "/ro/b.txt" true
     MoreExamples.toy_world).1
  = inl (SafeOps.Quack
           (SafeOps.QuackPermissionError "/ro/b.txt" "move" "EACCES")) ∧
  SafeOps.transfer_outcome MoreExamples.toy_host "move" "/tmp/a.txt" "/ro/b.txt"
    (SafeOps.safe_move MoreExamples.toy_host "/tmp/a.txt" "/ro/b.txt" true
       MoreExamples.toy_world).1 ∧
  SafeOps.delete_outcome MoreExamples.toy_host "/tmp/a.txt" true
    (SafeOps.safe_delete MoreExamples.toy_host "/tmp/a.txt" true
       MoreExamples.toy_world).1 ∧
  SafeOps.safe_delete_body MoreExamples.toy_host
    "/tmp/a-name-that-is-too-long" true MoreExamples.toy_world
  = (inl (SafeOps.Uncaught "ENAMETOOLONG"), MoreExamples.toy_world).
Proof.
  do 4 (split; [reflexivity|]).
  destruct (safe_operations_outcomes MoreExamples.toy_host toy_wrap_transparent
              "/tmp/a.txt" "/tmp/c.txt/" false true MoreExamples.toy_world)
    as (Hcopy & Hdelete & _).
  destruct (safe_operations_outcomes MoreExamples.toy_host toy_wrap_transparent
              "/tmp/a.txt" "/ro/b.txt" true true MoreExamples.toy_world)
    as (Hmove & _).
  destruct (safe_operations_outcomes MoreExamples.toy_host toy_wrap_transparent
              "/tmp/a-name-that-is-too-long" "/tmp/c.txt/" false true
              MoreExamples.toy_world)
    as (_ & _ & _ & Hraised).
  split; [reflexivity|].
  split; [exact (proj1 (Hcopy true eq_refl
                          (fun _ => ex_intro _ false eq_refl)))|].
  split; [reflexivity|].
  split; [exact (proj2 (Hmove true eq_refl
                          (fun _ => ex_intro _ true eq_refl)))|].
  split; [exact (Hdelete true eq_refl)|].
  exact (Hraised "ENAMETOOLONG" eq_refl).
Defined.

Lemma overwrite_is_not_rolled_back_witness :
  SafeOps.path_exists MoreExamples.toy_host "/data"
    (SafeOps.fs MoreExamples.toy_world) = inr true ∧
  SafeOps.path_exists MoreExamples.toy_host "/full/data"
    (SafeOps.fs MoreExamples.toy_world) = inr true ∧
  SafeOps.path_is_dir MoreExamples.toy_host "/data"
    (SafeOps.fs MoreExamples.toy_world) = inr true ∧
  SafeOps.rmtree MoreExamples.toy_host "/full/data"
    (SafeOps.fs MoreExamples.toy_world)
  = (None, MoreExamples.without "/full/data" (SafeOps.fs MoreExamples.toy_world)) ∧
  SafeOps.copytree MoreExamples.toy_host "/data" "/full/data"
    (MoreExamples.without "/full/data" (SafeOps.fs MoreExamples.toy_world))
  = (Some "ENOSPC",
     MoreExamples.without "/full/data" (SafeOps.fs MoreExamples.toy_world)) ∧
  (∃ err w',
     SafeOps.safe_copy MoreExamples.toy_host "/data" "/full/data" true
       MoreExamples.toy_world = (inl (SafeOps.Quack err), w') ∧
     SafeOps.fs w'
     = MoreExamples.without "/full/data" (SafeOps.fs MoreExamples.toy_world)) ∧
  SafeOps.path_exists MoreExamples.toy_host "/tmp/a.txt"
    (SafeOps.fs MoreExamples.toy_world) = inr true ∧
  SafeOps.path_exists MoreExamples.toy_host "/full/b.txt"
    (SafeOps.fs MoreExamples.toy_world) = inr true ∧
  SafeOps.path_is_dir MoreExamples.toy_host "/full/b.txt"
    (SafeOps.fs MoreExamples.toy_world) = inr false ∧
  SafeOps.unlink MoreExamples.toy_host "/full/b.txt"
    (SafeOps.fs MoreExamples.toy_world)
  = (None, MoreExamples.without "/full/b.txt" (SafeOps.fs MoreExamples.toy_world)) ∧
  SafeOps.move MoreExamples.toy_host "/tmp/a.txt" "/full/b.txt"
    (MoreExamples.without "/full/b.txt" (SafeOps.fs MoreExamples.toy_world))
  = (Some "ENOSPC",
     MoreExamples.without "/full/b.txt" (SafeOps.fs MoreExamples.toy_world)) ∧
  (∃ err w',
     SafeOps.safe_move MoreExamples.toy_host "/tmp/a.txt" "/full/b.txt" true
       MoreExamples.toy_world = (inl (SafeOps.Quack err), w') ∧
     SafeOps.fs w'
     = MoreExamples.without "/full/b.txt" (SafeOps.fs MoreExamples.toy_world)).
Proof.
  do 5 (split; [reflexivity|]).
  destruct (overwrite_is_not_rolled_back MoreExamples.toy_host
              toy_wrap_transparent "/data" "/full/data"
              MoreExamples.toy_world "ENOSPC"
              (SafeOps.fs MoreExamples.toy_world)
              (MoreExamples.without "/full/data"
                 (SafeOps.fs MoreExamples.toy_world))
              (MoreExamples.without "/full/data"
                 (SafeOps.fs MoreExamples.toy_world))
              eq_refl eq_refl) as [Hcopy _].
  split; [exact (Hcopy eq_refl eq_refl eq_refl)|].
  do 5 (split; [reflexivity|]).
  destruct (overwrite_is_not_rolled_back MoreExamples.toy_host
              toy_wrap_transparent "/tmp/a.txt" "/full/b.txt"
              MoreExamples.toy_world "ENOSPC"
              (SafeOps.fs MoreExamples.toy_world)
              (MoreExamples.without "/full/b.txt"
                 (SafeOps.fs MoreExamples.toy_world))
              (MoreExamples.without "/full/b.txt"
                 (SafeOps.fs MoreExamples.toy_world))
              eq_refl eq_refl) as [_ Hmove].
  exact (Hmove eq_refl eq_refl eq_refl eq_refl eq_refl).
Defined.

Lemma register_all_or_nothing_witness :
  register (Examples.conformant "alpha") Examples.alpha_registry
  = (Raise (duplicate_error "alpha"), Examples.alpha_registry) ∧
  (∃ n, obj_name (Examples.conformant "alpha") = Some n ∧
        PyDict.contains n (_integrations Examples.alpha_registry) = true) ∧
  obj_name (Examples.conformant "beta") = Some "beta" ∧
  PyDict.contains "beta" (_integrations Examples.alpha_registry) = false ∧
  ∃ self',
    register (Examples.conformant "beta") Examples.alpha_registry
    = (Return tt, self') ∧
    _integrations self'
    = _integrations Examples.alpha_registry
      ++ [("beta", Examples.conformant "beta")].
Proof.
  destruct (register_all_or_nothing Examples.alpha_registry
              (Examples.conformant "alpha")) as [Hraise _].
  destruct (register_all_or_nothing Examples.alpha_registry
              (Examples.conformant "beta")) as [_ Hreturn].
  split; [reflexivity|].
  split; [exact (proj2 (Hraise (duplicate_error "alpha")
                          Examples.alpha_registry eq_refl))|].
  split; [reflexivity|]. split; [reflexivity|].
  exact (Hreturn "beta" eq_refl eq_refl).
Defined.
